(* ===== verification/_CoqProject ===== *)
-Q . S2P
Prelude.v
JsNumber.v
Digits.v
Rounding.v
JsString.v
JsDate.v
Transaction.v
Balances.v
Sort.v
History.v
Codec.v
Json.v
App.v
