(* ===== verification/Prelude.v ===== *)
(** * A verified model of the personal-finance ledger script [src/script.js]

    ** The program

    [src/script.js] is the whole program: a browser script shared by the
    pages of the ledger (dashboard, add form, history).  Its parts:
    - the ledger: a global array [transactions] loaded from
      [localStorage['transactions']] with [JSON.parse] when the script
      starts (lines 4-13) and written back whole with [JSON.stringify] by
      [saveTransactions] (lines 16-18);
    - the totals: [calculateBalances] (lines 26-41) folds the ledger into
      income, expense and balance in floating point, [formatCurrency]
      (lines 21-23) prints a number with [toFixed(2)] behind a rupee sign,
      [updateDashboard] (lines 44-52) writes the three totals;
    - the add form: [setupTransactionForm] (lines 55-98) registers the
      submit handler (lines 59-92), which parses the amount with
      [parseFloat], validates, pushes a record with [id = Date.now()],
      saves, resets the form, sets the date to today, refreshes the
      dashboard and alerts;
    - the history: [showTransactionHistory] (lines 101-148) filters the
      ledger by the lower-cased search text and the type filter, sorts the
      matches newest first with [Array.prototype.sort] and the comparator
      [new Date(b.date) - new Date(a.date)], and writes HTML into the list;
      [setupHistoryPage] (lines 151-159) re-runs it on search and filter
      events;
    - [initApp] (lines 162-167), run on [DOMContentLoaded] (line 170),
      calls the four set-up functions.

    ** Files, modules and what they model

    - [Prelude] (this file): imports, the [js_scope] notation [===] for
      JavaScript string equality, the [ledger] hint databases, the tactics
      [inv_clear], [case_if], [z_cases], and lemmas on lists and strings.
    - [JsNumber] (Module [JsNumber]): numbers as IEEE-754 binary64 values of
      the Standard Library's [SpecFloat] (precision 53, emax 1024): [+] and
      [-], [isNaN], [parseFloat] (ECMA-262 19.2.4, correctly rounded),
      [Number::toString] (shortest round-tripping digits) and
      [Number.prototype.toFixed] (21.1.3.3).
    - [Digits] (Module [Digits]): what these two routines print for
      integers, from the Standard Library's decimal conversions
      ([N.to_uint]): the digit list of an integer, its Horner value and
      its text; [toFixed(2)] of an integer and [Number::toString] of a
      positive integer up to [2^52]; the digit scanner reading them back.
    - [Rounding] (Module [Rounding]): the error of [parseFloat]'s rounding
      of a decimal literal [m * 10^e], [e < 0]: the invariant [inbetween]
      of the Standard Library's shift records (mantissa, round bit, sticky
      bit) against the exact value, kept by every shift; the result of
      [binary_round_aux] within half a unit in the last place; the reading
      and printing of amounts typed with two decimals.
    - [JsString]: [String.prototype.includes]; [toLowerCase] is the
      interface [CaseMapping], instantiated with ASCII case mapping.
    - [JsDate]: [new Date(s)] on the date-only forms a date input produces
      (MakeDay, DayFromYear, TimeClip) with time values in [Z]; the date a
      [valueAsDate] assignment writes; [toLocaleDateString] as the interface
      [DateLocale], instantiated by [dmy_locale offset] (a day/month/year
      locale [offset] milliseconds from UTC).
    - [Transaction]: the record of lines 71-77.
    - [Balances]: [accumulate] (the loop), [calculateBalances],
      [formatCurrency], [updateDashboard], with the reference [sum_from].
    - [Sort]: [Array.prototype.sort] as a stable insertion sort [sort_by]
      (ECMA-262 requires the sort to be stable).
    - [History]: [filterTransactions] (the push loop), [compareByDate] (a
      NaN difference counts as 0, as SortCompare does), [historyItems],
      [item_html] (the template literal character for character), [render],
      [showTransactionHistory].
    - [Codec]: the interface [LedgerCodec] (stringify, parse, the numbers
      it reproduces) and its laws [LedgerCodecLaws]; the page logic is
      proved against this interface.
    - [Json]: [JSON.stringify] and [JSON.parse] written out from ECMA-262
      25.5 and ECMA-404, the instance [json_codec] and the proof
      [json_codec_laws] that it satisfies the laws.
    - [App]: the browser ([Browser]: the stored entry and the page), the
      page state ([Page]: ledger, dashboard, form, list, alerts), loading
      ([load_page]: lines 4-13, then [initApp]), the submit handler
      [submit], the listeners as one step function [step_event] on
      [Event]s, runs [run], and the reachable states [reachable] of runs
      from a store and through events allowed by a filter.

    ** Theorems (C<n> is the claim number in the doc comment)

    - Persistence: every run from a store of JSON-safe numbers, with the
      clock at a positive time value up to 2^52 ms and every amount typed
      as a positive integer or with two decimals, keeps the page's ledger
      equal to what a reload reads (C1).  It rests
      on the codec-generic invariant [reachable_durable] (for any codec
      satisfying the laws of [Codec], runs whose numbers the codec
      reproduces) and on the discharge of its number hypothesis: a clock
      id is printed as its digits and read back exactly
      (C3); a typed amount is read by parseFloat
      and recorded within half an ulp (C5) and printed by the
      shortest-digits search as digits that read back as the same double
      (C4); the JSON model reads back every
      stringified ledger of such numbers (C2).
    - The handlers: the submit handler's accepting branch with every effect
      in order (C6) and its rejecting branch (C7); the
      dashboard of every reachable page shows the totals of its ledger
      (C8); a search or filter event renders [historyItems]
      for the new inputs (C22); without navigation the
      ledger is append-only (C10); every stored record passed
      the validation (C11); adding stays possible after any
      reload (C12).
    - Totals: the loop is two left-to-right sums (C13);
      non-negative amounts give
      non-negative, non-NaN totals whatever the rounding
      (C25); integer amounts within 2^53 are summed
      exactly (C18), so the totals are then order-independent
      (C19) and additive (C20), and the dashboard then prints the exact
      integer totals, since [toFixed(2)] of such an integer is its digits and
      [.00] (C21); end to end, a user who types whole
      rupees sees the exact integer totals on every reachable dashboard
      (C9), since [parseFloat] reads an integer's text as
      that integer; an amount typed with two decimals is printed back as
      typed (C33), since [parseFloat] lands within
      half a unit of the last place and [toFixed(2)] then finds the typed
      hundredths; [formatCurrency] rounds half up on the exact binary
      value (C34), so decimal ties such as 2.005 print
      rounded down (the Example [formatCurrency_ties]).
    - History: membership is exactly the search and filter tests
      (C14); with valid dates the list is newest first
      (C15), stable (C16), and equal to any stable sort
      of the matches (C17).
    - Dates: the default date the form gets reads back as UTC midnight of
      that day for all years 0000-9999 (C23), through
      the correctness of the calendar arithmetic ([civil_of_day_spec]); a
      host less than a day west of UTC shows every such date a day early,
      one at or east of UTC shows it as entered (C31).
    - What the model shows the code does against the specification: a
      corrupt store halts the page for good (C24); titles reach
      [innerHTML] unescaped (C26); an amount typed as a
      negative integer is recorded and as an expense raises the balance
      (C27); an amount that parses to an infinity is
      stored as [null], after which a reload no longer reads a ledger
      (C28); the float totals are neither additive
      (C29) nor order-independent
      (C30); the list is stale after any
      accepted submission it would show, on a page that also has the form
      (C32).  Concrete runs, kept as Examples, show
      an invalid stored date breaking the order
      ([historyItems_invalid_date_unsorted], an order ECMA-262 leaves to the
      implementation), two ids colliding in one millisecond
      ([duplicate_ids_same_millisecond]) and the specification's scenarios
      ([scenario_totals], [scenario_history]).

    ** Bounds and fuel

    - [JSON.parse] runs with fuel [length text + 1]: each nested value,
      array element and object member consumes at least one character, and
      [Json.json_parse_ledger] proves that this fuel reads any stringified
      ledger completely (7 units per record and one per element suffice,
      and a record prints to at least 8 characters).
    - [Number::toString] searches at most 17 significant digits, the most a
      binary64 value needs; [shortest_digits] has fuel 17.
    - Time values are integers of magnitude at most 8.64e15 < 2^53, so the
      comparator's binary64 subtraction is exact and they are kept in [Z].
    - Amounts typed with two decimals: up to [2^52] hundredths (4.5e13
      rupees).  Their binary64 value is then below [2^46], so its unit in
      the last place is at most [2^-7] and the reading error is below a
      two-hundredth of a hundredth; the literal is in the normal range,
      far from the overflow and underflow limits.  For [c >= 101] the
      shortest-digits search stops by its round [n + 2 <= 16], where [n]
      (at most 14) is the number of integer digits, since [c] itself, at
      [n + 2] digits, reads back as the same double; the 101 amounts up to
      one rupee are checked one by one by [vm_compute].
    - Ids: [Number::toString] is proved to print the digits of a positive
      integer up to [2^52] (4.5e15 ms, the year 144683): every candidate of
      the shortest-digits search is then at most twice the id, hence an
      integer below [2^53] that rounds to itself.

    ** Not modelled

    - The HTML pages are not in the repository: a page is described by the
      regions it has ([PageKind]) and their initial contents.
    - The implementation-specific fallback of the [Date] parser (strings
      other than the ISO date-only forms read as invalid), full Unicode case
      mapping, and the host's locale are interfaces or left out.
    - A stored JSON value that is valid but not an array of records
      ([Codec.Foreign]) makes the script's later behaviour depend on
      JavaScript's coercions; the page is then [Unmodelled].
    - [alert], [preventDefault] and the DOM API beyond the regions are I/O;
      alerts are recorded as a list of messages.
    - That a number survives JSON is proved for clock values and for
      amounts typed as positive integers or with two decimals; for other
      texts (one decimal, more decimals, a minus sign, an exponent) it is
      a hypothesis of the persistence theorems ([event_safe]), checked by
      evaluation on concrete inputs, not proved in general.
*)

From stdpp Require Export base list decidable.
From Stdlib Require Export ZArith Lia Ascii String Sorted Permutation.

Declare Scope js_scope.
Delimit Scope js_scope with js.

(** JavaScript's strict equality on strings, as the source writes it. *)
Notation "a === b" := (String.eqb a b) (at level 70, no associativity) : js_scope.

(** Decidable equality of byte strings, for [decide]. *)
#[export] Instance string_eq_dec : EqDecision string := string_dec.

Create HintDb ledger.
Create Rewrite HintDb ledger_rw.

(** Invert a hypothesis and clean up. *)
Ltac inv_clear H := inversion H; subst; clear H.

(** Case on the first boolean test of the goal, keeping its equation. *)
Ltac case_if :=
  match goal with
  | |- context [if ?b then _ else _] => destruct b eqn:?
  end.

(** Case on the integer comparisons of the goal, with their meaning. *)
Ltac z_cases :=
  repeat match goal with
  | |- context [Z.ltb ?a ?b] => destruct (Z.ltb_spec a b)
  | |- context [Z.leb ?a ?b] => destruct (Z.leb_spec a b)
  | |- context [Z.eqb ?a ?b] => destruct (Z.eqb_spec a b)
  end.

(** Turn boolean connectives and string tests into propositions. *)
Create Rewrite HintDb js_bool.
#[export] Hint Rewrite andb_true_iff orb_true_iff negb_true_iff String.eqb_eq : js_bool.

(** [f] holds on the [n] integers from [lo]: the executable check behind
    the finite case analyses of the development. *)
Fixpoint all_range (f : Z -> bool) (lo : Z) (n : nat) : bool :=
  match n with
  | O => true
  | S n' => f lo && all_range f (lo + 1)%Z n'
  end.

Section ListFacts.
Context {A : Type}.

(** A left fold over a filtered list is the fold that skips the
    rejected elements. *)
Lemma fold_left_filter {B} (f : B -> A -> B) (p : A -> bool) (l : list A) (b : B) :
  fold_left f (List.filter p l) b
  = fold_left (fun acc x => if p x then f acc x else acc) l b.
Proof. revert b; induction l as [|x l IH]; intros b; simpl; [reflexivity|]. destruct (p x); simpl; apply IH. Qed.

Lemma filter_app_l (p : A -> bool) (l1 l2 : list A) :
  List.filter p (l1 ++ l2) = List.filter p l1 ++ List.filter p l2.
Proof. induction l1 as [|x l1 IH]; simpl; [done|]. destruct (p x); simpl; by rewrite IH. Qed.

Lemma Forall_filter_sub (P : A -> Prop) (p : A -> bool) (l : list A) :
  Forall P l -> Forall P (List.filter p l).
Proof.
  rewrite !Forall_forall. intros H x Hx. apply filter_In in Hx as [Hx _]. auto.
Qed.
(** [List.filter] maps permutations to permutations, so it can be
    rewritten under [Permutation]. *)
#[export] Instance filter_Permutation_proper (p : A -> bool) :
  Proper (@Permutation A ==> @Permutation A) (List.filter p).
Proof.
  intros l1 l2 H. induction H as [|x l1 l2 _ IH|x y l|l1 l2 l3 _ IH1 _ IH2]; simpl.
  - done.
  - destruct (p x); [by apply perm_skip|done].
  - destruct (p x), (p y); try done; by constructor.
  - by etrans.
Qed.
End ListFacts.

#[export] Hint Resolve Forall_filter_sub : ledger.

#[export] Hint Rewrite @filter_app_l : ledger_rw.

(** Byte strings: [++] is associative with unit [EmptyString]. *)
Lemma string_app_nil_r (s : string) : (s ++ EmptyString)%string = s.
Proof. induction s as [|c s IH]; cbn; [done|by rewrite IH]. Qed.

Lemma string_length_app (s t : string) :
  String.length (s ++ t) = (String.length s + String.length t)%nat.
Proof. induction s as [|c s IH]; cbn; [done|by rewrite IH]. Qed.

Lemma string_app_assoc (s1 s2 s3 : string) :
  (s1 ++ (s2 ++ s3))%string = ((s1 ++ s2) ++ s3)%string.
Proof. induction s1 as [|c s1 IH]; cbn; [done|by rewrite IH]. Qed.

#[export] Hint Rewrite string_app_nil_r : ledger_rw.

Lemma all_range_spec (f : Z -> bool) (lo : Z) (n : nat) (x : Z) :
  all_range f lo n = true -> (lo <= x < lo + Z.of_nat n)%Z -> f x = true.
Proof.
  revert lo; induction n as [|n IH]; intros lo Hall Hx; [lia|].
  simpl in Hall. apply andb_prop in Hall as [Hlo Hrest].
  destruct (Z.eq_dec x lo) as [->|Hne]; [done|]. apply (IH (lo + 1)%Z); [done|lia].
Qed.

Lemma all_range_between (f : Z -> bool) (lo hi x : Z) :
  all_range f lo (Z.to_nat (hi - lo)) = true -> (lo <= x < hi)%Z -> f x = true.
Proof. intros Hall Hx. apply (all_range_spec f lo _ x Hall). lia. Qed.
