(* ===== verification/JsNumber.v ===== *)
(** * JavaScript numbers

    A JavaScript number is an IEEE-754 binary64 value.  It is modelled by the
    Standard Library's executable specification [spec_float] at precision 53
    and maximal exponent 1024, so [+] and [-] of the script are [SFadd] and
    [SFsub] rounding to nearest-even, and every computation runs by
    [vm_compute].  The file also writes out the two number routines of
    ECMA-262 that the script calls: [parseFloat] (section 19.2.4; the amount
    field, line 64) and [Number.prototype.toFixed] (section 21.1.3.3;
    [formatCurrency], line 22).  Strings are Stdlib byte strings; the
    whitespace [parseFloat] skips is the ASCII part of ECMA-262's
    WhiteSpace and LineTerminator sets.

    The theorems: rounding keeps non-negative sums non-negative
    ([dadd_nonneg]), and integers of magnitude at most [2^53] are numbers
    on which [+] and [-] are exact ([dadd_of_Z], [dsub_of_Z]), proved from
    [SpecFloat]'s rounding: [binary_round] of any representation of a
    representable value is that value ([binary_round_exact]).  What the
    two printing routines write for integers is proved in [Digits]. *)

From S2P Require Import Prelude.
From Stdlib Require Import Floats.SpecFloat DecimalString.
Open Scope Z_scope.

Module JsNumber.

(** ** Values and arithmetic *)

Definition double := spec_float.
Definition prec : Z := 53.
Definition emax : Z := 1024.

#[export] Instance double_eq_dec : EqDecision double.
Proof. unfold double. solve_decision. Defined.

(** [a + b] and [a - b] on numbers. *)
Definition dadd : double -> double -> double := SFadd prec emax.
Definition dsub : double -> double -> double := SFsub prec emax.

(** The literal [0]: positive zero. *)
Definition dzero : double := S754_zero false.

(** The global [isNaN] on a value that is already a number. *)
Definition isNaN (x : double) : bool :=
  match x with S754_nan => true | _ => false end.

Definition isFinite (x : double) : bool :=
  match x with S754_zero _ | S754_finite _ _ _ => true | _ => false end.

(** [x] is [+0], a positive finite number or [+Infinity]: a value with a
    clear sign bit that is not NaN. *)
Definition nonneg (x : double) : bool :=
  match x with
  | S754_zero false | S754_finite false _ _ | S754_infinity false => true
  | _ => false
  end.

(** The number nearest to an integer (exact below 2^53). *)
Definition of_Z (z : Z) : double := binary_normalize prec emax z 0 false.

(** The number nearest to [(-1)^neg * m * 10^e], rounding to nearest-even
    (ECMA-262 RoundMVResult).  A non-negative exponent scales the integer;
    a negative one divides by [10^(-e)] with the correctly rounding
    division core of [SFdiv]. *)
Definition round_decimal (neg : bool) (m : Z) (e : Z) : double :=
  if m =? 0 then S754_zero neg
  else if 0 <=? e then binary_normalize prec emax (if neg then - (m * 10 ^ e) else m * 10 ^ e) 0 neg
  else let '(q, e', loc) := SFdiv_core_binary prec emax m 0 (10 ^ (- e)) 0 in
       binary_round_aux prec emax neg q e' loc.

Declare Scope double_scope.
Delimit Scope double_scope with D.
Notation "a + b" := (dadd a b) : double_scope.
Notation "a - b" := (dsub a b) : double_scope.

(** ** parseFloat *)

(** The ASCII members of WhiteSpace and LineTerminator: TAB, LF, VT, FF,
    CR and SPACE. *)
Definition is_space (c : ascii) : bool :=
  match nat_of_ascii c with 9 | 10 | 11 | 12 | 13 | 32 => true | _ => false end%nat.

(** TrimString(_, start). *)
Fixpoint trim_start (s : string) : string :=
  match s with
  | String c r => if is_space c then trim_start r else s
  | EmptyString => EmptyString
  end.

Definition digit_value (c : ascii) : option Z :=
  let n := nat_of_ascii c in
  if (48 <=? n)%nat && (n <=? 57)%nat then Some (Z.of_nat n - 48) else None.

(** The longest run of decimal digits: the accumulated value [acc * 10^k +
    digits], the number [k] of digits read, and the rest of the string. *)
Fixpoint take_digits (s : string) (acc : Z) : Z * nat * string :=
  match s with
  | String c r =>
      match digit_value c with
      | Some d => let '(v, k, rest) := take_digits r (acc * 10 + d) in (v, S k, rest)
      | None => (acc, O, s)
      end
  | EmptyString => (acc, O, EmptyString)
  end.

(** A StrUnsignedDecimalLiteral prefix. *)
Inductive str_numeral := NumInfinity | NumDecimal (m : Z) (e : Z).

(** The ExponentPart of the longest prefix: the exponent, or [0] when the
    [e] is not followed by digits (then it is not part of the literal). *)
Definition exponent_part (s : string) : Z :=
  match s with
  | String c r =>
      if (c =? "e")%char || (c =? "E")%char then
        let '(sgn, r') :=
          match r with
          | String "+" r' => (1, r')
          | String "-" r' => (-1, r')
          | _ => (1, r)
          end in
        let '(v, k, _) := take_digits r' 0 in
        if (k =? 0)%nat then 0 else sgn * v
      else 0
  | EmptyString => 0
  end.

(** The longest prefix of [s] that is a StrUnsignedDecimalLiteral, if any:
    [Infinity], or [digits [. digits] [exponent]] / [. digits [exponent]]
    with at least one digit. *)
Definition parse_unsigned (s : string) : option str_numeral :=
  if String.prefix "Infinity"%string s then Some NumInfinity
  else
    let '(ip, ni, r1) := take_digits s 0 in
    match r1 with
    | String "." r2 =>
        let '(v, nf, r3) := take_digits r2 ip in
        if (ni + nf =? 0)%nat then None
        else Some (NumDecimal v (exponent_part r3 - Z.of_nat nf))
    | _ => if (ni =? 0)%nat then None else Some (NumDecimal ip (exponent_part r1))
    end.

Definition numeral_value (neg : bool) (n : option str_numeral) : double :=
  match n with
  | None => S754_nan
  | Some NumInfinity => S754_infinity neg
  | Some (NumDecimal m e) => round_decimal neg m e
  end.

(** [parseFloat(s)]: skip leading white space, read an optional sign and
    the longest StrUnsignedDecimalLiteral prefix; NaN when there is none. *)
Definition parseFloat (s : string) : double :=
  match trim_start s with
  | String "-" r => numeral_value true (parse_unsigned r)
  | String "+" r => numeral_value false (parse_unsigned r)
  | r => numeral_value false (parse_unsigned r)
  end.

(** ** Number.prototype.toFixed *)

(** The decimal digits of a non-negative integer ("0" for 0). *)
Definition decimal_digits (n : Z) : string :=
  NilEmpty.string_of_uint (N.to_uint (Z.to_N n)).

Fixpoint zeros (k : nat) : string :=
  match k with O => EmptyString | S k => String "0" (zeros k) end.


(** ** Number::toString *)

(** The number of decimal digits of a positive integer. *)
Definition num_digits (n : Z) : Z := Z.of_nat (String.length (decimal_digits n)).

(** For [x = m * 2^e > 0], the [n] with [10^(n-1) <= x < 10^n]. *)
Definition dec_exponent (m : positive) (e : Z) : Z :=
  if 0 <=? e then num_digits (Zpos m * 2 ^ e)
  else
    let D := 2 ^ (- e) in
    if D <=? Zpos m then num_digits (Zpos m / D)
    else
      let j0 := num_digits D - num_digits (Zpos m) in
      let j := if D <=? Zpos m * 10 ^ j0 then j0 else j0 + 1 in
      1 - j.

(** [|s * 10^q - m * 2^e|], scaled by a positive factor that depends only
    on [q] and [e]. *)
Definition scaled_distance (s q : Z) (m : positive) (e : Z) : Z :=
  let a := Z.max 0 (- q) in
  let b := Z.max 0 (- e) in
  Z.abs (s * 10 ^ (q + a) * 2 ^ b - Zpos m * 2 ^ (e + b) * 10 ^ a).

(** Step 5 of Number::toString (with the recommended choice of Note 2):
    the fewest digits [k] such that some [k]-digit [s] with
    [s * 10^(n-k)] rounding back to [x] exists, and among those [s] the
    closest to [x], the even one on a tie.  Only the two [k]-digit
    neighbours [lo] and [lo + 1] of [x] can round back to it; [lo + 1] may
    be [10^k], the power of ten [10^n], which is the one-digit [1] at
    exponent [n].  The result [(s, q)] is the candidate that was checked:
    [s * 10^q] rounds to [x].  Seventeen digits always suffice for
    binary64; [fuel] counts the digits still allowed. *)
Fixpoint shortest_digits (fuel : nat) (k : Z) (m : positive) (e n : Z) : Z * Z :=
  let q := n - k in
  let x := S754_finite false m e in
  let lo := (Zpos m * 2 ^ Z.max e 0 * 10 ^ Z.max (- q) 0) / (2 ^ Z.max (- e) 0 * 10 ^ Z.max q 0) in
  let hi := if lo + 1 =? 10 ^ k then (1, n) else (lo + 1, q) in
  let ok_lo := bool_decide (round_decimal false lo q = x) in
  let ok_hi := bool_decide (round_decimal false (fst hi) (snd hi) = x) in
  match fuel with
  | O => (lo, q)
  | S fuel' =>
      if ok_lo && ok_hi then
        let dl := scaled_distance lo q m e in
        let dh := scaled_distance (fst hi) (snd hi) m e in
        if dl <? dh then (lo, q) else if dh <? dl then hi
        else if Z.even lo then (lo, q) else hi
      else if ok_lo then (lo, q)
      else if ok_hi then hi
      else shortest_digits fuel' (k + 1) m e n
  end.

(** Steps 6-10 of Number::toString for [s * 10^(n-k)], [s] of [k] digits. *)
Definition format_number (s n : Z) : string :=
  let digits := decimal_digits s in
  let k := Z.of_nat (String.length digits) in
  if (k <=? n) && (n <=? 21) then (digits ++ zeros (Z.to_nat (n - k)))%string
  else if (0 <? n) && (n <=? 21) then
    (substring O (Z.to_nat n) digits ++ "." ++ substring (Z.to_nat n) (Z.to_nat (k - n)) digits)%string
  else if (-6 <? n) && (n <=? 0) then ("0." ++ zeros (Z.to_nat (- n)) ++ digits)%string
  else
    let exp := ("e" ++ (if (0 <=? n - 1)%Z then "+" else "-") ++ decimal_digits (Z.abs (n - 1)))%string in
    if k =? 1 then (digits ++ exp)%string
    else (substring O 1%nat digits ++ "." ++ substring 1%nat (Z.to_nat (k - 1)) digits ++ exp)%string.

(** Number::toString(x) (ECMA-262 6.1.6.1.20) in radix 10. *)
Definition number_to_string (x : double) : string :=
  match x with
  | S754_nan => "NaN"%string
  | S754_zero _ => "0"%string
  | S754_infinity false => "Infinity"%string
  | S754_infinity true => "-Infinity"%string
  | S754_finite sgn m e =>
      let '(s, q) := shortest_digits 17 1 m e (dec_exponent m e) in
      ((if sgn then "-" else "") ++ format_number s (q + num_digits s))%string
  end.

(** Steps 10.b-10.d of toFixed: the digits of [n], left-padded with zeros
    to more than [f] digits, with a point before the last [f]. *)
Definition fixed_notation (f : nat) (n : Z) : string :=
  let m := decimal_digits n in
  let k := String.length m in
  let '(m, k) := if (k <=? f)%nat then ((zeros (f + 1 - k) ++ m)%string, (f + 1)%nat) else (m, k) in
  if (f =? 0)%nat then m
  else (substring 0 (k - f) m ++ "." ++ substring (k - f) f m)%string.

(** Step 10.a for [x = m * 2^e > 0]: the integer [n] with [n / 10^f - x]
    closest to zero, the larger one on a tie. *)
Definition scaled_round (f : nat) (m : positive) (e : Z) : Z :=
  let N := Zpos m * 10 ^ Z.of_nat f in
  if 0 <=? e then N * 2 ^ e
  else
    let D := 2 ^ (- e) in
    if D <=? 2 * (N mod D) then N / D + 1 else N / D.

(** Step 9's test [x >= 10^21] for [x = m * 2^e > 0]. *)
Definition at_least_1e21 (m : positive) (e : Z) : bool :=
  if 0 <=? e then 10 ^ 21 <=? Zpos m * 2 ^ e
  else 10 ^ 21 * 2 ^ (- e) <=? Zpos m.

(** [x.toFixed(f)] for [0 <= f <= 100] (the script passes 2): NaN and the
    infinities print as Number::toString does; a negative [x] (not -0)
    prints a minus sign before the digits of [-x]. *)
Definition toFixed (f : nat) (x : double) : string :=
  match x with
  | S754_nan => "NaN"
  | S754_infinity false => "Infinity"
  | S754_infinity true => "-Infinity"
  | S754_zero _ => fixed_notation f 0
  | S754_finite s m e =>
      (if s then "-" else "") ++
      (if at_least_1e21 m e then number_to_string (S754_finite false m e)
       else fixed_notation f (scaled_round f m e))
  end%string.

(** ** Sign of rounded results *)

Lemma shr_1_nonneg (mrs : shr_record) : 0 <= shr_m mrs -> 0 <= shr_m (shr_1 mrs).
Proof. destruct mrs as [[|[p|p|]|p] r s]; simpl; lia. Qed.

Lemma iter_shr_1_nonneg (p : positive) :
  forall mrs, 0 <= shr_m mrs -> 0 <= shr_m (iter_pos shr_1 p mrs).
Proof. induction p; intros; simpl; auto using shr_1_nonneg. Qed.

Lemma shr_fexp_nonneg (m e : Z) (l : location) :
  0 <= m -> 0 <= shr_m (fst (shr_fexp prec emax m e l)).
Proof.
  intros Hm. unfold shr_fexp, shr.
  assert (0 <= shr_m (shr_record_of_loc m l)) by (destruct l as [|[]]; simpl; lia).
  destruct (_ - _); simpl; auto using iter_shr_1_nonneg.
Qed.

Lemma round_nearest_even_nonneg (m : Z) (l : location) :
  0 <= m -> 0 <= round_nearest_even m l.
Proof. destruct l as [|[]]; simpl; try case_if; lia. Qed.

(** Rounding a non-negative magnitude with a clear sign never gives NaN
    nor a negative value. *)
Lemma binary_round_aux_nonneg (m e : Z) (l : location) :
  0 <= m -> nonneg (binary_round_aux prec emax false m e l) = true.
Proof.
  intros Hm. unfold binary_round_aux.
  pose proof (shr_fexp_nonneg m e l Hm) as H1.
  destruct (shr_fexp prec emax m e l) as [mrs' e'] eqn:E1. simpl in H1.
  pose proof (shr_fexp_nonneg _ e' loc_Exact (round_nearest_even_nonneg _ (loc_of_shr_record mrs') H1)) as H2.
  destruct (shr_fexp prec emax _ e' loc_Exact) as [mrs'' e'']. simpl in H2.
  destruct (shr_m mrs''); [done| |lia]. by case_if.
Qed.

(** The sum of two non-negative numbers is non-negative (and not NaN). *)
Lemma dadd_nonneg (x y : double) :
  nonneg x = true -> nonneg y = true -> nonneg (dadd x y) = true.
Proof.
  destruct x as [[]|[]| |[] mx ex]; destruct y as [[]|[]| |[] my ey]; try done; intros _ _.
  unfold dadd, SFadd, binary_normalize, cond_Zopp.
  destruct (shl_align mx ex (Z.min ex ey)) as [ax ?], (shl_align my ey (Z.min ex ey)) as [ay ?].
  simpl. unfold binary_round. destruct (shl_align _ _ _). by apply binary_round_aux_nonneg.
Qed.

#[export] Hint Resolve dadd_nonneg : ledger.

(** ** Exact integer arithmetic

    Below [2^53] every integer is a number, and [+] and [-] of such numbers
    are exact while the result stays below [2^53]: [binary_round] of any
    representation of a representable value is that value. *)

Lemma digits2_pos_bounds (p : positive) :
  2 ^ (Zpos (digits2_pos p) - 1) <= Zpos p < 2 ^ Zpos (digits2_pos p).
Proof.
  induction p as [p IH|p IH|]; [| |simpl; lia]; cbn [digits2_pos];
    rewrite Pos2Z.inj_succ; set (d := Zpos (digits2_pos p)) in *;
    assert (Hd : 1 <= d) by (unfold d; lia);
    replace (Z.succ d - 1) with d by lia; rewrite Z.pow_succ_r by lia;
    assert (E : 2 ^ d = 2 * 2 ^ (d - 1)) by (rewrite <- Z.pow_succ_r by lia; f_equal; lia);
    rewrite ?(Pos2Z.inj_xI p), ?(Pos2Z.inj_xO p); lia.
Qed.

Lemma digits2_pos_log2 (p : positive) : Zpos (digits2_pos p) = Z.log2 (Zpos p) + 1.
Proof.
  pose proof (digits2_pos_bounds p) as Hb.
  rewrite (Z.log2_unique (Zpos p) (Zpos (digits2_pos p) - 1)); [lia|lia|].
  replace (Z.succ (Zpos (digits2_pos p) - 1)) with (Zpos (digits2_pos p)) by lia. lia.
Qed.

Lemma pos_iter_xO (m k : positive) : Zpos (Pos.iter xO m k) = Zpos m * 2 ^ Zpos k.
Proof.
  induction k as [|k IH] using Pos.peano_ind; [simpl; lia|].
  rewrite Pos.iter_succ, (Pos2Z.inj_xO (Pos.iter xO m k)), IH, Pos2Z.inj_succ, Z.pow_succ_r by lia. lia.
Qed.

Lemma shr_1_double (m : Z) :
  shr_1 {| shr_m := 2 * m; shr_r := false; shr_s := false |} = {| shr_m := m; shr_r := false; shr_s := false |}.
Proof. by destruct m. Qed.

Lemma iter_shr_exact (p : positive) (m : Z) :
  iter_pos shr_1 p {| shr_m := m * 2 ^ Zpos p; shr_r := false; shr_s := false |}
  = {| shr_m := m; shr_r := false; shr_s := false |}.
Proof.
  revert m. induction p as [p IH|p IH|]; intros m; cbn [iter_pos].
  - replace (m * 2 ^ Zpos p~1) with (2 * ((m * 2 ^ Zpos p) * 2 ^ Zpos p))
      by (rewrite (Pos2Z.inj_xI p), Z.pow_add_r, Z.pow_twice_r by lia; ring).
    by rewrite shr_1_double, !IH.
  - replace (m * 2 ^ Zpos p~0) with ((m * 2 ^ Zpos p) * 2 ^ Zpos p)
      by (rewrite (Pos2Z.inj_xO p), Z.pow_twice_r by lia; ring).
    by rewrite !IH.
  - by rewrite Z.pow_1_r, Z.mul_comm, shr_1_double.
Qed.

Lemma Zdigits2_log2 (z : Z) : 0 < z -> Zdigits2 z = Z.log2 z + 1.
Proof. destruct z as [|p|p]; [lia| |lia]. intros _. apply digits2_pos_log2. Qed.

Lemma log2_canonical (M : Z) (k : Z) : 2 ^ 52 <= M < 2 ^ 53 -> 0 <= k -> Z.log2 (M * 2 ^ k) = 52 + k.
Proof.
  intros HM Hk. rewrite Z.log2_mul_pow2 by lia.
  rewrite (Z.log2_unique M 52); [lia|lia|]. replace (Z.succ 52) with 53 by lia. lia.
Qed.

Lemma fexp_canonical (M : positive) (E : Z) :
  2 ^ 52 <= Zpos M < 2 ^ 53 -> -1074 <= E ->
  fexp prec emax (Zdigits2 (Zpos M) + E) - E = 0.
Proof.
  intros HM HE. rewrite Zdigits2_log2, (Z.log2_unique (Zpos M) 52); try lia.
  unfold fexp, emin, prec, emax. lia.
Qed.

(** Rounding a value that is exactly [M * 2^E] with a 53-bit [M] and a
    normal exponent gives that number. *)
Lemma round_aux_exact (s : bool) (M : positive) (E k : Z) :
  2 ^ 52 <= Zpos M < 2 ^ 53 -> -1074 <= E <= 971 -> 0 <= k ->
  binary_round_aux prec emax s (Zpos M * 2 ^ k) (E - k) loc_Exact = S754_finite s M E.
Proof.
  intros HM HE Hk. unfold binary_round_aux, shr_fexp. cbn [shr_record_of_loc].
  assert (Hd : Zdigits2 (Zpos M * 2 ^ k) = 53 + k).
  { rewrite Zdigits2_log2 by lia. rewrite log2_canonical by lia. lia. }
  assert (Hf : fexp prec emax (Zdigits2 (Zpos M * 2 ^ k) + (E - k)) - (E - k) = k).
  { rewrite Hd. unfold fexp, emin, prec, emax. lia. }
  rewrite Hf. destruct k as [|p|p]; [|cbn [shr]|lia].
  - rewrite Z.mul_1_r, Z.sub_0_r. cbn [shr shr_m loc_of_shr_record round_nearest_even shr_record_of_loc].
    rewrite fexp_canonical by lia. cbn [shr shr_m]. destruct (Z.leb_spec E (emax - prec)); [done|unfold emax, prec in *; lia].
  - rewrite iter_shr_exact. replace (E - Zpos p + Zpos p) with E by lia.
    cbn [shr_m loc_of_shr_record round_nearest_even shr_record_of_loc].
    rewrite fexp_canonical by lia. cbn [shr shr_m]. destruct (Z.leb_spec E (emax - prec)); [done|unfold emax, prec in *; lia].
Qed.

Lemma cancel_pow2 (a b x y : Z) :
  0 <= y <= x -> a * 2 ^ x = b * 2 ^ y -> a * 2 ^ (x - y) = b.
Proof.
  intros Hxy Hv. apply (Z.mul_cancel_r _ _ (2 ^ y)); [apply Z.pow_nonzero; lia|].
  rewrite <- Z.mul_assoc, <- Z.pow_add_r by lia. by replace (x - y + y) with x by lia.
Qed.

(** [binary_round] of any representation [m * 2^e] of the number
    [M * 2^E] (equal after scaling both by [2^-L]) is that number. *)
Lemma binary_round_exact (s : bool) (m M : positive) (e E L : Z) :
  2 ^ 52 <= Zpos M < 2 ^ 53 -> -1074 <= E <= 971 -> L <= e -> L <= E ->
  Zpos m * 2 ^ (e - L) = Zpos M * 2 ^ (E - L) ->
  binary_round prec emax s m e = S754_finite s M E.
Proof.
  intros HM HE H1 H2 Hv.
  assert (Hd : Zpos (digits2_pos m) + e = 53 + E).
  { rewrite digits2_pos_log2.
    assert (Hl : Z.log2 (Zpos m * 2 ^ (e - L)) = Z.log2 (Zpos M * 2 ^ (E - L))) by (by rewrite Hv).
    rewrite Z.log2_mul_pow2, log2_canonical in Hl by lia. lia. }
  unfold binary_round.
  replace (fexp prec emax (Zpos (digits2_pos m) + e)) with E
    by (rewrite Hd; unfold fexp, emin, prec, emax; lia).
  pose proof (round_aux_exact s M E 0 HM HE ltac:(lia)) as R0.
  rewrite Z.mul_1_r, Z.sub_0_r in R0.
  unfold shl_align. destruct (Z.lt_trichotomy E e) as [Hlt|[->|Hgt]].
  - replace (E - e) with (Zneg (Z.to_pos (e - E))) by lia. cbn [fst snd].
    assert (Hm : Pos.iter xO m (Z.to_pos (e - E)) = M).
    { apply Pos2Z.inj. rewrite pos_iter_xO, Z2Pos.id by lia.
      apply (cancel_pow2 _ _ (e - L) (E - L)) in Hv; [|lia]. by replace (e - L - (E - L)) with (e - E) in Hv by lia. }
    by rewrite Hm.
  - rewrite Z.sub_diag. cbn [fst snd].
    assert (Hm : m = M).
    { apply Pos2Z.inj. apply (cancel_pow2 _ _ (e - L) (e - L)) in Hv; [|lia]. by rewrite Z.sub_diag, Z.mul_1_r in Hv. }
    by subst.
  - replace (E - e) with (Zpos (Z.to_pos (E - e))) by lia. cbn [fst snd].
    symmetry in Hv. apply (cancel_pow2 _ _ (E - L) (e - L)) in Hv; [|lia].
    replace (E - L - (e - L)) with (E - e) in Hv by lia.
    rewrite <- Hv. replace e with (E - (E - e)) at 2 by lia. apply round_aux_exact; lia.
Qed.

(** Every integer of magnitude at most [2^53] is a binary64 value: its
    53-bit mantissa and exponent. *)
Lemma int_canonical (n : positive) :
  Zpos n <= 2 ^ 53 ->
  exists M E, 2 ^ 52 <= Zpos M < 2 ^ 53 /\ -52 <= E <= 1 /\ Zpos n * 2 ^ 53 = Zpos M * 2 ^ (E + 53).
Proof.
  intros Hn. pose proof (Z.log2_spec (Zpos n) ltac:(lia)) as [Hlo Hhi].
  assert (Hd : 0 <= Z.log2 (Zpos n) <= 53).
  { split; [apply Z.log2_nonneg|]. pose proof (Z.log2_le_mono _ _ Hn) as Hm. rewrite Z.log2_pow2 in Hm by lia. lia. }
  destruct (Z.eq_dec (Z.log2 (Zpos n)) 53) as [H53|H53].
  - exists (2 ^ 52)%positive, 1. rewrite H53 in Hlo. rewrite Pos2Z.inj_pow. split; [lia|].
    split; [lia|]. replace (Zpos n) with (2 ^ 53) by lia. by rewrite <- !Z.pow_add_r by lia.
  - set (d := Z.log2 (Zpos n)) in *. rewrite <- Z.add_1_r in Hhi.
    exists (Z.to_pos (Zpos n * 2 ^ (52 - d))), (d - 52).
    assert (Hp : 0 < Zpos n * 2 ^ (52 - d)) by (apply Z.mul_pos_pos; [lia|apply Z.pow_pos_nonneg; lia]).
    rewrite Z2Pos.id by done. split; [|split; [lia|]].
    + replace (2 ^ 52) with (2 ^ d * 2 ^ (52 - d)) by (rewrite <- Z.pow_add_r by lia; f_equal; lia).
      replace (2 ^ 53) with (2 ^ (d + 1) * 2 ^ (52 - d)) by (rewrite <- Z.pow_add_r by lia; f_equal; lia).
      assert (0 < 2 ^ (52 - d)) by (apply Z.pow_pos_nonneg; lia). nia.
    + rewrite <- Z.mul_assoc, <- Z.pow_add_r by lia. f_equal. f_equal. lia.
Qed.

Lemma signed_abs (z : Z) : cond_Zopp (z <? 0) (Z.abs z) = z.
Proof. destruct (Z.ltb_spec z 0); simpl; lia. Qed.

Lemma of_Z_repr (z : Z) (M : positive) (E : Z) :
  z <> 0 -> 2 ^ 52 <= Zpos M < 2 ^ 53 -> -52 <= E <= 1 -> Z.abs z * 2 ^ 53 = Zpos M * 2 ^ (E + 53) ->
  of_Z z = S754_finite (z <? 0) M E.
Proof.
  intros Hz HM HE Hv. destruct z as [|n|n]; [done| |]; unfold of_Z, binary_normalize;
    apply (binary_round_exact _ _ _ _ _ (-53)); try lia;
    replace (0 - -53) with 53 by lia; replace (E - -53) with (E + 53) by lia; exact Hv.
Qed.

Lemma of_Z_finite (z : Z) :
  z <> 0 -> Z.abs z <= 2 ^ 53 ->
  exists M E, of_Z z = S754_finite (z <? 0) M E /\ 2 ^ 52 <= Zpos M < 2 ^ 53 /\ -52 <= E <= 1 /\
              Z.abs z * 2 ^ 53 = Zpos M * 2 ^ (E + 53).
Proof.
  intros Hz Hb. assert (Hp : 0 < Z.abs z) by lia.
  destruct (int_canonical (Z.to_pos (Z.abs z))) as (M & E & HM & HE & Hv); [rewrite Z2Pos.id; lia|].
  rewrite Z2Pos.id in Hv by lia. exists M, E. split; [|done]. by apply of_Z_repr.
Qed.

(** Rounding an exact integer-valued sum gives the integer. *)
Lemma binary_normalize_exact (S ez z : Z) :
  -53 <= ez -> Z.abs z <= 2 ^ 53 -> S * 2 ^ (ez + 53) = z * 2 ^ 53 ->
  binary_normalize prec emax S ez false = of_Z z.
Proof.
  intros Hez Hb Hv. destruct (Z.eq_dec z 0) as [->|Hz].
  - assert (S = 0) as -> by (apply (Z.mul_eq_0_l _ (2 ^ (ez + 53))); [lia|apply Z.pow_nonzero; lia]).
    reflexivity.
  - destruct (of_Z_finite z Hz Hb) as (M & E & -> & HM & HE & HzM).
    assert (Hpow : 0 < 2 ^ (ez + 53)) by (apply Z.pow_pos_nonneg; lia).
    destruct S as [|p|p]; simpl.
    + lia.
    + assert (0 < z) by nia. replace (z <? 0) with false by (symmetry; apply Z.ltb_ge; lia).
      apply (binary_round_exact _ _ _ _ _ (-53)); try lia.
      replace (ez - -53) with (ez + 53) by lia. replace (E - -53) with (E + 53) by lia.
      rewrite <- HzM, Hv. f_equal. lia.
    + assert (z < 0) by nia. replace (z <? 0) with true by (symmetry; apply Z.ltb_lt; lia).
      apply (binary_round_exact _ _ _ _ _ (-53)); try lia.
      replace (ez - -53) with (ez + 53) by lia. replace (E - -53) with (E + 53) by lia.
      rewrite <- HzM. replace (Zpos p) with (- Zneg p) by lia. rewrite Z.mul_opp_l, Hv. lia.
Qed.

Lemma shl_align_fst (m : positive) (e ez : Z) :
  ez <= e -> Zpos (fst (shl_align m e ez)) = Zpos m * 2 ^ (e - ez).
Proof.
  intros He. unfold shl_align. destruct (ez - e) as [|d|d] eqn:Hd; simpl.
  - replace (e - ez) with 0 by lia. lia.
  - lia.
  - rewrite pos_iter_xO. do 2 f_equal. lia.
Qed.

Lemma aligned_value (z : Z) (M : positive) (E ez : Z) :
  -53 <= ez <= E -> Z.abs z * 2 ^ 53 = Zpos M * 2 ^ (E + 53) ->
  cond_Zopp (z <? 0) (Zpos (fst (shl_align M E ez))) * 2 ^ (ez + 53) = z * 2 ^ 53.
Proof.
  intros Hez Hv. rewrite shl_align_fst by lia.
  assert (Hs : Zpos M * 2 ^ (E - ez) * 2 ^ (ez + 53) = Z.abs z * 2 ^ 53).
  { rewrite Hv, <- Z.mul_assoc, <- Z.pow_add_r by lia. do 2 f_equal. lia. }
  destruct (Z.ltb_spec z 0); simpl; [rewrite Z.mul_opp_l, Hs|rewrite Hs]; lia.
Qed.

Lemma dzero_of_Z : dzero = of_Z 0.
Proof. reflexivity. Qed.

(** Sums of integers are exact while every operand and the result stay
    within [2^53] in magnitude. *)
Lemma dadd_of_Z (a b : Z) :
  Z.abs a <= 2 ^ 53 -> Z.abs b <= 2 ^ 53 -> Z.abs (a + b) <= 2 ^ 53 ->
  dadd (of_Z a) (of_Z b) = of_Z (a + b).
Proof.
  intros Ha Hb Hab.
  destruct (Z.eq_dec a 0) as [->|Ha0].
  { destruct (Z.eq_dec b 0) as [->|Hb0]; [reflexivity|].
    destruct (of_Z_finite b Hb0 Hb) as (Mb & Eb & Eq & _). unfold dadd. by rewrite Eq. }
  destruct (Z.eq_dec b 0) as [->|Hb0].
  { rewrite Z.add_0_r. destruct (of_Z_finite a Ha0 Ha) as (Ma & Ea & Eq & _). unfold dadd. by rewrite Eq. }
  destruct (of_Z_finite a Ha0 Ha) as (Ma & Ea & Eqa & HMa & HEa & Hva).
  destruct (of_Z_finite b Hb0 Hb) as (Mb & Eb & Eqb & HMb & HEb & Hvb).
  unfold dadd. rewrite Eqa, Eqb. cbn [SFadd].
  apply binary_normalize_exact; [lia|done|].
  rewrite Z.mul_add_distr_r, !aligned_value by lia. ring.
Qed.

Lemma dsub_of_Z (a b : Z) :
  Z.abs a <= 2 ^ 53 -> Z.abs b <= 2 ^ 53 -> Z.abs (a - b) <= 2 ^ 53 ->
  dsub (of_Z a) (of_Z b) = of_Z (a - b).
Proof.
  intros Ha Hb Hab.
  destruct (Z.eq_dec b 0) as [->|Hb0].
  { rewrite Z.sub_0_r. destruct (Z.eq_dec a 0) as [->|Ha0]; [reflexivity|].
    destruct (of_Z_finite a Ha0 Ha) as (Ma & Ea & Eq & _). unfold dsub. by rewrite Eq. }
  destruct (of_Z_finite b Hb0 Hb) as (Mb & Eb & Eqb & HMb & HEb & Hvb).
  destruct (Z.eq_dec a 0) as [->|Ha0].
  { unfold dsub. rewrite Eqb. change (of_Z 0) with (S754_zero false). cbn [SFsub].
    assert (Hv' : Z.abs (0 - b) * 2 ^ 53 = Zpos Mb * 2 ^ (Eb + 53)) by (rewrite <- Hvb; f_equal; lia).
    rewrite (of_Z_repr (0 - b) Mb Eb) by lia.
    f_equal. destruct (Z.ltb_spec b 0), (Z.ltb_spec (0 - b) 0); simpl; lia. }
  destruct (of_Z_finite a Ha0 Ha) as (Ma & Ea & Eqa & HMa & HEa & Hva).
  unfold dsub. rewrite Eqa, Eqb. cbn [SFsub].
  apply binary_normalize_exact; [lia|done|].
  rewrite Z.mul_sub_distr_r, !aligned_value by lia. ring.
Qed.

End JsNumber.
