(* ===== verification/Digits.v ===== *)
(** * Decimal digits of integers

    What [Number::toString] and [toFixed(2)] of [JsNumber] print for an
    integer, and what the JSON number reader reads back from those digits.
    The digits are the Standard Library's [N.to_uint]; the lemmas here
    connect them to the value they denote (a Horner sum over the digit
    list, [digits_value]), to the text of [10 a + k] ([decimal_digits_snoc])
    and to the digit scanner [take_digits] ([take_digits_decimal]).  The
    theorems: [toFixed(2)] of an integer of magnitude at most [2^53] is its
    sign, digits and [.00] ([toFixed_of_Z]); [Number::toString] of a
    positive integer at most [2^52] is its digits ([number_to_string_of_Z]),
    because every shorter candidate of the shortest-digits search is an
    integer that rounds to itself. *)

From S2P Require Import Prelude JsNumber.
From Stdlib Require Import Floats.SpecFloat DecimalString Decimal DecimalFacts DecimalPos DecimalN DecimalZ.
Import JsNumber.
Open Scope Z_scope.

Module Digits.

(** ** Digit lists and their values *)

Definition digit_val (k : digits) : Z :=
  match k with
  | d0 => 0 | d1 => 1 | d2 => 2 | d3 => 3 | d4 => 4
  | d5 => 5 | d6 => 6 | d7 => 7 | d8 => 8 | d9 => 9
  end.

(** The value of a digit list read most significant digit first, after the
    digits already read into [acc] (a Horner sum). *)
Fixpoint digits_value (l : list digits) (acc : Z) : Z :=
  match l with
  | [] => acc
  | k :: l => digits_value l (acc * 10 + digit_val k)
  end.

(** The text of a digit list. *)
Definition digits_text (l : list digits) : string := NilEmpty.string_of_uint (of_list l).

(** The text a user types for the integer [z]: a minus sign when it is
    negative, then its decimal digits. *)
Definition int_text (z : Z) : string :=
  ((if (z <? 0)%Z then "-" else "") ++ decimal_digits (Z.abs z))%string.

(** The integer value of a number that is an integer (0 for the others). *)
Definition to_int (x : double) : Z :=
  match x with
  | S754_finite s m e => cond_Zopp s (if 0 <=? e then Zpos m * 2 ^ e else Zpos m / 2 ^ (- e))
  | _ => 0
  end.

(** A text that ends a run of digits: empty or not starting with a digit. *)
Definition digit_stop (r : string) : Prop :=
  match r with String c _ => digit_value c = None | EmptyString => True end.

(** ** [toFixed(2)] of an integer *)

Lemma string_of_list_app (l k : list digits) :
  NilEmpty.string_of_uint (of_list (l ++ k)) =
  (NilEmpty.string_of_uint (of_list l) ++ NilEmpty.string_of_uint (of_list k))%string.
Proof. induction l as [|[] l IH]; simpl; try rewrite IH; reflexivity. Qed.

Lemma string_of_uint_app (d e : uint) :
  NilEmpty.string_of_uint (app d e) = (NilEmpty.string_of_uint d ++ NilEmpty.string_of_uint e)%string.
Proof. by rewrite <- (of_list_to_list (app d e)), app_spec, string_of_list_app, !of_list_to_list. Qed.

Lemma lnzhead_app (l k : list digits) :
  lnzhead l = l -> l <> [] -> lnzhead (l ++ k) = l ++ k.
Proof.
  destruct l as [|[] l]; simpl; try done.
  intros H _. pose proof (length_lnzhead l) as Hl. rewrite H in Hl. simpl in Hl. lia.
Qed.

(** The decimal digits of a positive number start with a non-zero digit. *)
Lemma to_uint_nzhead (p : positive) : nzhead (Pos.to_uint p) = Pos.to_uint p.
Proof.
  pose proof (DecimalN.Unsigned.to_of (Pos.to_uint p)) as H.
  unfold N.of_uint in H. rewrite DecimalPos.Unsigned.of_to in H. simpl in H.
  unfold unorm in H. destruct (nzhead (Pos.to_uint p)) eqn:E; try congruence.
  exfalso. exact (DecimalPos.Unsigned.to_uint_nonzero p H).
Qed.

Lemma digit_val_range (k : digits) : 0 <= digit_val k < 10.
Proof. destruct k; simpl; lia. Qed.

Lemma digits_value_app (l1 l2 : list digits) (acc : Z) :
  digits_value (l1 ++ l2) acc = digits_value l2 (digits_value l1 acc).
Proof. revert acc. induction l1; simpl; auto. Qed.

Lemma digits_value_acc (l : list digits) (acc : Z) :
  digits_value l acc = acc * 10 ^ Z.of_nat (List.length l) + digits_value l 0.
Proof.
  revert acc. induction l as [|k l IH]; intros acc; simpl; [lia|].
  rewrite (IH (acc * 10 + _)), (IH (0 * 10 + _)), Nat2Z.inj_succ, Z.pow_succ_r by lia. ring.
Qed.

(** The value of [k] digits is below [10^k]; it is at least [10^(k-1)]
    when the first digit is not zero. *)
Lemma digits_value_bound (l : list digits) : 0 <= digits_value l 0 < 10 ^ Z.of_nat (List.length l).
Proof.
  induction l as [|k l IH]; simpl; [lia|]. pose proof (digit_val_range k).
  rewrite digits_value_acc, Nat2Z.inj_succ, Z.pow_succ_r by lia. nia.
Qed.

Lemma digits_value_lead (k : digits) (l : list digits) :
  k <> d0 -> 10 ^ Z.of_nat (List.length l) <= digits_value (k :: l) 0.
Proof.
  intros Hk. simpl. rewrite digits_value_acc. pose proof (digits_value_bound l).
  assert (1 <= digit_val k) by (destruct k; simpl; lia || done). nia.
Qed.

Lemma of_lu_cons (k : digits) (l : list digits) :
  Z.of_N (DecimalPos.Unsigned.of_lu (of_list (k :: l))) =
  digit_val k + 10 * Z.of_N (DecimalPos.Unsigned.of_lu (of_list l)).
Proof. destruct k; cbn [of_list DecimalPos.Unsigned.of_lu digit_val]; lia. Qed.

(** [N.of_uint] is the Horner value of the digits. *)
Lemma uint_value (d : uint) : Z.of_N (N.of_uint d) = digits_value (to_list d) 0.
Proof.
  unfold N.of_uint. rewrite DecimalPos.Unsigned.of_uint_alt.
  replace (Decimal.rev d) with (of_list (List.rev (to_list d)))
    by (apply to_list_inj; by rewrite to_list_of_list, rev_spec).
  generalize (to_list d). clear d. intros l.
  induction l as [|k l IH] using rev_ind; [done|].
  rewrite rev_unit, of_lu_cons, IH, digits_value_app. simpl. lia.
Qed.

Lemma uint_to_value (p : positive) : digits_value (to_list (Pos.to_uint p)) 0 = Zpos p.
Proof.
  rewrite <- uint_value. unfold N.of_uint. by rewrite DecimalPos.Unsigned.of_to.
Qed.

(** The digits of [10 p + k] are those of [p] followed by [k]. *)
Lemma to_uint_snoc (p : positive) (k : digits) :
  N.to_uint (Z.to_N (Zpos p * 10 + digit_val k)) = app (Pos.to_uint p) (of_list [k]).
Proof.
  set (d := app (Pos.to_uint p) (of_list [k])).
  assert (Hv : N.of_uint d = Z.to_N (Zpos p * 10 + digit_val k)).
  { apply N2Z.inj. pose proof (digit_val_range k).
    rewrite uint_value, Z2N.id by lia. unfold d.
    rewrite app_spec, to_list_of_list, digits_value_app, uint_to_value. reflexivity. }
  rewrite <- Hv, DecimalN.Unsigned.to_of. unfold unorm.
  assert (Hn : nzhead d = d).
  { apply to_list_inj. unfold d. rewrite nzhead_spec, app_spec. apply lnzhead_app.
    - by rewrite <- nzhead_spec, to_uint_nzhead.
    - intros Hl. by apply (DecimalPos.Unsigned.to_uint_nonnil p), to_list_inj. }
  rewrite Hn. unfold d. generalize (Pos.to_uint p). intros u.
  destruct (app u (of_list [k])) eqn:E; try reflexivity.
  apply (f_equal to_list) in E. rewrite app_spec, to_list_of_list in E. destruct (to_list u); discriminate.
Qed.

Lemma decimal_digits_snoc (a : Z) (k : digits) :
  0 < a -> decimal_digits (a * 10 + digit_val k) = (decimal_digits a ++ digits_text [k])%string.
Proof.
  intros Ha. destruct a as [|p|p]; try lia. unfold decimal_digits.
  rewrite to_uint_snoc, string_of_uint_app. reflexivity.
Qed.

Lemma decimal_digits_tenfold (n : Z) :
  0 < n -> decimal_digits (n * 10) = (decimal_digits n ++ "0")%string.
Proof. intros Hn. rewrite <- (Z.add_0_r (n * 10)). exact (decimal_digits_snoc n d0 Hn). Qed.

Lemma decimal_digits_nonempty (n : Z) : 0 < n -> (1 <= String.length (decimal_digits n))%nat.
Proof.
  intros Hn. destruct n as [|p|p]; try lia. unfold decimal_digits. simpl Z.to_N. simpl N.to_uint.
  pose proof (DecimalPos.Unsigned.to_uint_nonnil p).
  destruct (Pos.to_uint p); simpl; [done|lia..].
Qed.

Lemma substring_app_l (s t : string) : substring 0 (String.length s) (s ++ t) = s.
Proof. induction s as [|c s IH]; simpl; [by destruct t|by rewrite IH]. Qed.

Lemma substring_app_r (s t : string) : substring (String.length s) (String.length t) (s ++ t) = t.
Proof.
  induction s as [|c s IH]; simpl; [|exact IH].
  pose proof (substring_app_l t EmptyString) as H. by rewrite string_app_nil_r in H.
Qed.

(** Steps 10.b-10.d print [100 n] as the digits of [n] and [".00"]. *)
Lemma fixed_notation_hundredfold (n : Z) :
  0 < n -> fixed_notation 2 (n * 100) = (decimal_digits n ++ ".00")%string.
Proof.
  intros Hn. unfold fixed_notation. replace (n * 100) with (n * 10 * 10) by lia.
  rewrite !decimal_digits_tenfold by lia. rewrite <- string_app_assoc. simpl (_ ++ _)%string.
  pose proof (decimal_digits_nonempty n Hn) as Hk.
  rewrite string_length_app. simpl String.length.
  destruct (Nat.leb_spec (String.length (decimal_digits n) + 2) 2); [lia|]. simpl.
  replace (String.length (decimal_digits n) + 2 - 2)%nat with (String.length (decimal_digits n)) by lia.
  rewrite substring_app_l. change 2%nat with (String.length "00"). by rewrite substring_app_r.
Qed.

(** Step 10.a on an integer [z = M * 2^E]: the scaled value is [100 |z|]. *)
Lemma scaled_round_int (z : Z) (M : positive) (E : Z) :
  Z.abs z * 2 ^ 53 = Zpos M * 2 ^ (E + 53) -> -52 <= E ->
  scaled_round 2 M E = Z.abs z * 100.
Proof.
  intros Hv HE. unfold scaled_round. cbv zeta. change (10 ^ Z.of_nat 2) with 100.
  destruct (Z.leb_spec 0 E).
  - rewrite Z.pow_add_r in Hv by lia.
    apply (Z.mul_reg_r _ _ (2 ^ 53)); [apply Z.pow_nonzero; lia|]. nia.
  - assert (HD : 0 < 2 ^ (- E)) by (apply Z.pow_pos_nonneg; lia).
    assert (HM : Zpos M = Z.abs z * 2 ^ (- E)).
    { pose proof (Z.pow_pos_nonneg 2 (E + 53) ltac:(lia) ltac:(lia)).
      apply (Z.mul_reg_r _ _ (2 ^ (E + 53))); [lia|].
      rewrite <- Hv, <- Z.mul_assoc, <- Z.pow_add_r by lia. do 2 f_equal. lia. }
    rewrite HM. replace (Z.abs z * 2 ^ (- E) * 100) with (Z.abs z * 100 * 2 ^ (- E)) by ring.
    rewrite Z.mod_mul, Z.div_mul by lia.
    z_cases; lia.
Qed.

(** [toFixed(2)] of an integer of magnitude at most [2^53] is its sign,
    its decimal digits and [".00"]. *)
Theorem toFixed_of_Z (z : Z) :
  Z.abs z <= 2 ^ 53 ->
  toFixed 2 (of_Z z) = ((if (z <? 0)%Z then "-" else "") ++ decimal_digits (Z.abs z) ++ ".00")%string.
Proof.
  intros Hb. destruct (Z.eq_dec z 0) as [->|Hz]; [reflexivity|].
  destruct (of_Z_finite z Hz Hb) as (M & E & -> & HM & HE & Hv).
  unfold toFixed. f_equal.
  replace (at_least_1e21 M E) with false.
  - rewrite (scaled_round_int z) by lia. apply fixed_notation_hundredfold. lia.
  - unfold at_least_1e21.
    destruct (Z.leb_spec 0 E); symmetry; apply Z.leb_gt.
    + rewrite Z.pow_add_r in Hv by lia.
      assert (Zpos M * 2 ^ E = Z.abs z) by (apply (Z.mul_reg_r _ _ (2 ^ 53)); [apply Z.pow_nonzero|]; lia).
      lia.
    + pose proof (Z.pow_pos_nonneg 2 (- E) ltac:(lia) ltac:(lia)). nia.
Qed.

(** ** The digits as text, and reading them back *)

Lemma decimal_digits_text (n : Z) : decimal_digits n = digits_text (to_list (N.to_uint (Z.to_N n))).
Proof. unfold digits_text. by rewrite of_list_to_list. Qed.

Lemma digits_text_length (l : list digits) : String.length (digits_text l) = List.length l.
Proof. unfold digits_text. induction l as [|[] l IH]; simpl; auto. Qed.

Lemma digits_text_cons (k : digits) (l : list digits) :
  digits_text (k :: l) = (digits_text [k] ++ digits_text l)%string.
Proof. by destruct k. Qed.

(** The digit list of a positive integer has a non-zero first digit. *)
Lemma decimal_digits_lead (n : Z) :
  0 < n -> exists k l, k <> d0 /\ to_list (N.to_uint (Z.to_N n)) = k :: l.
Proof.
  intros Hn. destruct n as [|p|p]; try lia. change (N.to_uint (Z.to_N (Zpos p))) with (Pos.to_uint p).
  pose proof (to_uint_nzhead p) as H. apply (f_equal to_list) in H. rewrite nzhead_spec in H.
  pose proof (DecimalPos.Unsigned.to_uint_nonnil p) as Hnil.
  destruct (to_list (Pos.to_uint p)) as [|k l] eqn:E.
  - exfalso. apply Hnil, to_list_inj. by rewrite E.
  - exists k, l. split; [|done]. intros ->. simpl in H.
    pose proof (length_lnzhead l) as Hl. rewrite H in Hl. simpl in Hl. lia.
Qed.

Lemma decimal_digits_value (n : Z) : 0 < n -> digits_value (to_list (N.to_uint (Z.to_N n))) 0 = n.
Proof. intros Hn. destruct n as [|p|p]; try lia. exact (uint_to_value p). Qed.

(** [10^(d-1) <= n < 10^d] for the number [d] of digits of [n]. *)
Lemma num_digits_bounds (n : Z) :
  0 < n -> 10 ^ (num_digits n - 1) <= n < 10 ^ num_digits n.
Proof.
  intros Hn. pose proof (decimal_digits_value n Hn) as Hv.
  destruct (decimal_digits_lead n Hn) as (k & l & Hk & E).
  unfold num_digits. rewrite decimal_digits_text, digits_text_length, E. rewrite E in Hv.
  pose proof (digits_value_lead k l Hk). pose proof (digits_value_bound (k :: l)).
  simpl List.length in *. rewrite Hv in *.
  replace (Z.of_nat (S (List.length l)) - 1) with (Z.of_nat (List.length l)) by lia. lia.
Qed.

(** The scanner of [JsNumber] reads a digit text up to the first
    non-digit, with its Horner value. *)
Lemma take_digits_text (l : list digits) (acc : Z) (r : string) :
  digit_stop r -> take_digits (digits_text l ++ r) acc = (digits_value l acc, List.length l, r).
Proof.
  intros Hr. unfold digits_text. revert acc. induction l as [|k l IH]; intros acc.
  - destruct r as [|c r]; simpl in *; [done|]. by rewrite Hr.
  - destruct k; simpl; rewrite IH; reflexivity.
Qed.

Lemma take_digits_decimal (n : Z) (r : string) :
  0 < n -> digit_stop r ->
  take_digits (decimal_digits n ++ r) 0 = (n, String.length (decimal_digits n), r).
Proof.
  intros Hn Hr. rewrite decimal_digits_text, digits_text_length, take_digits_text by done.
  by rewrite decimal_digits_value.
Qed.

(** ** [Number::toString] of an integer *)

Lemma zeros_snoc (j : nat) : (zeros j ++ "0")%string = zeros (S j).
Proof. induction j as [|j IH]; simpl; [done|by rewrite IH]. Qed.

Lemma decimal_digits_pow10 (s : Z) (j : nat) :
  0 < s -> decimal_digits (s * 10 ^ Z.of_nat j) = (decimal_digits s ++ zeros j)%string.
Proof.
  intros Hs. induction j as [|j IH].
  - by rewrite Z.mul_1_r, string_app_nil_r.
  - rewrite Nat2Z.inj_succ, Z.pow_succ_r, (Z.mul_comm 10), Z.mul_assoc, decimal_digits_tenfold, IH by lia.
    by rewrite <- string_app_assoc, zeros_snoc.
Qed.

Lemma num_digits_pow10 (s : Z) (j : nat) :
  0 < s -> num_digits (s * 10 ^ Z.of_nat j) = num_digits s + Z.of_nat j.
Proof.
  intros Hs. unfold num_digits. rewrite decimal_digits_pow10, string_length_app by done.
  enough (String.length (zeros j) = j) by lia. induction j; simpl; auto.
Qed.

(** Distinct positive integers up to [2^53] are distinct numbers. *)
Lemma of_Z_inj (a b : Z) :
  0 < a <= 2 ^ 53 -> 0 < b <= 2 ^ 53 -> of_Z a = of_Z b -> a = b.
Proof.
  intros Ha Hb Heq.
  destruct (of_Z_finite a ltac:(lia) ltac:(lia)) as (Ma & Ea & Eqa & _ & _ & Hva).
  destruct (of_Z_finite b ltac:(lia) ltac:(lia)) as (Mb & Eb & Eqb & _ & _ & Hvb).
  rewrite Eqa, Eqb in Heq. injection Heq as _ <- <-.
  apply (Z.mul_reg_r _ _ (2 ^ 53)); [apply Z.pow_nonzero; lia|]. lia.
Qed.

(** A candidate [s * 10^q] with [q >= 0] is read as the integer it denotes. *)
Lemma round_decimal_int (s q : Z) : 0 < s -> 0 <= q -> round_decimal false s q = of_Z (s * 10 ^ q).
Proof.
  intros Hs Hq. unfold round_decimal.
  destruct (Z.eqb_spec s 0); [lia|]. destruct (Z.leb_spec 0 q); [reflexivity|lia].
Qed.

(** A positive integer below [2^53] is [M * 2^E] with [E <= 0]. *)
Lemma of_Z_small (n : Z) :
  0 < n < 2 ^ 53 ->
  exists M E, of_Z n = S754_finite false M E /\ -52 <= E <= 0 /\ Zpos M = n * 2 ^ (- E).
Proof.
  intros Hn. destruct (of_Z_finite n ltac:(lia) ltac:(lia)) as (M & E & Eq & HM & HE & Hv).
  replace (n <? 0) with false in Eq by (symmetry; apply Z.ltb_ge; lia).
  replace (Z.abs n) with n in Hv by lia.
  assert (HE0 : E <= 0).
  { destruct (Z.leb_spec E 0); [done|]. exfalso. rewrite Z.pow_add_r in Hv by lia.
    assert (2 * 2 ^ 53 <= 2 ^ E * 2 ^ 53) by (apply Z.mul_le_mono_nonneg_r; [lia|];
      replace 2 with (2 ^ 1) at 1 by done; apply Z.pow_le_mono_r; lia).
    nia. }
  exists M, E. split; [done|]. split; [lia|].
  pose proof (Z.pow_pos_nonneg 2 (E + 53) ltac:(lia) ltac:(lia)).
  apply (Z.mul_reg_r _ _ (2 ^ (E + 53))); [lia|].
  rewrite <- Hv, <- Z.mul_assoc, <- Z.pow_add_r by lia. do 2 f_equal. lia.
Qed.

(** The search of step 5 on [x = of_Z n = M * 2^E], [0 < n <= 2^52]. *)
Section ShortestInt.
Variables (n : Z) (M : positive) (E : Z).
Hypothesis Hn : 0 < n <= 2 ^ 52.
Hypothesis Hx : of_Z n = S754_finite false M E.
Hypothesis HE : -52 <= E <= 0.
Hypothesis HM : Zpos M = n * 2 ^ (- E).

Lemma dec_exponent_int : dec_exponent M E = num_digits n.
Proof.
  unfold dec_exponent. pose proof (Z.pow_pos_nonneg 2 (- E) ltac:(lia) ltac:(lia)).
  destruct (Z.leb_spec 0 E).
  - replace E with 0 in * by lia. rewrite HM. do 2 f_equal. lia.
  - rewrite HM. destruct (Z.leb_spec (2 ^ (- E)) (n * 2 ^ (- E))); [|nia].
    by rewrite Z.div_mul by lia.
Qed.

(** The [k]-digit lower neighbour of [x] is [n / 10^q]. *)
Lemma lo_int (q : Z) :
  0 <= q ->
  (Zpos M * 2 ^ Z.max E 0 * 10 ^ Z.max (- q) 0) / (2 ^ Z.max (- E) 0 * 10 ^ Z.max q 0) = n / 10 ^ q.
Proof.
  intros Hq. rewrite (Z.max_r E 0), (Z.max_r (- q) 0), (Z.max_l (- E) 0), (Z.max_l q 0) by lia.
  rewrite HM, !Z.mul_1_r, (Z.mul_comm n). apply Z.div_mul_cancel_l; [apply Z.pow_nonzero|apply Z.pow_nonzero]; lia.
Qed.

(** A candidate of at most [2n] rounds back to [x] exactly when it is [n]. *)
Lemma candidate_int (s q : Z) :
  0 < s -> 0 <= q -> s * 10 ^ q <= 2 * n ->
  bool_decide (round_decimal false s q = S754_finite false M E) = true -> s * 10 ^ q = n.
Proof.
  intros Hs Hq Hb Hok%bool_decide_eq_true. rewrite round_decimal_int, <- Hx in Hok by done.
  pose proof (Z.pow_pos_nonneg 10 q ltac:(lia) Hq).
  apply of_Z_inj in Hok; [done| |lia]. split; [nia|lia].
Qed.

Definition int_result (r : Z * Z) : Prop := 0 < fst r /\ 0 <= snd r /\ fst r * 10 ^ snd r = n.

Lemma shortest_digits_int (fuel : nat) (k : Z) :
  1 <= k <= num_digits n -> (Z.to_nat (num_digits n - k) < fuel)%nat ->
  int_result (shortest_digits fuel k M E (num_digits n)).
Proof.
  revert k. induction fuel as [|fuel IH]; intros k Hk Hf; [lia|].
  pose proof (num_digits_bounds n ltac:(lia)) as Hd.
  set (d := num_digits n) in *. set (q := d - k).
  assert (Hq : 0 <= q) by lia.
  pose proof (Z.pow_pos_nonneg 10 q ltac:(lia) Hq) as Hp.
  assert (Hpq : 10 ^ q <= n).
  { transitivity (10 ^ (d - 1)); [apply Z.pow_le_mono_r; lia|lia]. }
  assert (Hlo : 1 <= n / 10 ^ q) by (apply Z.div_le_lower_bound; lia).
  assert (Hlo1 : n / 10 ^ q * 10 ^ q <= n) by (rewrite Z.mul_comm; apply Z.mul_div_le; lia).
  assert (Hhi1 : n < (n / 10 ^ q + 1) * 10 ^ q).
  { pose proof (Z.mod_pos_bound n (10 ^ q) Hp). pose proof (Z.div_mod n (10 ^ q) ltac:(lia)). nia. }
  cbn [shortest_digits]. fold q. rewrite lo_int by done.
  set (lo := n / 10 ^ q) in *.
  set (hi := if lo + 1 =? 10 ^ k then (1, d) else (lo + 1, q)).
  assert (Hhi : 0 < fst hi /\ 0 <= snd hi /\ fst hi * 10 ^ snd hi = (lo + 1) * 10 ^ q).
  { unfold hi. destruct (Z.eqb_spec (lo + 1) (10 ^ k)) as [Heq|]; simpl; [|split; [lia|split; [lia|done]]].
    rewrite Heq, <- Z.pow_add_r, Z.mul_1_l by lia. split; [lia|]. split; [lia|]. f_equal. lia. }
  assert (HokL : bool_decide (round_decimal false lo q = S754_finite false M E) = true ->
                 int_result (lo, q)).
  { intros Hok. repeat split; simpl; try lia. apply candidate_int; auto; lia. }
  assert (HokH : bool_decide (round_decimal false (fst hi) (snd hi) = S754_finite false M E) = true ->
                 int_result hi).
  { intros Hok. repeat split; try lia. apply candidate_int; auto; lia. }
  destruct (bool_decide (round_decimal false lo q = _)) eqn:OL,
           (bool_decide (round_decimal false (fst hi) (snd hi) = _)) eqn:OH; simpl.
  - repeat case_match; auto.
  - auto.
  - auto.
  - assert (k <> d).
    { intros Hkd. assert (Hq0 : q = 0) by (unfold q; lia).
      assert (Hln : lo = n) by (unfold lo; rewrite Hq0, Z.pow_0_r; apply Z.div_1_r).
      rewrite Hln, Hq0, round_decimal_int, Z.pow_0_r, Z.mul_1_r, <- Hx in OL by lia.
      apply bool_decide_eq_false in OL. by apply OL. }
    apply IH; lia.
Qed.

End ShortestInt.

(** [Number::toString] of a positive integer at most [2^52] is its decimal
    digits. *)
Lemma number_to_string_of_Z (n : Z) :
  0 < n <= 2 ^ 52 -> number_to_string (of_Z n) = decimal_digits n.
Proof.
  intros Hn. destruct (of_Z_small n ltac:(lia)) as (M & E & Hx & HE & HM).
  rewrite Hx. cbn [number_to_string]. rewrite (dec_exponent_int n M E) by done.
  pose proof (num_digits_bounds n ltac:(lia)) as Hd.
  assert (Hd1 : 1 <= num_digits n) by (pose proof (decimal_digits_nonempty n ltac:(lia)); unfold num_digits; lia).
  assert (Hd16 : num_digits n <= 16).
  { assert (H16 : 10 ^ (num_digits n - 1) < 10 ^ 16) by lia.
    apply Z.pow_lt_mono_r_iff in H16; lia. }
  destruct (shortest_digits 17 1 M E (num_digits n)) as [s q] eqn:Hsd.
  destruct (shortest_digits_int n M E Hn Hx HE HM 17 1 ltac:(lia) ltac:(lia)) as (Hs & Hq & Hv).
  rewrite Hsd in Hs, Hq, Hv. simpl in Hs, Hq, Hv.
  rewrite <- (Z2Nat.id q) in Hv by lia.
  pose proof (num_digits_pow10 s (Z.to_nat q) Hs) as Hnd. rewrite Hv in Hnd.
  rewrite <- Hv, decimal_digits_pow10 by done. simpl (_ ++ _)%string.
  unfold format_number. fold (num_digits s).
  replace (Z.of_nat (String.length (decimal_digits s))) with (num_digits s) by done.
  destruct (Z.leb_spec (num_digits s) (q + num_digits s)); [|lia].
  destruct (Z.leb_spec (q + num_digits s) 21); [|lia]. simpl.
  do 3 f_equal. lia.
Qed.

(** ** [parseFloat] of an integer's text *)

Lemma prefix_infinity_digits (k : digits) (l : list digits) (r : string) :
  String.prefix "Infinity" (digits_text (k :: l) ++ r) = false.
Proof. by destruct k. Qed.

Lemma parse_unsigned_decimal (n : Z) :
  0 < n -> parse_unsigned (decimal_digits n) = Some (NumDecimal n 0).
Proof.
  intros Hn. pose proof (take_digits_decimal n EmptyString Hn I) as Ht.
  rewrite string_app_nil_r in Ht. pose proof (decimal_digits_nonempty n Hn) as Hk.
  destruct (decimal_digits_lead n Hn) as (k & l & _ & E).
  assert (Hp : String.prefix "Infinity" (decimal_digits n) = false)
    by (rewrite decimal_digits_text, E, <- (string_app_nil_r (digits_text _)); apply prefix_infinity_digits).
  unfold parse_unsigned. rewrite Hp, Ht.
  by destruct (Nat.eqb_spec (String.length (decimal_digits n)) 0); [lia|].
Qed.

Lemma parseFloat_digits_text (k : digits) (l : list digits) (r : string) :
  parseFloat (digits_text (k :: l) ++ r) = numeral_value false (parse_unsigned (digits_text (k :: l) ++ r)).
Proof. by destruct k. Qed.

Lemma round_decimal_neg (m : Z) : 0 < m -> round_decimal true m 0 = of_Z (- m).
Proof.
  intros Hm. unfold round_decimal, of_Z. destruct (Z.eqb_spec m 0); [lia|].
  rewrite Z.pow_0_r, Z.mul_1_r. destruct m; [lia|reflexivity|lia].
Qed.

(** [parseFloat] reads the text of an integer as that integer's number. *)
Lemma parseFloat_int_text (z : Z) : parseFloat (int_text z) = of_Z z.
Proof.
  unfold int_text. destruct (Z.ltb_spec z 0).
  - change (parseFloat ("-" ++ decimal_digits (Z.abs z))%string) with
      (numeral_value true (parse_unsigned (decimal_digits (Z.abs z)))).
    rewrite parse_unsigned_decimal by lia. simpl. rewrite round_decimal_neg by lia. f_equal. lia.
  - destruct (Z.eq_dec z 0) as [->|Hz]; [reflexivity|].
    replace (Z.abs z) with z by lia. simpl (_ ++ _)%string.
    destruct (decimal_digits_lead z ltac:(lia)) as (k & l & _ & E).
    rewrite decimal_digits_text, E, <- (string_app_nil_r (digits_text _)), parseFloat_digits_text,
      string_app_nil_r, <- E, <- decimal_digits_text.
    rewrite parse_unsigned_decimal by lia. simpl. rewrite round_decimal_int by lia. f_equal. lia.
Qed.

(** [to_int] inverts [of_Z] on the integers of magnitude at most [2^53]. *)
Lemma to_int_of_Z (z : Z) : Z.abs z <= 2 ^ 53 -> to_int (of_Z z) = z.
Proof.
  intros Hb. destruct (Z.eq_dec z 0) as [->|Hz]; [reflexivity|].
  destruct (of_Z_finite z Hz Hb) as (M & E & -> & _ & HE & Hv). simpl.
  assert (Habs : (if 0 <=? E then Zpos M * 2 ^ E else Zpos M / 2 ^ (- E)) = Z.abs z).
  { destruct (Z.leb_spec 0 E).
    - rewrite Z.pow_add_r in Hv by lia.
      apply (Z.mul_reg_r _ _ (2 ^ 53)); [apply Z.pow_nonzero; lia|]. lia.
    - assert (HM : Zpos M = Z.abs z * 2 ^ (- E)).
      { pose proof (Z.pow_pos_nonneg 2 (E + 53) ltac:(lia) ltac:(lia)).
        apply (Z.mul_reg_r _ _ (2 ^ (E + 53))); [lia|].
        rewrite <- Hv, <- Z.mul_assoc, <- Z.pow_add_r by lia. do 2 f_equal. lia. }
      rewrite HM. apply Z.div_mul. apply Z.pow_nonzero; lia. }
  rewrite Habs. destruct (Z.ltb_spec z 0); simpl; lia.
Qed.

(** ** [parseFloat] of an amount typed with two decimals *)

Lemma digits_text_app (l k : list digits) : digits_text (l ++ k) = (digits_text l ++ digits_text k)%string.
Proof. apply string_of_list_app. Qed.

Lemma zeros_text (j : nat) : zeros j = digits_text (repeat d0 j).
Proof. induction j as [|j IH]; simpl; [done|]. by rewrite IH. Qed.

Lemma digits_value_zeros (j : nat) (l : list digits) :
  digits_value (repeat d0 j ++ l) 0 = digits_value l 0.
Proof. rewrite digits_value_app. f_equal. induction j; simpl; auto. Qed.

(** Cutting the text of a digit list at [n] cuts the list at [n]. *)
Lemma digits_text_split (L : list digits) (n : nat) :
  (n <= List.length L)%nat ->
  substring 0 n (digits_text L) = digits_text (firstn n L) /\
  substring n (List.length L - n) (digits_text L) = digits_text (skipn n L).
Proof.
  intros Hn.
  assert (E : digits_text L = (digits_text (firstn n L) ++ digits_text (skipn n L))%string)
    by (rewrite <- digits_text_app, firstn_skipn; reflexivity).
  assert (Ha : String.length (digits_text (firstn n L)) = n)
    by (rewrite digits_text_length, length_firstn; lia).
  assert (Hb : String.length (digits_text (skipn n L)) = (List.length L - n)%nat)
    by (rewrite digits_text_length, length_skipn; lia).
  rewrite E. split.
  - rewrite <- Ha at 1. apply substring_app_l.
  - rewrite <- Hb, <- Ha at 1. apply substring_app_r.
Qed.

(** The digits of any [c >= 0] ("0" for 0) as a digit list. *)
Lemma decimal_digits_list (c : Z) :
  0 <= c -> exists l, decimal_digits c = digits_text l /\ digits_value l 0 = c /\ l <> [].
Proof.
  intros Hc. destruct (Z.eq_dec c 0) as [->|Hc0]; [by exists [d0]|].
  destruct (decimal_digits_lead c ltac:(lia)) as (k & l & _ & E).
  exists (k :: l). rewrite decimal_digits_text, E. split; [done|]. split; [|done].
  rewrite <- E. apply decimal_digits_value. lia.
Qed.

(** The text [fixed_notation 2 c] is an integer part of at least one digit,
    a point and two decimals, whose digits together read as [c]. *)
Lemma fixed_notation_list (c : Z) :
  0 <= c -> exists A B, fixed_notation 2 c = (digits_text A ++ "." ++ digits_text B)%string /\
    A <> [] /\ List.length B = 2%nat /\ digits_value (A ++ B) 0 = c.
Proof.
  intros Hc. destruct (decimal_digits_list c Hc) as (l & Hl & Hv & Hne).
  assert (Hsplit : forall L, (3 <= List.length L)%nat -> digits_value L 0 = c ->
    exists A B, (substring 0 (List.length L - 2) (digits_text L) ++ "." ++
                 substring (List.length L - 2) 2 (digits_text L))%string =
                (digits_text A ++ "." ++ digits_text B)%string /\
      A <> [] /\ List.length B = 2%nat /\ digits_value (A ++ B) 0 = c).
  { intros L HL HvL. exists (firstn (List.length L - 2) L), (skipn (List.length L - 2) L).
    destruct (digits_text_split L (List.length L - 2)) as [H1 H2]; [lia|].
    replace (List.length L - (List.length L - 2))%nat with 2%nat in H2 by lia.
    rewrite H1, H2. split; [done|]. split.
    - intros E. apply (f_equal (@List.length digits)) in E. rewrite length_firstn in E. simpl in E. lia.
    - split; [rewrite length_skipn; lia|]. by rewrite firstn_skipn. }
  unfold fixed_notation. rewrite Hl, digits_text_length.
  destruct (Nat.leb_spec (List.length l) 2) as [Hk|Hk].
  - rewrite zeros_text, <- digits_text_app. change (2 =? 0)%nat with false. cbv iota.
    set (L := repeat d0 (2 + 1 - List.length l) ++ l).
    assert (HL : List.length L = 3%nat).
    { unfold L. rewrite length_app, repeat_length. destruct l; [done|simpl in *; lia]. }
    replace (2 + 1 - 2)%nat with (List.length L - 2)%nat by lia.
    apply Hsplit; [lia|unfold L; by rewrite digits_value_zeros].
  - change (2 =? 0)%nat with false. cbv iota. apply Hsplit; [lia|done].
Qed.

(** [parseFloat] reads such a text as the literal [c * 10^-2]. *)
Lemma parseFloat_cents (c : Z) : 0 <= c -> parseFloat (fixed_notation 2 c) = round_decimal false c (-2).
Proof.
  intros Hc. destruct (fixed_notation_list c Hc) as (A & B & -> & HA & HB & Hv).
  destruct A as [|a A]; [done|]. rewrite parseFloat_digits_text. unfold parse_unsigned.
  rewrite prefix_infinity_digits, take_digits_text by done. cbn [String.append].
  rewrite <- (string_app_nil_r (digits_text B)), take_digits_text by done.
  rewrite HB. destruct (Nat.eqb_spec (List.length (a :: A) + 2) 0); [simpl in *; lia|].
  simpl exponent_part. cbn [numeral_value]. rewrite <- digits_value_app, Hv. reflexivity.
Qed.

End Digits.
