(* ===== verification/Rounding.v ===== *)
(** * Rounding of decimal literals

    The error of [round_decimal] ([JsNumber]) on a literal [m * 10^e] with
    [e < 0]: the Standard Library's division core computes the quotient
    [m * 2^s / 10^-e] with a location (exact, or below, at or above the
    half-way point), and [binary_round_aux] shifts it right to 53 bits and
    rounds to nearest-even.  The invariant [inbetween] states what a
    shift record [(m, r, s)] at some exponent says about the exact value,
    written as a fraction [Xn / Xd] of that exponent's unit: [m] is its
    integer part and the round and sticky bits say where the fraction
    lies.  Shifting preserves it ([iter_shr_inbetween]); rounding then
    lands within half a unit ([round_nearest_even_bound]).  The results:
    [binary_round_aux_nearest] and [round_decimal_nearest], the latter for
    literals in the normal range, and [round_cents], the reading of a
    typed amount with two decimals.  Section [Search] states when the
    shortest-digits search of [Number::toString] stops at a candidate with
    a given property, and Section [Cents] shows that for a typed amount it
    stops, within its 17 rounds, at digits that read back as the same
    double ([number_to_string_cents]). *)

From S2P Require Import Prelude JsNumber Digits.
From Stdlib Require Import Floats.SpecFloat.
Import JsNumber Digits.
Open Scope Z_scope.

Module Rounding.

(** The location of a fraction [d / Xd] of a unit, [0 <= d < Xd]: exact,
    or below, at or above one half. *)
Definition loc_of (d Xd : Z) : location :=
  if d =? 0 then loc_Exact else loc_Inexact (Z.compare (2 * d) Xd).

(** The shift record [mrs] describes the value [Xn / Xd] units: its integer
    part is [shr_m mrs] and its round and sticky bits give the location of
    the rest. *)
Definition inbetween (mrs : shr_record) (Xn Xd : Z) : Prop :=
  0 < Xd /\ 0 <= shr_m mrs /\ shr_m mrs * Xd <= Xn < (shr_m mrs + 1) * Xd /\
  loc_of_shr_record mrs = loc_of (Xn - shr_m mrs * Xd) Xd.

(** The two [k]-digit candidates of step 5 of [Number::toString] for
    [x = m * 2^e] with [n] its decimal exponent, as [shortest_digits]
    computes them: [lo] is [x * 10^(k-n)] rounded down, [hi] the next one,
    written [(1, n)] when it is [10^k]. *)
Definition cand_lo (k : Z) (m : positive) (e n : Z) : Z :=
  (Zpos m * 2 ^ Z.max e 0 * 10 ^ Z.max (- (n - k)) 0) / (2 ^ Z.max (- e) 0 * 10 ^ Z.max (n - k) 0).

Definition cand_hi (k : Z) (m : positive) (e n : Z) : Z * Z :=
  if cand_lo k m e n + 1 =? 10 ^ k then (1, n) else (cand_lo k m e n + 1, n - k).

(** A candidate [(s, q)] that reads back as [x]. *)
Definition reads_as (x : double) (c : Z * Z) : bool := bool_decide (round_decimal false (fst c) (snd c) = x).

(** ** Shifting right keeps the description exact *)

Lemma loc_of_shr_record_of_loc (m : Z) (l : location) :
  loc_of_shr_record (shr_record_of_loc m l) = l /\ shr_m (shr_record_of_loc m l) = m.
Proof. by destruct l as [|[]]. Qed.

(** One shift halves the unit: the new round bit is the bit shifted out,
    the new sticky bit records whether anything below it was non-zero. *)
Lemma shr_1_inbetween (mrs : shr_record) (Xn Xd : Z) :
  inbetween mrs Xn Xd -> inbetween (shr_1 mrs) Xn (2 * Xd).
Proof.
  destruct mrs as [m r s]. unfold inbetween at 1. intros (HXd & Hm & [Hlo Hhi] & Hloc). cbn [shr_m] in *.
  assert (Hrs : (r || s) = negb (Xn - m * Xd =? 0)).
  { unfold loc_of in Hloc. destruct r, s; simpl in Hloc;
      destruct (Z.eqb_spec (Xn - m * Xd) 0); simpl; congruence. }
  assert (Hdiv : exists m' b, m = 2 * m' + b /\ (b = 0 \/ b = 1) /\ 0 <= m' /\
                 shr_1 {| shr_m := m; shr_r := r; shr_s := s |} =
                 {| shr_m := m'; shr_r := b =? 1; shr_s := r || s |}).
  { destruct m as [|[p|p|]|p]; try lia.
    - exists 0, 0. repeat split; lia || reflexivity.
    - exists (Zpos p), 1. repeat split; lia || reflexivity.
    - exists (Zpos p), 0. repeat split; lia || reflexivity.
    - exists 0, 1. repeat split; lia || reflexivity. }
  destruct Hdiv as (m' & b & -> & Hb & Hm' & ->).
  unfold inbetween. cbn [shr_m loc_of_shr_record]. rewrite Hrs.
  repeat split; try lia. unfold loc_of.
  destruct Hb as [ -> | -> ]; cbn [Z.eqb].
  - replace (Xn - m' * (2 * Xd)) with (Xn - (2 * m' + 0) * Xd) by ring.
    destruct (Z.eqb_spec (Xn - (2 * m' + 0) * Xd) 0) as [E|E]; simpl; [done|].
    f_equal. symmetry. apply Z.compare_lt_iff. lia.
  - destruct (Z.eqb_spec (Xn - (2 * m' + 1) * Xd) 0) as [E|E]; simpl.
    + replace (Xn - m' * (2 * Xd) =? 0) with false by (symmetry; apply Z.eqb_neq; lia).
      f_equal. symmetry. apply Z.compare_eq_iff. lia.
    + replace (Xn - m' * (2 * Xd) =? 0) with false by (symmetry; apply Z.eqb_neq; lia).
      f_equal. symmetry. apply Z.compare_gt_iff. lia.
Qed.

Lemma iter_shr_inbetween (p : positive) :
  forall mrs Xn Xd, inbetween mrs Xn Xd -> inbetween (iter_pos shr_1 p mrs) Xn (2 ^ Zpos p * Xd).
Proof.
  induction p as [p IH|p IH|]; intros mrs Xn Xd H; cbn [iter_pos].
  - replace (2 ^ Zpos p~1 * Xd) with (2 ^ Zpos p * (2 ^ Zpos p * (2 * Xd)))
      by (rewrite Pos2Z.inj_xI, Z.pow_add_r, Z.pow_twice_r, Z.pow_1_r by lia; ring).
    by apply IH, IH, shr_1_inbetween.
  - replace (2 ^ Zpos p~0 * Xd) with (2 ^ Zpos p * (2 ^ Zpos p * Xd))
      by (rewrite (Pos2Z.inj_xO p), Z.pow_twice_r; ring).
    by apply IH, IH.
  - by apply shr_1_inbetween.
Qed.

(** ** Rounding to nearest-even lands within half a unit *)

Lemma round_nearest_even_bound (mrs : shr_record) (Xn Xd : Z) :
  inbetween mrs Xn Xd ->
  let mr := round_nearest_even (shr_m mrs) (loc_of_shr_record mrs) in
  shr_m mrs <= mr <= shr_m mrs + 1 /\ 2 * Z.abs (mr * Xd - Xn) <= Xd.
Proof.
  intros (HXd & Hm & [Hlo Hhi] & Hloc) mr. unfold mr. rewrite Hloc. clear mr Hloc.
  set (m := shr_m mrs) in *. unfold loc_of.
  destruct (Z.eqb_spec (Xn - m * Xd) 0) as [E|E]; cbn [round_nearest_even]; [lia|].
  destruct (Z.compare_spec (2 * (Xn - m * Xd)) Xd); cbn [round_nearest_even]; [|lia|lia].
  destruct (Z.even m); lia.
Qed.

(** ** [binary_round_aux] in the normal range *)

Lemma shr_inbetween (mrs : shr_record) (e k Xn Xd : Z) :
  0 <= k -> inbetween mrs Xn Xd ->
  inbetween (fst (shr mrs e k)) Xn (2 ^ k * Xd) /\ snd (shr mrs e k) = e + k.
Proof.
  intros Hk H. destruct k as [|p|p]; [|cbn [shr fst snd]|lia].
  - cbn [shr fst snd]. rewrite Z.pow_0_r, Z.mul_1_l, Z.add_0_r. done.
  - split; [by apply iter_shr_inbetween|done].
Qed.

Lemma Zdigits2_range (m d : Z) : 2 ^ (d - 1) <= m < 2 ^ d -> 1 <= d -> Zdigits2 m = d.
Proof.
  intros Hm Hd. rewrite Zdigits2_log2 by (pose proof (Z.pow_pos_nonneg 2 (d - 1)); lia).
  rewrite (Z.log2_unique m (d - 1)); [lia|lia|]. by replace (Z.succ (d - 1)) with d by lia.
Qed.

(** Rounding a value described by a mantissa of at least 53 bits, whose
    result is normal and finite: the result is a 53-bit mantissa [M] at
    an exponent [E] no smaller than [ex], and within half a unit of [E]
    of the value. *)
Lemma binary_round_aux_nearest (mx ex : Z) (lx : location) (Xn Xd : Z) :
  inbetween (shr_record_of_loc mx lx) Xn Xd -> 2 ^ 52 <= mx ->
  -1074 <= Zdigits2 mx + ex - 53 <= 970 ->
  exists M E, binary_round_aux prec emax false mx ex lx = S754_finite false M E /\
    2 ^ 52 <= Zpos M < 2 ^ 53 /\ ex <= E /\
    2 * Z.abs (Zpos M * 2 ^ (E - ex) * Xd - Xn) <= 2 ^ (E - ex) * Xd.
Proof.
  intros Hin Hmx Hn. set (d := Zdigits2 mx) in *.
  pose proof Hin as (HXd & _ & [Hlo Hhi] & _).
  destruct (loc_of_shr_record_of_loc mx lx) as [_ Hsm]. rewrite Hsm in Hlo, Hhi.
  assert (Hd : 2 ^ (d - 1) <= mx < 2 ^ d /\ 53 <= d).
  { unfold d. rewrite Zdigits2_log2 by lia. pose proof (Z.log2_spec mx ltac:(lia)) as Hl.
    replace (Z.log2 mx + 1 - 1) with (Z.log2 mx) by lia.
    replace (Z.log2 mx + 1) with (Z.succ (Z.log2 mx)) by lia.
    split; [lia|]. enough (52 <= Z.log2 mx) by lia.
    rewrite <- (Z.log2_pow2 52) by lia. by apply Z.log2_le_mono. }
  set (k := d - 53).
  assert (Hk : fexp prec emax (d + ex) - ex = k) by (unfold fexp, emin, prec, emax, k; lia).
  unfold binary_round_aux, shr_fexp. fold d. rewrite Hk.
  destruct (shr_inbetween (shr_record_of_loc mx lx) ex k Xn Xd ltac:(lia) Hin) as [Hin' He'].
  destruct (shr (shr_record_of_loc mx lx) ex k) as [mrs' e1]. cbn [fst snd] in Hin', He'. subst e1.
  pose proof (Z.pow_pos_nonneg 2 k ltac:(lia) ltac:(lia)) as Hpk.
  assert (Hp : 2 ^ d = 2 ^ 53 * 2 ^ k /\ 2 ^ (d - 1) = 2 ^ 52 * 2 ^ k).
  { unfold k. rewrite <- !Z.pow_add_r by lia. split; f_equal; lia. }
  pose proof Hin' as (_ & _ & [Hlo' Hhi'] & _).
  assert (Hm' : 2 ^ 52 <= shr_m mrs' < 2 ^ 53) by nia.
  destruct (round_nearest_even_bound mrs' Xn (2 ^ k * Xd) Hin') as [Hr Herr].
  set (mr := round_nearest_even (shr_m mrs') (loc_of_shr_record mrs')) in *.
  destruct (Z.eq_dec mr (2 ^ 53)) as [Hc|Hc].
  - (* the rounding carried into a 54th bit: one exact shift *)
    assert (Hf : fexp prec emax (Zdigits2 mr + (ex + k)) - (ex + k) = 1).
    { rewrite (Zdigits2_range mr 54) by (try rewrite Hc; lia). unfold fexp, emin, prec, emax, k. lia. }
    rewrite Hf. cbn [shr iter_pos shr_record_of_loc].
    replace mr with (2 * 2 ^ 52) by (rewrite Hc; reflexivity). rewrite shr_1_double. cbn [shr_m].
    destruct (Z.leb_spec (ex + k + 1) (emax - prec)); [|unfold emax, prec, k in *; lia].
    exists (2 ^ 52)%positive, (ex + k + 1). split; [done|]. split; [lia|]. split; [lia|].
    replace (ex + k + 1 - ex) with (k + 1) by lia. rewrite Z.pow_add_r by lia.
    replace (Zpos (2 ^ 52) * (2 ^ k * 2 ^ 1) * Xd) with (mr * (2 ^ k * Xd)) by (rewrite Hc; lia).
    lia.
  - assert (Hf : fexp prec emax (Zdigits2 mr + (ex + k)) - (ex + k) = 0).
    { rewrite (Zdigits2_range mr 53) by lia. unfold fexp, emin, prec, emax, k. lia. }
    rewrite Hf. cbn [shr shr_record_of_loc shr_m].
    destruct (Z.leb_spec (ex + k) (emax - prec)); [|unfold emax, prec, k in *; lia].
    destruct mr as [|M|M] eqn:Hmr; try lia.
    exists M, (ex + k). split; [done|]. split; [lia|]. split; [lia|].
    replace (ex + k - ex) with k by lia. nia.
Qed.

(** ** The division core and [round_decimal] *)

(** The location the division core computes from the remainder [r] of a
    division by [T] is the location of [r / T]. *)
Lemma new_location_loc_of (T r : Z) : 0 <= r < T -> new_location T r = loc_of r T.
Proof.
  intros Hr. unfold new_location, new_location_even, new_location_odd, loc_of.
  destruct (Z.even T) eqn:Ht; [done|]. destruct (Z.eqb_spec r 0); [done|]. f_equal.
  assert (Hodd : 2 * r <> T) by (intros <-; rewrite Z.even_mul in Ht; discriminate).
  destruct (Z.compare_spec (2 * r + 1) T); symmetry;
    [apply Z.compare_lt_iff|apply Z.compare_lt_iff|apply Z.compare_gt_iff]; lia.
Qed.

(** [m / T] with [m] and [T] positive and [m] at most [2^52] times larger
    than [T] in binary magnitude: the core returns a quotient of 53 or 54
    bits at exponent [e' < 0] describing [m * 2^-e' / T]. *)
Lemma div_core_inbetween (m T : Z) :
  0 < m -> 0 < T -> -1000 <= Zdigits2 m - Zdigits2 T <= 52 ->
  let '(q, e', l) := SFdiv_core_binary prec emax m 0 T 0 in
  e' = Zdigits2 m - Zdigits2 T - 53 /\ 2 ^ 52 <= q < 2 ^ 54 /\
  inbetween (shr_record_of_loc q l) (m * 2 ^ (- e')) T.
Proof.
  intros Hm HT Hd. unfold SFdiv_core_binary.
  set (d1 := Zdigits2 m) in *. set (d2 := Zdigits2 T) in *.
  assert (He : Z.min (fexp prec emax (d1 + 0 - (d2 + 0))) (0 - 0) = d1 - d2 - 53)
    by (unfold fexp, emin, prec, emax; lia).
  rewrite He. replace (0 - 0 - (d1 - d2 - 53)) with (53 - d1 + d2) by lia.
  assert (Hs : 0 < 53 - d1 + d2) by lia.
  destruct (53 - d1 + d2) as [|s|s] eqn:Es; try lia.
  rewrite Z.shiftl_mul_pow2 by lia.
  pose proof (Z_div_mod (m * 2 ^ Zpos s) T ltac:(lia)) as Hdm.
  destruct (Z.div_eucl (m * 2 ^ Zpos s) T) as [q r]. destruct Hdm as [Hqr Hr].
  assert (Hb1 : 2 ^ (d1 - 1) <= m < 2 ^ d1).
  { unfold d1. rewrite Zdigits2_log2 by lia. pose proof (Z.log2_spec m Hm).
    replace (Z.log2 m + 1 - 1) with (Z.log2 m) by lia.
    replace (Z.log2 m + 1) with (Z.succ (Z.log2 m)) by lia. lia. }
  assert (Hb2 : 2 ^ (d2 - 1) <= T < 2 ^ d2).
  { unfold d2. rewrite Zdigits2_log2 by lia. pose proof (Z.log2_spec T HT).
    replace (Z.log2 T + 1 - 1) with (Z.log2 T) by lia.
    replace (Z.log2 T + 1) with (Z.succ (Z.log2 T)) by lia. lia. }
  assert (Hd2 : 1 <= d2) by (unfold d2; rewrite Zdigits2_log2 by lia; pose proof (Z.log2_nonneg T); lia).
  assert (Hd1 : 1 <= d1) by (unfold d1; rewrite Zdigits2_log2 by lia; pose proof (Z.log2_nonneg m); lia).
  assert (Hp1 : 2 ^ (d1 - 1) * 2 ^ Zpos s = 2 ^ 52 * 2 ^ d2)
    by (rewrite <- !Z.pow_add_r by lia; f_equal; lia).
  assert (Hp2 : 2 ^ d1 * 2 ^ Zpos s = 2 ^ 54 * 2 ^ (d2 - 1))
    by (rewrite <- !Z.pow_add_r by lia; f_equal; lia).
  pose proof (Z.pow_pos_nonneg 2 (Zpos s) ltac:(lia) ltac:(lia)).
  pose proof (Z.pow_pos_nonneg 2 (d2 - 1) ltac:(lia) ltac:(lia)).
  replace (- (d1 - d2 - 53)) with (Zpos s) by lia.
  split; [lia|]. split; [split; nia|].
  destruct (loc_of_shr_record_of_loc q (new_location T r)) as [Hl Hq]. unfold inbetween.
  rewrite Hl, Hq, new_location_loc_of by lia.
  replace (m * 2 ^ Zpos s - q * T) with r by lia. repeat split; nia.
Qed.

Lemma Zdigits2_between (q : Z) : 2 ^ 52 <= q < 2 ^ 54 -> 53 <= Zdigits2 q <= 54.
Proof.
  intros Hq. rewrite Zdigits2_log2 by lia. split.
  - enough (52 <= Z.log2 q) by lia. rewrite <- (Z.log2_pow2 52) by lia. apply Z.log2_le_mono; lia.
  - enough (Z.log2 q < 54) by lia. apply Z.log2_lt_pow2; lia.
Qed.

(** [round_decimal] of [m * 10^e], [e < 0], in the normal range: a 53-bit
    mantissa [M] at an exponent [E] with [|M * 2^E - m / 10^-e|] at most
    [2^E / 2], written after scaling by [2^s * 10^-e] with [E + s >= 0]. *)
Lemma round_decimal_nearest (m e : Z) :
  0 < m -> e < 0 -> -1000 <= Zdigits2 m - Zdigits2 (10 ^ (- e)) <= 52 ->
  exists M E s, round_decimal false m e = S754_finite false M E /\ 2 ^ 52 <= Zpos M < 2 ^ 53 /\
    0 < s /\ 0 <= E + s /\
    2 * Z.abs (Zpos M * 2 ^ (E + s) * 10 ^ (- e) - m * 2 ^ s) <= 2 ^ (E + s) * 10 ^ (- e).
Proof.
  intros Hm He Hd. unfold round_decimal.
  destruct (Z.eqb_spec m 0); [lia|]. destruct (Z.leb_spec 0 e); [lia|].
  pose proof (Z.pow_pos_nonneg 10 (- e) ltac:(lia) ltac:(lia)) as HT.
  pose proof (div_core_inbetween m (10 ^ (- e)) Hm HT Hd) as Hc.
  destruct (SFdiv_core_binary prec emax m 0 (10 ^ (- e)) 0) as [[q e'] l].
  destruct Hc as (He' & Hq & Hin). pose proof (Zdigits2_between q Hq).
  destruct (binary_round_aux_nearest q e' l _ _ Hin ltac:(lia) ltac:(lia)) as (M & E & Hr & HM & HE & Herr).
  exists M, E, (- e'). rewrite Hr. split; [done|]. split; [done|]. split; [lia|]. split; [lia|].
  by replace (E + - e') with (E - e') by lia.
Qed.

(** ** Amounts typed with two decimals *)

(** [c] hundredths up to [2^52] (4.5e13 rupees) read as a number [M * 2^E]
    with [E <= -7] within a two-hundredth of a hundredth of [c / 100]. *)
Lemma round_cents (c : Z) :
  0 < c <= 2 ^ 52 ->
  exists M E, round_decimal false c (-2) = S754_finite false M E /\ 2 ^ 52 <= Zpos M < 2 ^ 53 /\
    E <= -7 /\ 2 * Z.abs (100 * Zpos M - c * 2 ^ (- E)) <= 100.
Proof.
  intros Hc.
  assert (Hd : -1000 <= Zdigits2 c - Zdigits2 (10 ^ (- -2)) <= 52).
  { change (10 ^ (- -2)) with 100. change (Zdigits2 100) with 7.
    pose proof (Zdigits2_log2 c ltac:(lia)). pose proof (Z.log2_nonneg c).
    enough (Z.log2 c <= 52) by lia. rewrite <- (Z.log2_pow2 52) by lia. apply Z.log2_le_mono; lia. }
  destruct (round_decimal_nearest c (-2) ltac:(lia) ltac:(lia) Hd) as (M & E & s & Hr & HM & Hs & HEs & Herr).
  change (10 ^ (- -2)) with 100 in Herr.
  pose proof (Z.pow_pos_nonneg 2 (E + s) ltac:(lia) HEs) as HQ.
  assert (HE : E < 0).
  { destruct (Z.ltb_spec E 0) as [|HE0]; [done|exfalso].
    assert (Hps : 2 ^ s <= 2 ^ (E + s)) by (apply Z.pow_le_mono_r; lia). nia. }
  assert (Hsplit : 2 ^ s = 2 ^ (E + s) * 2 ^ (- E)) by (rewrite <- Z.pow_add_r by lia; f_equal; lia).
  rewrite Hsplit in Herr.
  replace (Zpos M * 2 ^ (E + s) * 100 - c * (2 ^ (E + s) * 2 ^ (- E)))
    with (2 ^ (E + s) * (100 * Zpos M - c * 2 ^ (- E))) in Herr by ring.
  rewrite Z.abs_mul, (Z.abs_eq (2 ^ (E + s))) in Herr by lia.
  assert (Hb : 2 * Z.abs (100 * Zpos M - c * 2 ^ (- E)) <= 100) by nia.
  exists M, E. split; [done|]. split; [done|]. split; [|done].
  destruct (Z.leb_spec E (-7)) as [|HE7]; [done|exfalso].
  assert (2 ^ (- E) <= 2 ^ 6) by (apply Z.pow_le_mono_r; lia). nia.
Qed.

(** [toFixed(2)] prints such a number back as the typed text. *)
Lemma toFixed_cents (c : Z) :
  0 <= c <= 2 ^ 52 -> toFixed 2 (round_decimal false c (-2)) = fixed_notation 2 c.
Proof.
  intros Hc. destruct (Z.eq_dec c 0) as [->|Hc0]; [reflexivity|].
  destruct (round_cents c ltac:(lia)) as (M & E & -> & HM & HE & Hb).
  unfold toFixed. cbn [String.append]. f_equal.
  pose proof (Z.pow_pos_nonneg 2 (- E) ltac:(lia) ltac:(lia)) as HD.
  assert (HD7 : 2 ^ 7 <= 2 ^ (- E)) by (apply Z.pow_le_mono_r; lia).
  replace (at_least_1e21 M E) with false.
  2: { unfold at_least_1e21. destruct (Z.leb_spec 0 E); [lia|]. symmetry. apply Z.leb_gt. nia. }
  unfold scaled_round. cbv zeta. change (10 ^ Z.of_nat 2) with 100.
  destruct (Z.leb_spec 0 E); [lia|].
  set (D := 2 ^ (- E)) in *. set (N := Zpos M * 100).
  destruct (Z.leb_spec (c * D) N) as [Hge|Hlt].
  - assert (Hq : N / D = c) by (symmetry; apply (Z.div_unique_pos _ _ _ (N - c * D)); unfold N in *; lia).
    assert (Hm : N mod D = N - c * D) by (symmetry; apply (Z.mod_unique_pos _ _ c); unfold N in *; lia).
    rewrite Hq, Hm. z_cases; first [reflexivity | exfalso; unfold N in *; lia].
  - assert (Hq : N / D = c - 1) by (symmetry; apply (Z.div_unique_pos _ _ _ (N - (c - 1) * D)); unfold N in *; lia).
    assert (Hm : N mod D = N - (c - 1) * D) by (symmetry; apply (Z.mod_unique_pos _ _ (c - 1)); unfold N in *; lia).
    rewrite Hq, Hm. z_cases; first [f_equal; lia | exfalso; unfold N in *; lia].
Qed.

(** What is typed is what is printed: [toFixed(2)] of [parseFloat] of an
    amount written with two decimals is that text. *)
Lemma toFixed_parseFloat_cents (c : Z) :
  0 <= c <= 2 ^ 52 -> toFixed 2 (parseFloat (fixed_notation 2 c)) = fixed_notation 2 c.
Proof. intros Hc. rewrite parseFloat_cents by lia. by apply toFixed_cents. Qed.

(** ** The shortest-digits search *)

Lemma shortest_digits_S (fuel : nat) (k : Z) (m : positive) (e n : Z) :
  shortest_digits (S fuel) k m e n =
  let x := S754_finite false m e in
  let lo := (cand_lo k m e n, n - k) in
  let hi := cand_hi k m e n in
  if reads_as x lo && reads_as x hi then
    let dl := scaled_distance (fst lo) (n - k) m e in
    let dh := scaled_distance (fst hi) (snd hi) m e in
    if dl <? dh then lo else if dh <? dl then hi else if Z.even (fst lo) then lo else hi
  else if reads_as x lo then lo
  else if reads_as x hi then hi
  else shortest_digits fuel (k + 1) m e n.
Proof. reflexivity. Qed.

Section Search.
Variables (m : positive) (e n : Z) (P : Z * Z -> Prop).
Let x := S754_finite false m e.
Hypothesis Hlo : forall k, 1 <= k -> reads_as x (cand_lo k m e n, n - k) = true -> P (cand_lo k m e n, n - k).
Hypothesis Hhi : forall k, 1 <= k -> reads_as x (cand_hi k m e n) = true -> P (cand_hi k m e n).

(** The search returns a candidate that reads back, as soon as one of the
    candidates of some [k0] within its fuel does. *)
Lemma shortest_digits_found (fuel : nat) (k k0 : Z) :
  1 <= k <= k0 -> (Z.to_nat (k0 - k) < fuel)%nat ->
  reads_as x (cand_lo k0 m e n, n - k0) || reads_as x (cand_hi k0 m e n) = true ->
  P (shortest_digits fuel k m e n).
Proof.
  revert k. induction fuel as [|fuel IH]; intros k Hk Hf Hok; [lia|].
  rewrite shortest_digits_S. cbv zeta. fold x.
  destruct (reads_as x (cand_lo k m e n, n - k)) eqn:OL,
           (reads_as x (cand_hi k m e n)) eqn:OH; cbn [andb].
  - repeat case_match; auto with lia.
  - auto with lia.
  - auto with lia.
  - destruct (Z.eq_dec k k0) as [->|Hne]; [by rewrite OL, OH in Hok|]. apply IH; [lia|lia|exact Hok].
Qed.
End Search.

(** ** [Number::toString] of an amount typed with two decimals *)

Lemma div_pow10_range (A B k : Z) :
  0 < B -> 1 <= k -> 10 ^ (k - 1) * B <= A < 10 ^ k * B -> 10 ^ (k - 1) <= A / B < 10 ^ k.
Proof.
  intros HB Hk HA. split.
  - apply Z.div_le_lower_bound; lia.
  - apply Z.div_lt_upper_bound; lia.
Qed.

Lemma num_digits_range (s k : Z) : 1 <= k -> 10 ^ (k - 1) <= s < 10 ^ k -> num_digits s = k.
Proof.
  intros Hk Hs. pose proof (Z.pow_pos_nonneg 10 (k - 1) ltac:(lia) ltac:(lia)).
  pose proof (num_digits_bounds s ltac:(lia)) as [H1 H2].
  assert (Hd : 1 <= num_digits s)
    by (pose proof (decimal_digits_nonempty s ltac:(lia)); unfold num_digits; lia).
  destruct (Z.lt_trichotomy (num_digits s) k) as [Hlt|[Heq|Hgt]]; [exfalso|done|exfalso].
  - assert (10 ^ num_digits s <= 10 ^ (k - 1)) by (apply Z.pow_le_mono_r; lia). lia.
  - assert (10 ^ k <= 10 ^ (num_digits s - 1)) by (apply Z.pow_le_mono_r; lia). lia.
Qed.

Section Cents.
Variables (c : Z) (M : positive) (E : Z).
Hypothesis Hc : 101 <= c <= 2 ^ 52.
Hypothesis Hx : round_decimal false c (-2) = S754_finite false M E.
Hypothesis HM : 2 ^ 52 <= Zpos M < 2 ^ 53.
Hypothesis HE : E <= -7.
Hypothesis Hb : 2 * Z.abs (100 * Zpos M - c * 2 ^ (- E)) <= 100.

Let D := 2 ^ (- E).
Let n := num_digits (Zpos M / D).

Lemma cents_D : 2 ^ 7 <= D /\ D <= Zpos M.
Proof.
  assert (2 ^ 7 <= D) by (unfold D; apply Z.pow_le_mono_r; lia). split; [done|]. fold D in Hb. nia.
Qed.

Lemma cents_exponent : dec_exponent M E = n /\ 1 <= n <= 14 /\ 10 ^ (n - 1) * D <= Zpos M < 10 ^ n * D.
Proof.
  destruct cents_D as [HD7 HDM]. fold D in Hb.
  assert (HF : 1 <= Zpos M / D) by (apply Z.div_le_lower_bound; lia).
  pose proof (num_digits_bounds (Zpos M / D) ltac:(lia)) as [H1 H2]. fold n in H1, H2.
  pose proof (Z.mul_div_le (Zpos M) D ltac:(lia)). pose proof (Z.mod_pos_bound (Zpos M) D ltac:(lia)).
  pose proof (Z.div_mod (Zpos M) D ltac:(lia)).
  assert (Hn1 : 1 <= n)
    by (pose proof (decimal_digits_nonempty (Zpos M / D) ltac:(lia)); unfold n, num_digits; lia).
  split; [|split; [split; [done|]|]].
  - unfold dec_exponent. destruct (Z.leb_spec 0 E); [lia|]. fold D.
    by destruct (Z.leb_spec D (Zpos M)); [|lia].
  - assert (Zpos M / D < 2 ^ 46).
    { apply Z.div_lt_upper_bound; [lia|]. replace (2 ^ 53) with (2 ^ 46 * 2 ^ 7) in HM by reflexivity. nia. }
    assert (H16 : 10 ^ (n - 1) < 10 ^ 14) by lia. apply Z.pow_lt_mono_r_iff in H16; lia.
  - split; nia.
Qed.

(** Every [k]-digit lower candidate has [k] digits. *)
Lemma cents_lo (k : Z) : 1 <= k -> 10 ^ (k - 1) <= cand_lo k M E n < 10 ^ k.
Proof.
  intros Hk. destruct cents_D as [HD7 _]. destruct cents_exponent as (_ & Hn & HMn).
  unfold cand_lo. rewrite (Z.max_r E 0), (Z.max_l (- E) 0), Z.pow_0_r, Z.mul_1_r by lia. fold D.
  destruct (Z.leb_spec k n).
  - rewrite (Z.max_r (- (n - k)) 0), (Z.max_l (n - k) 0), Z.pow_0_r, Z.mul_1_r by lia.
    apply div_pow10_range; [pose proof (Z.pow_pos_nonneg 10 (n - k)); nia|done|].
    replace (10 ^ (n - 1)) with (10 ^ (k - 1) * 10 ^ (n - k)) in HMn by (rewrite <- Z.pow_add_r by lia; f_equal; lia).
    replace (10 ^ n) with (10 ^ k * 10 ^ (n - k)) in HMn by (rewrite <- Z.pow_add_r by lia; f_equal; lia).
    nia.
  - rewrite (Z.max_l (- (n - k)) 0), (Z.max_r (n - k) 0), Z.pow_0_r, Z.mul_1_r by lia.
    apply div_pow10_range; [lia|done|].
    pose proof (Z.pow_pos_nonneg 10 (- (n - k)) ltac:(lia) ltac:(lia)).
    replace (10 ^ (k - 1)) with (10 ^ (n - 1) * 10 ^ (- (n - k))) by (rewrite <- Z.pow_add_r by lia; f_equal; lia).
    replace (10 ^ k) with (10 ^ n * 10 ^ (- (n - k))) by (rewrite <- Z.pow_add_r by lia; f_equal; lia).
    nia.
Qed.

(** What a returned candidate looks like: [k] digits at [n - k], or the
    power of ten [1 * 10^n]. *)
Definition cents_shape (r : Z * Z) : Prop :=
  round_decimal false (fst r) (snd r) = S754_finite false M E /\
  ((exists k, 1 <= k /\ 10 ^ (k - 1) <= fst r < 10 ^ k /\ snd r = n - k) \/ r = (1, n)).

(** At [k = n + 2] the candidates are the hundredths of [x] rounded down
    and up, and one of them is [c]. *)
Lemma cents_k0 :
  reads_as (S754_finite false M E) (cand_lo (n + 2) M E n, n - (n + 2)) ||
  reads_as (S754_finite false M E) (cand_hi (n + 2) M E n) = true.
Proof.
  destruct cents_D as [HD7 _]. destruct cents_exponent as (_ & Hn & _). fold D in Hb.
  assert (Hlo : cand_lo (n + 2) M E n = (100 * Zpos M) / D).
  { unfold cand_lo. rewrite (Z.max_r E 0), (Z.max_l (- E) 0), (Z.max_l (- (n - (n + 2))) 0),
      (Z.max_r (n - (n + 2)) 0) by lia. fold D.
    replace (- (n - (n + 2))) with 2 by lia. simpl (10 ^ 2). rewrite !Z.pow_0_r. f_equal; lia. }
  replace (n - (n + 2)) with (-2) by lia.
  unfold reads_as, cand_hi. rewrite Hlo. cbn [fst snd].
  destruct (Z.leb_spec (c * D) (100 * Zpos M)).
  - assert (Hq : 100 * Zpos M / D = c)
      by (symmetry; apply (Z.div_unique_pos _ _ _ (100 * Zpos M - c * D)); lia).
    rewrite Hq, <- Hx. by rewrite bool_decide_eq_true_2.
  - assert (Hq : 100 * Zpos M / D = c - 1)
      by (symmetry; apply (Z.div_unique_pos _ _ _ (100 * Zpos M - (c - 1) * D)); lia).
    rewrite Hq. replace (c - 1 + 1) with c by lia.
    destruct (Z.eqb_spec c (10 ^ (n + 2))) as [Hp|Hp].
    + exfalso. rewrite Hp in *. replace (10 ^ (n + 2)) with (10 ^ n * 100) in *
        by (rewrite Z.pow_add_r by lia; reflexivity).
      assert (Hint : Zpos M = 10 ^ n * D) by lia. nia.
    + cbn [fst snd]. replace (n - (n + 2)) with (-2) by lia. rewrite <- Hx, orb_true_iff. right. by apply bool_decide_eq_true_2.
Qed.

Lemma cents_search : cents_shape (shortest_digits 17 1 M E n).
Proof.
  destruct cents_exponent as (_ & Hn & _).
  apply (shortest_digits_found M E n cents_shape) with (k0 := n + 2); [| |lia|lia|exact cents_k0].
  - intros k Hk Hok. apply bool_decide_eq_true in Hok. split; [done|]. left. exists k.
    split; [done|]. split; [by apply cents_lo|done].
  - intros k Hk Hok. apply bool_decide_eq_true in Hok. split; [done|].
    pose proof (cents_lo k Hk). unfold cand_hi in *.
    destruct (Z.eqb_spec (cand_lo k M E n + 1) (10 ^ k)); [by right|left].
    exists k. cbn [fst snd]. split; [done|]. split; [lia|done].
Qed.
End Cents.

(** [Number::toString] of an amount of [c >= 101] hundredths: the digits
    [s] of the candidate the search returns, printed at decimal exponent
    [N] between 1 and 15, and [s * 10^(N - digits s)] reads back as the
    amount. *)
Lemma number_to_string_cents (c : Z) :
  101 <= c <= 2 ^ 52 ->
  exists s N, number_to_string (round_decimal false c (-2)) = format_number s N /\ 0 < s /\ 1 <= N <= 15 /\
    round_decimal false s (N - num_digits s) = round_decimal false c (-2).
Proof.
  intros Hc. destruct (round_cents c ltac:(lia)) as (M & E & Hx & HM & HE & Hb).
  pose proof (cents_exponent c M E) as Hexp. pose proof (cents_search c M E) as Hs.
  destruct Hexp as (Hn & Hn1 & _); try assumption.
  rewrite Hx. cbn [number_to_string]. rewrite Hn.
  destruct (shortest_digits 17 1 M E _) as [s q].
  destruct Hs as [Hr [(k & Hk & Hsk & Hq)|Heq]]; try assumption; cbn [fst snd] in *.
  - exists s, (q + num_digits s). rewrite (num_digits_range s k) by done.
    split; [done|]. split; [pose proof (Z.pow_pos_nonneg 10 (k - 1)); lia|]. split; [lia|].
    replace (q + k - k) with q by lia. by rewrite Hr.
  - injection Heq as -> ->. exists 1, (num_digits (Zpos M / 2 ^ (- E)) + num_digits 1).
    change (num_digits 1) with 1. split; [done|]. split; [lia|]. split; [lia|].
    replace (_ + 1 - 1) with (num_digits (Zpos M / 2 ^ (- E))) by lia. by rewrite Hr.
Qed.

End Rounding.
