(* ===== verification/JsString.v ===== *)
(** * JavaScript strings

    The two string routines of the history filter (line 113):
    [String.prototype.includes], written out from ECMA-262 22.1.3.8 as a scan
    of the positions of the receiver, and [String.prototype.toLowerCase],
    whose Unicode case tables belong to the host: it is the interface
    [CaseMapping], with the ASCII mapping as one instance. *)

From S2P Require Import Prelude.
Open Scope string_scope.

Module JsString.

(** [String.prototype.toLowerCase], provided by the host. *)
Class CaseMapping := { toLowerCase : string -> string }.

(** [s.includes(t)]: [t] occurs in [s] at some position (the empty string
    occurs at position 0). *)
Fixpoint includes (s t : string) : bool :=
  String.prefix t s ||
  match s with
  | EmptyString => false
  | String _ r => includes r t
  end.

(** The ASCII part of the Unicode lower-case mapping. *)
Definition lower_ascii (c : ascii) : ascii :=
  let n := nat_of_ascii c in
  if (65 <=? n)%nat && (n <=? 90)%nat then ascii_of_nat (n + 32) else c.

Fixpoint ascii_lower (s : string) : string :=
  match s with
  | EmptyString => EmptyString
  | String c r => String (lower_ascii c) (ascii_lower r)
  end.

#[export] Instance ascii_case_mapping : CaseMapping := {| toLowerCase := ascii_lower |}.

(** ** Lemmas *)

Lemma prefix_spec (t s : string) :
  String.prefix t s = true <-> exists v, s = t ++ v.
Proof.
  revert s; induction t as [|a t IH]; intros [|b s]; simpl.
  - split; [exists EmptyString|]; done.
  - split; [intros _; by exists (String b s)|done].
  - split; [done|by intros [v ?]].
  - destruct (ascii_dec a b) as [->|Hne].
    + rewrite IH. split; intros [v Hv]; exists v; congruence.
    + split; [done|]. intros [v Hv]. congruence.
Qed.

(** [includes] decides the substring relation: [s.includes(t)] holds
    exactly when [s] splits as [u ++ t ++ v]. *)
Theorem includes_spec (s t : string) :
  includes s t = true <-> exists u v, s = u ++ t ++ v.
Proof.
  induction s as [|c s IH]; cbn [includes]; rewrite orb_true_iff, prefix_spec.
  - split.
    + intros [[v Hv]|H]; [by exists EmptyString, v|discriminate].
    + intros [[|c' u] [v Hv]]; [left; by exists v|discriminate].
  - rewrite IH. split.
    + intros [[v Hv]|[u [v Huv]]]; [by exists EmptyString, v|].
      exists (String c u), v. by rewrite Huv.
    + intros [[|c' u] [v Huv]]; [left; by exists v|].
      right. exists u, v. simpl in Huv. congruence.
Qed.

Lemma includes_empty (s : string) : includes s EmptyString = true.
Proof. destruct s; reflexivity. Qed.

Lemma includes_self (s : string) : includes s s = true.
Proof. apply includes_spec. exists EmptyString, EmptyString. by rewrite string_app_nil_r. Qed.

Lemma includes_app_l (a b s : string) : includes a s = true -> includes (a ++ b) s = true.
Proof.
  rewrite !includes_spec. intros (u & v & ->). exists u, (v ++ b).
  by rewrite <- !string_app_assoc.
Qed.

Lemma includes_app_r (a b s : string) : includes b s = true -> includes (a ++ b) s = true.
Proof.
  rewrite !includes_spec. intros (u & v & ->). exists (a ++ u), v.
  by rewrite <- !string_app_assoc.
Qed.

Lemma includes_prefix (a x b r : string) : includes (a ++ (x ++ (b ++ r))) (a ++ x ++ b) = true.
Proof.
  apply includes_spec. exists EmptyString, r. by rewrite <- !string_app_assoc.
Qed.

End JsString.

#[export] Hint Resolve JsString.includes_empty JsString.includes_self : ledger.
