(* ===== verification/JsDate.v ===== *)
(** * Dates

    [new Date(s)] for the strings the script stores as dates (lines 123 and
    137).  A date input's value is either empty or a date-only string
    [YYYY-MM-DD]; ECMA-262 21.4.3.2 reads the date-only forms [YYYY],
    [YYYY-MM] and [YYYY-MM-DD] of the Date Time String Format as UTC
    midnight, and its time value is [MakeDay(y, m - 1, d) * msPerDay]
    (21.4.1).  Time values are integers of magnitude at most 8.64e15, so the
    comparator's binary64 subtraction of two of them is exact and they are
    kept in [Z]; an invalid date is [None] (NaN).  Other strings go to an
    implementation-specific fallback parser, which is not modelled: they are
    read as invalid.  [toLocaleDateString] depends on the host's locale
    and is an interface.

    The theorems: [DayFromYear] has period 400 years (146097 days) and
    grows by [DaysInYear]; [year_of_day] and [civil_of_day] invert
    [MakeDay] on every day number (the 400-year period reduces the month
    search to a check of the 731 days of a common and a leap year); and the
    string [valueAsDate] writes reads back as the same day.  The finite
    checks run by [vm_compute] over [all_range]. *)

From S2P Require Import Prelude JsNumber.
Open Scope Z_scope.

Module JsDate.

Definition msPerDay : Z := 86400000.

(** DayFromYear (21.4.1.3): the day number of January 1st of [y]. *)
Definition DayFromYear (y : Z) : Z :=
  365 * (y - 1970) + (y - 1969) / 4 - (y - 1901) / 100 + (y - 1601) / 400.

Definition InLeapYear (y : Z) : bool :=
  (y mod 4 =? 0) && (negb (y mod 100 =? 0) || (y mod 400 =? 0)).

Definition DaysInYear (y : Z) : Z := if InLeapYear y then 366 else 365.

(** The day in the year of the first day of month [mn] (0-based). *)
Definition days_before_month (leap : bool) (mn : Z) : Z :=
  let feb := if leap then 1 else 0 in
  match mn with
  | 0 => 0 | 1 => 31 | 2 => 59 + feb | 3 => 90 + feb | 4 => 120 + feb
  | 5 => 151 + feb | 6 => 181 + feb | 7 => 212 + feb | 8 => 243 + feb
  | 9 => 273 + feb | 10 => 304 + feb | _ => 334 + feb
  end.

(** MakeDay(year, month, date) (21.4.1.28) for integral arguments. *)
Definition MakeDay (year month date : Z) : Z :=
  let ym := year + month / 12 in
  let mn := month mod 12 in
  DayFromYear ym + days_before_month (InLeapYear ym) mn + date - 1.

(** TimeClip (21.4.1.31): out-of-range time values are NaN. *)
Definition TimeClip (t : Z) : option Z :=
  if Z.abs t <=? 8640000000000000 then Some t else None.

Definition digit2 (a b : ascii) : option Z :=
  match JsNumber.digit_value a, JsNumber.digit_value b with
  | Some x, Some y => Some (10 * x + y)
  | _, _ => None
  end.

Definition year4 (a b c d : ascii) : option Z :=
  match digit2 a b, digit2 c d with
  | Some x, Some y => Some (100 * x + y)
  | _, _ => None
  end.

(** The time value of a date-only string [YYYY], [YYYY-MM] or
    [YYYY-MM-DD], with [MM] in 01..12 and [DD] in 01..31 (the format's
    ranges); missing fields are 1. *)
Definition date_value (s : string) : option Z :=
  match s with
  | String a (String b (String c (String d rest))) =>
      match year4 a b c d with
      | None => None
      | Some y =>
          let mk m dd := TimeClip (MakeDay y (m - 1) dd * msPerDay) in
          match rest with
          | EmptyString => mk 1 1
          | String "-" (String m1 (String m2 rest')) =>
              match digit2 m1 m2 with
              | Some m =>
                  if (1 <=? m) && (m <=? 12) then
                    match rest' with
                    | EmptyString => mk m 1
                    | String "-" (String d1 (String d2 EmptyString)) =>
                        match digit2 d1 d2 with
                        | Some dd => if (1 <=? dd) && (dd <=? 31) then mk m dd else None
                        | None => None
                        end
                    | _ => None
                    end
                  else None
              | None => None
              end
          | _ => None
          end
      end
  | _ => None
  end.

(** [Date.prototype.toLocaleDateString] of a time value ([None]: an
    invalid date), provided by the host. *)
Class DateLocale := { toLocaleDateString : option Z -> string }.

(** YearFromTime, MonthFromTime and DateFromTime (21.4.1.3-21.4.1.6) on a
    day number: the year is the one whose first day is the last at or
    before [d] (an estimate from the mean year length, corrected). *)
Definition year_of_day (d : Z) : Z :=
  let y0 := 1970 + (d * 400) / 146097 in
  let y1 := if DayFromYear (y0 + 1) <=? d then y0 + 1 else y0 in
  if d <? DayFromYear y1 then y1 - 1 else y1.

Definition month_of_day_in_year (leap : bool) (doy : Z) : Z :=
  let fix go (k : nat) (mn : Z) :=
    match k with
    | O => mn
    | S k' => if days_before_month leap (mn + 1) <=? doy then go k' (mn + 1) else mn
    end in
  go 11%nat 0.

Definition civil_of_day (d : Z) : Z * Z * Z :=
  let y := year_of_day d in
  let doy := d - DayFromYear y in
  let mn := month_of_day_in_year (InLeapYear y) doy in
  (y, mn + 1, doy - days_before_month (InLeapYear y) mn + 1).

(** [n] in decimal, left-padded with zeros to [width] digits. *)
Definition pad (width : nat) (n : Z) : string :=
  let s := JsNumber.decimal_digits n in (JsNumber.zeros (width - String.length s) ++ s)%string.

(** The value a date input takes when its [valueAsDate] is set to the
    time value [t]: the UTC calendar date as [YYYY-MM-DD]. *)
Definition iso_date_of_time (t : Z) : string :=
  let '(y, m, d) := civil_of_day (t / msPerDay) in
  (pad 4 y ++ "-" ++ pad 2 m ++ "-" ++ pad 2 d)%string.

(** A host whose local time is UTC shifted by [offset] milliseconds and
    whose locale prints day/month/year (as the en-IN locale does). *)
Definition dmy_date_string (offset : Z) (tv : option Z) : string :=
  match tv with
  | None => "Invalid Date"
  | Some t =>
      let '(y, m, d) := civil_of_day ((t + offset) / msPerDay) in
      (JsNumber.decimal_digits d ++ "/" ++ JsNumber.decimal_digits m ++ "/" ++
       JsNumber.decimal_digits y)%string
  end.

Definition dmy_locale (offset : Z) : DateLocale :=
  {| toLocaleDateString := dmy_date_string offset |}.

(** The checks behind the finite case analyses of the calendar proofs:
    the month search on one day of a year, and the printing of a year or a
    two-digit field read back by [year4] or [digit2]. *)
Definition month_ok (leap : bool) (doy : Z) : bool :=
  let mn := month_of_day_in_year leap doy in
  (0 <=? mn) && (mn <=? 11) && (days_before_month leap mn <=? doy) &&
  (doy - days_before_month leap mn <=? 30).

Definition year_text_ok (y : Z) : bool :=
  match pad 4 y with
  | String a (String b (String c (String d EmptyString))) =>
      match year4 a b c d with Some y' => y' =? y | None => false end
  | _ => false
  end.

Definition two_digit_text_ok (n : Z) : bool :=
  match pad 2 n with
  | String a (String b EmptyString) => match digit2 a b with Some n' => n' =? n | None => false end
  | _ => false
  end.

(** ** Theorems *)

Lemma DayFromYear_period (y k : Z) : DayFromYear (y + 400 * k) = DayFromYear y + 146097 * k.
Proof. unfold DayFromYear. Z.div_mod_to_equations. lia. Qed.

Lemma InLeapYear_period (y k : Z) : InLeapYear (y + 400 * k) = InLeapYear y.
Proof.
  unfold InLeapYear.
  assert (H4 : (y + 400 * k) mod 4 = y mod 4) by (Z.div_mod_to_equations; lia).
  assert (H100 : (y + 400 * k) mod 100 = y mod 100) by (Z.div_mod_to_equations; lia).
  assert (H400 : (y + 400 * k) mod 400 = y mod 400) by (Z.div_mod_to_equations; lia).
  by rewrite H4, H100, H400.
Qed.

Lemma DayFromYear_mono (a b : Z) : a <= b -> DayFromYear a <= DayFromYear b.
Proof. unfold DayFromYear. Z.div_mod_to_equations. lia. Qed.

(** Reduce a statement on all integers to one period. *)
Lemma period_split (p x : Z) : 0 < p -> exists r q, 0 <= r < p /\ x = r + p * q.
Proof. intros Hp. exists (x mod p), (x / p). split; [apply Z.mod_pos_bound; lia|]. pose proof (Z.div_mod x p). lia. Qed.

Lemma DayFromYear_succ (y : Z) : DayFromYear (y + 1) = DayFromYear y + DaysInYear y.
Proof.
  destruct (period_split 400 y) as (r & q & Hr & ->); [lia|].
  assert (Hc : all_range (fun r => DayFromYear (r + 1) =? DayFromYear r + DaysInYear r) 0 400 = true)
    by (vm_compute; reflexivity).
  pose proof (all_range_spec _ _ _ r Hc ltac:(lia)) as E. apply Z.eqb_eq in E.
  replace (r + 400 * q + 1) with ((r + 1) + 400 * q) by lia.
  unfold DaysInYear in *. rewrite !DayFromYear_period, InLeapYear_period. lia.
Qed.

Lemma year_estimate (d : Z) :
  DayFromYear (1970 + d * 400 / 146097 - 1) <= d < DayFromYear (1970 + d * 400 / 146097 + 2).
Proof. unfold DayFromYear. Z.div_mod_to_equations. lia. Qed.

Lemma year_of_day_spec (d : Z) :
  DayFromYear (year_of_day d) <= d < DayFromYear (year_of_day d + 1).
Proof.
  pose proof (year_estimate d) as He. unfold year_of_day.
  set (y0 := 1970 + d * 400 / 146097) in *.
  destruct (Z.leb_spec (DayFromYear (y0 + 1)) d) as [H1|H1].
  - destruct (Z.ltb_spec d (DayFromYear (y0 + 1))); [lia|].
    replace (y0 + 1 + 1) with (y0 + 2) by lia. lia.
  - destruct (Z.ltb_spec d (DayFromYear y0)); [|lia].
    replace (y0 - 1 + 1) with y0 by lia. lia.
Qed.

Lemma month_check (leap : bool) : all_range (month_ok leap) 0 (if leap then 366 else 365)%nat = true.
Proof. destruct leap; vm_compute; reflexivity. Qed.

Lemma month_of_day_spec (leap : bool) (doy : Z) :
  0 <= doy < (if leap then 366 else 365) ->
  let mn := month_of_day_in_year leap doy in
  0 <= mn <= 11 /\ days_before_month leap mn <= doy /\ doy - days_before_month leap mn <= 30.
Proof.
  intros Hd. pose proof (all_range_spec _ _ _ doy (month_check leap)) as Hl.
  unfold month_ok in Hl. rewrite !andb_true_iff, !Z.leb_le in Hl.
  specialize (Hl ltac:(destruct leap; lia)). cbv zeta. lia.
Qed.

Lemma civil_of_day_spec (d : Z) :
  let '(y, m, dd) := civil_of_day d in
  MakeDay y (m - 1) dd = d /\ 1 <= m <= 12 /\ 1 <= dd <= 31 /\ y = year_of_day d.
Proof.
  unfold civil_of_day. pose proof (year_of_day_spec d) as Hy.
  set (y := year_of_day d) in *. rewrite DayFromYear_succ in Hy.
  set (doy := d - DayFromYear y).
  destruct (month_of_day_spec (InLeapYear y) doy) as (Hm & Hlo & Hhi);
    [unfold DaysInYear in Hy; destruct (InLeapYear y); lia|].
  set (mn := month_of_day_in_year (InLeapYear y) doy) in *.
  unfold MakeDay. replace (mn + 1 - 1) with mn by lia.
  rewrite Z.div_small, Z.mod_small by lia. rewrite Z.add_0_r. lia.
Qed.


Lemma year_texts : all_range year_text_ok 0 (Z.to_nat (10000 - 0)) = true.
Proof. vm_compute. reflexivity. Qed.

Lemma two_digit_texts : all_range two_digit_text_ok 1 (Z.to_nat (32 - 1)) = true.
Proof. vm_compute. reflexivity. Qed.

Lemma pad4_spec (y : Z) :
  0 <= y < 10000 ->
  exists a b c d, pad 4 y = String a (String b (String c (String d EmptyString))) /\ year4 a b c d = Some y.
Proof.
  intros Hy. pose proof (all_range_between year_text_ok 0 10000 y year_texts Hy) as H. unfold year_text_ok in H.
  destruct (pad 4 y) as [|a [|b [|c [|d [|]]]]]; try discriminate.
  exists a, b, c, d. split; [done|].
  destruct (year4 a b c d) as [y'|]; [|discriminate]. apply Z.eqb_eq in H. by subst.
Qed.

Lemma pad2_spec (n : Z) :
  1 <= n <= 31 -> exists a b, pad 2 n = String a (String b EmptyString) /\ digit2 a b = Some n.
Proof.
  intros Hn. pose proof (all_range_between two_digit_text_ok 1 32 n two_digit_texts ltac:(lia)) as H. unfold two_digit_text_ok in H.
  destruct (pad 2 n) as [|a [|b [|]]]; try discriminate.
  exists a, b. split; [done|].
  destruct (digit2 a b) as [n'|]; [|discriminate]. apply Z.eqb_eq in H. by subst.
Qed.

Lemma year_of_day_range (d : Z) :
  DayFromYear 0 <= d < DayFromYear 10000 -> 0 <= year_of_day d < 10000.
Proof.
  intros Hd. pose proof (year_of_day_spec d) as Hy. split.
  - destruct (Z.ltb_spec (year_of_day d) 0); [|lia].
    pose proof (DayFromYear_mono (year_of_day d + 1) 0 ltac:(lia)). lia.
  - destruct (Z.ltb_spec (year_of_day d) 10000); [lia|].
    pose proof (DayFromYear_mono 10000 (year_of_day d) ltac:(lia)). lia.
Qed.

(** The date input's text for [t] reads back as UTC midnight of its day. *)
Lemma iso_date_value (t : Z) :
  -62167219200000 <= t < 253402300800000 ->
  date_value (iso_date_of_time t) = Some (t / msPerDay * msPerDay).
Proof.
  intros Ht. unfold iso_date_of_time.
  assert (Hd : DayFromYear 0 <= t / msPerDay < DayFromYear 10000).
  { change (DayFromYear 0) with (-719528). change (DayFromYear 10000) with 2932897.
    unfold msPerDay. Z.div_mod_to_equations. lia. }
  pose proof (civil_of_day_spec (t / msPerDay)) as Hc.
  destruct (civil_of_day (t / msPerDay)) as [[y m] dd].
  destruct Hc as (Hmk & Hm & Hdd & ->).
  pose proof (year_of_day_range _ Hd) as Hy.
  destruct (pad4_spec _ Hy) as (a & b & c & d & -> & Hyr).
  destruct (pad2_spec m ltac:(lia)) as (m1 & m2 & -> & Hmr).
  destruct (pad2_spec dd ltac:(lia)) as (d1 & d2 & -> & Hdr).
  cbn [String.append date_value]. rewrite Hyr, Hmr, Hdr.
  assert (Hb1 : (1 <=? m) && (m <=? 12) = true) by (apply andb_true_iff; split; apply Z.leb_le; lia).
  assert (Hb2 : (1 <=? dd) && (dd <=? 31) = true) by (apply andb_true_iff; split; apply Z.leb_le; lia).
  rewrite Hb1, Hb2, Hmk. unfold TimeClip.
  destruct (Z.leb_spec (Z.abs (t / msPerDay * msPerDay)) 8640000000000000); [done|].
  exfalso. change (DayFromYear 0) with (-719528) in Hd. change (DayFromYear 10000) with 2932897 in Hd.
  unfold msPerDay in *. lia.
Qed.

(** A host whose offset is less than a day away from UTC shows the day
    of a UTC midnight, or the day before when it is west of UTC. *)
Lemma dmy_date_midnight (D off : Z) :
  - msPerDay < off < msPerDay ->
  dmy_date_string off (Some (D * msPerDay)) =
  dmy_date_string 0 (Some ((D - (if off <? 0 then 1 else 0)) * msPerDay)).
Proof.
  intros Ho. unfold dmy_date_string. rewrite Z.add_0_r, Z.div_mul by (unfold msPerDay; lia).
  replace ((D * msPerDay + off) / msPerDay) with (D - (if off <? 0 then 1 else 0)); [done|].
  apply Z.div_unique_pos with (if off <? 0 then off + msPerDay else off);
    unfold msPerDay in *; z_cases; lia.
Qed.

(** C23: the value a date input shows after [valueAsDate = new Date()]
    reads back with [new Date(..)] as UTC midnight of that day, for every
    time value of the years 0000 to 9999. *)
Theorem iso_date_of_time_value (t : Z) :
  -62167219200000 <= t < 253402300800000 ->
  date_value (iso_date_of_time t) = Some (t / msPerDay * msPerDay).
Proof. exact (iso_date_value t). Qed.

Lemma iso_date_of_time_value_witness :
  (-62167219200000 <= 1711933200000 < 253402300800000) /\
  date_value (iso_date_of_time 1711933200000) = Some (1711933200000 / msPerDay * msPerDay).
Proof.
  assert (H : -62167219200000 <= 1711933200000 < 253402300800000) by lia.
  exact (conj H (iso_date_of_time_value 1711933200000 H)).
Defined.

End JsDate.
