(* ===== verification/Transaction.v ===== *)
(** * The transaction record

    The object literal the submit handler builds (lines 71-77): a numeric
    [id] (the [Date.now()] timestamp), the title, the parsed amount, the
    type as the form's select value (any string: the code compares it with
    ['income'] and treats everything else as an expense) and the date as
    the date input's string. *)

From S2P Require Import Prelude JsNumber.
From Stdlib Require Import Floats.SpecFloat.
Import JsNumber.

Module Transaction.

Record Transaction := mkTransaction {
  id : double;
  title : string;
  amount : double;
  type : string;
  date : string;
}.

#[export] Instance Transaction_eq_dec : EqDecision Transaction.
Proof. intros x y. unfold Decision. decide equality; apply (decide (_ = _)). Defined.

(** The type test of lines 32 and 140: [t.type === 'income']. *)
Definition is_income (t : Transaction) : bool := (type t === "income")%js.

End Transaction.
