(* ===== verification/Balances.v ===== *)
(** * Totals and the dashboard

    [calculateBalances] (lines 26-41) as one pass over the ledger that
    adds every amount into the income or the expense accumulator in
    binary64 arithmetic, [formatCurrency] (lines 21-23) and
    [updateDashboard] (lines 44-52).  The theorems relate the single pass
    to two separate sums, give the effect of appending one transaction,
    show that the floating-point totals depend on the order of the ledger
    and are not additive, and that both properties hold again when the
    amounts are integers whose magnitudes add up to at most [2^53] (the
    totals are then exact, and the dashboard prints them exactly), and
    that [formatCurrency] rounds half up on the exact binary value. *)

From S2P Require Import Prelude JsNumber Digits Rounding Transaction.
From Stdlib Require Import Floats.SpecFloat.
Import JsNumber Digits Rounding Transaction.

Module Balances.

(** The object [{ balance, income, expense }] of line 40. *)
Record Totals := mkTotals { balance : double; income : double; expense : double }.

(** The loop of lines 31-37, from the accumulators [income] and
    [expense]: an income transaction adds to the first, any other type to
    the second. *)
Fixpoint accumulate (txs : list Transaction) (income expense : double) : double * double :=
  match txs with
  | [] => (income, expense)
  | t :: rest =>
      if is_income t then accumulate rest (dadd income (amount t)) expense
      else accumulate rest income (dadd expense (amount t))
  end.

(** Lines 26-41: both accumulators start at [0]. *)
Definition calculateBalances (transactions : list Transaction) : Totals :=
  let '(income, expense) := accumulate transactions dzero dzero in
  mkTotals (dsub income expense) income expense.

(** Lines 21-23: the rupee sign (U+20B9, three bytes in UTF-8) followed by
    [amount.toFixed(2)]. *)
Definition formatCurrency (amount : double) : string :=
  ("₹" ++ toFixed 2 amount)%string.

(** The three text regions of the dashboard page. *)
Record Dashboard := mkDashboard {
  balance_text : string;
  income_text : string;
  expense_text : string;
}.

(** Lines 44-52: on a page with a dashboard ([Some]), the three regions
    receive the formatted totals; on another page nothing happens. *)
Definition updateDashboard (transactions : list Transaction)
    (dash : option Dashboard) : option Dashboard :=
  match dash with
  | Some _ =>
      let totals := calculateBalances transactions in
      Some (mkDashboard (formatCurrency (balance totals))
                        (formatCurrency (income totals))
                        (formatCurrency (expense totals)))
  | None => None
  end.

(** Reference definition: the amounts of a list added left to right. *)
Definition sum_from (acc : double) (l : list Transaction) : double :=
  fold_left (fun acc t => dadd acc (amount t)) l acc.

Definition is_expense (t : Transaction) : bool := negb (is_income t).

(** Reference text of an integer amount [z] of rupees: the rupee sign, a
    minus sign when [z] is negative, the decimal digits of [|z|] and two
    zero decimals. *)
Definition rupees (z : Z) : string :=
  ("₹" ++ (if (z <? 0)%Z then "-" else "") ++ decimal_digits (Z.abs z) ++ ".00")%string.

(** The ledger of the scenario in the specification (section 8). *)
Definition salary : Transaction := mkTransaction (of_Z 1) "Salary" (of_Z 5000) "income" "2024-01-01".
Definition rent : Transaction := mkTransaction (of_Z 2) "Rent" (of_Z 1500) "expense" "2024-01-05".

(** The whole-rupee amounts of the scenario's transactions. *)
Definition scenario_amount (t : Transaction) : Z := if is_income t then 5000%Z else 1500%Z.

(** The exact sum of integer amounts [f t], for the bound of the exact
    arithmetic theorems. *)
Definition zsum (f : Transaction -> Z) (l : list Transaction) : Z :=
  fold_right (fun t acc => (f t + acc)%Z) 0%Z l.

(** ** The single pass and the two sums *)

Lemma accumulate_split (l : list Transaction) (i e : double) :
  accumulate l i e = (sum_from i (List.filter is_income l), sum_from e (List.filter is_expense l)).
Proof.
  unfold sum_from. revert i e; induction l as [|t l IH]; intros i e; [done|].
  unfold is_expense; simpl. destruct (is_income t); simpl; apply IH.
Qed.

Lemma accumulate_app (l1 l2 : list Transaction) (i e : double) :
  accumulate (l1 ++ l2) i e =
  let '(i', e') := accumulate l1 i e in accumulate l2 i' e'.
Proof.
  revert i e; induction l1 as [|t l1 IH]; intros i e; [done|].
  simpl. destruct (is_income t); apply IH.
Qed.

(** C13: the loop computes, in one pass, the income total as the left-to-right
    sum of the income amounts and the expense total as the left-to-right
    sum of all other amounts, and the balance as their difference. *)
Theorem calculateBalances_two_sums (l : list Transaction) :
  calculateBalances l =
  let inc := sum_from dzero (List.filter is_income l) in
  let exp := sum_from dzero (List.filter is_expense l) in
  mkTotals (dsub inc exp) inc exp.
Proof. unfold calculateBalances. by rewrite accumulate_split. Qed.

(** Appending one transaction (what the submit handler does) adds its
    amount to exactly one of the two totals and recomputes the balance. *)
Theorem calculateBalances_snoc (l : list Transaction) (t : Transaction) :
  let old := calculateBalances l in
  calculateBalances (l ++ [t]) =
  if is_income t then
    mkTotals (dsub (dadd (income old) (amount t)) (expense old))
             (dadd (income old) (amount t)) (expense old)
  else
    mkTotals (dsub (income old) (dadd (expense old) (amount t)))
             (income old) (dadd (expense old) (amount t)).
Proof.
  unfold calculateBalances. rewrite accumulate_app.
  destruct (accumulate l dzero dzero) as [i e]. simpl.
  by destruct (is_income t).
Qed.

Lemma sum_from_nonneg (acc : double) (l : list Transaction) :
  nonneg acc = true -> Forall (fun t => nonneg (amount t) = true) l ->
  nonneg (sum_from acc l) = true.
Proof.
  unfold sum_from. revert acc; induction l as [|t l IH]; intros acc Hacc Hl; [done|].
  inv_clear Hl. simpl. auto with ledger.
Qed.

(** C25: when every amount is non-negative (as the specification requires of
    amounts), the income and expense totals are non-negative and not NaN,
    whatever rounding and overflow the additions incur. *)
Theorem calculateBalances_nonneg (l : list Transaction) :
  Forall (fun t => nonneg (amount t) = true) l ->
  nonneg (income (calculateBalances l)) = true /\ nonneg (expense (calculateBalances l)) = true.
Proof.
  intros Hl. unfold calculateBalances. rewrite accumulate_split. simpl.
  split; apply sum_from_nonneg; auto with ledger.
Qed.

Lemma calculateBalances_nonneg_witness :
  Forall (fun t => nonneg (amount t) = true) [salary; rent] /\
  nonneg (income (calculateBalances [salary; rent])) = true /\
  nonneg (expense (calculateBalances [salary; rent])) = true.
Proof.
  assert (H : Forall (fun t => nonneg (amount t) = true) [salary; rent])
    by (repeat constructor).
  split; [exact H | apply (calculateBalances_nonneg [salary; rent] H)].
Defined.

(** C30: the totals depend on the order of the ledger: summing the same
    three incomes 0.1, 0.2 and 0.3 in two orders gives two different
    binary64 totals (0.6000000000000001 and 0.6), so the specification's
    "order-independent" holds only for exact arithmetic. *)
Theorem calculateBalances_order_dependent :
  exists l1 l2 : list Transaction,
    Permutation l1 l2 /\ income (calculateBalances l1) <> income (calculateBalances l2).
Proof.
  set (t (x : string) := mkTransaction (of_Z 0) "t" (parseFloat x) "income" "2024-01-01").
  exists [t "0.1"%string; t "0.2"%string; t "0.3"%string], [t "0.3"%string; t "0.2"%string; t "0.1"%string]. split.
  - by apply Permutation_rev.
  - vm_compute. discriminate.
Qed.

(** C29: the specification's additivity fails in binary64: the income of a
    concatenation is not the sum of the incomes of its parts (0.1 followed
    by 0.2 and 0.3 totals 0.6000000000000001, the parts 0.1 and 0.5 add to
    0.6); the pass over [l1 ++ l2] continues from the totals of [l1]
    instead, as [accumulate_app] states. *)
Theorem calculateBalances_not_additive :
  exists l1 l2 : list Transaction,
    income (calculateBalances (l1 ++ l2))
    <> dadd (income (calculateBalances l1)) (income (calculateBalances l2)).
Proof.
  set (t (x : string) := mkTransaction (of_Z 0) "t" (parseFloat x) "income" "2024-01-01").
  exists [t "0.1"%string], [t "0.2"%string; t "0.3"%string]. vm_compute. discriminate.
Qed.

(** ** Integer amounts: exact totals

    With whole-number amounts whose magnitudes add up to at most [2^53],
    every addition of the loop is exact, so the specification's
    order-independence and additivity hold. *)

Lemma formatCurrency_of_Z (z : Z) : (Z.abs z <= 2 ^ 53)%Z -> formatCurrency (of_Z z) = rupees z.
Proof. intros Hb. unfold formatCurrency. by rewrite toFixed_of_Z. Qed.

Section Exact.
Variable am : Transaction -> Z.

Lemma zsum_app (f : Transaction -> Z) (l1 l2 : list Transaction) :
  zsum f (l1 ++ l2) = (zsum f l1 + zsum f l2)%Z.
Proof. induction l1 as [|t l1 IH]; simpl; lia. Qed.

#[export] Instance zsum_Permutation_proper (f : Transaction -> Z) :
  Proper (@Permutation Transaction ==> eq) (zsum f).
Proof. intros l1 l2 H. induction H; simpl; lia. Qed.

Lemma zsum_abs (l : list Transaction) : (Z.abs (zsum am l) <= zsum (fun t => Z.abs (am t)) l)%Z.
Proof. induction l as [|t l IH]; simpl; lia. Qed.

Lemma zsum_filter_split (f : Transaction -> Z) (p : Transaction -> bool) (l : list Transaction) :
  (zsum f (List.filter p l) + zsum f (List.filter (fun t => negb (p t)) l))%Z = zsum f l.
Proof. induction l as [|t l IH]; simpl; [done|]. destruct (p t); simpl; lia. Qed.

Lemma zsum_nonneg (l : list Transaction) : (0 <= zsum (fun t => Z.abs (am t)) l)%Z.
Proof. induction l as [|t l IH]; simpl; lia. Qed.

(** The bounds the two totals of a ledger get from the bound on all
    amounts. *)
Lemma zsum_parts_bound (l : list Transaction) :
  (zsum (fun t => Z.abs (am t)) (List.filter is_income l) +
   zsum (fun t => Z.abs (am t)) (List.filter is_expense l) = zsum (fun t => Z.abs (am t)) l)%Z /\
  (Z.abs (zsum am (List.filter is_income l)) <= zsum (fun t => Z.abs (am t)) (List.filter is_income l))%Z /\
  (Z.abs (zsum am (List.filter is_expense l)) <= zsum (fun t => Z.abs (am t)) (List.filter is_expense l))%Z /\
  (0 <= zsum (fun t => Z.abs (am t)) (List.filter is_income l))%Z /\
  (0 <= zsum (fun t => Z.abs (am t)) (List.filter is_expense l))%Z.
Proof.
  split; [apply zsum_filter_split|]. split; [apply zsum_abs|]. split; [apply zsum_abs|].
  split; apply zsum_nonneg.
Qed.

(** Adding integer amounts from an integer start is exact while the
    magnitudes involved stay within [2^53]. *)
Lemma sum_from_exact (a : Z) (l : list Transaction) :
  Forall (fun t => amount t = of_Z (am t)) l ->
  (Z.abs a + zsum (fun t => Z.abs (am t)) l <= 2 ^ 53)%Z ->
  sum_from (of_Z a) l = of_Z (a + zsum am l).
Proof.
  unfold sum_from. revert a. induction l as [|t l IH]; intros a Hl Hb; simpl in *.
  - by rewrite Z.add_0_r.
  - inv_clear Hl. pose proof (zsum_nonneg l).
    rewrite H1, dadd_of_Z by lia. rewrite IH by (auto; lia). f_equal. lia.
Qed.

Lemma accumulate_exact (l : list Transaction) :
  Forall (fun t => amount t = of_Z (am t)) l ->
  (zsum (fun t => Z.abs (am t)) l <= 2 ^ 53)%Z ->
  accumulate l dzero dzero =
  (of_Z (zsum am (List.filter is_income l)), of_Z (zsum am (List.filter is_expense l))).
Proof.
  intros Hl Hb. rewrite accumulate_split, dzero_of_Z.
  pose proof (zsum_parts_bound l) as (Hs & _ & _ & Hi & He).
  rewrite !sum_from_exact by (auto with ledger; simpl; lia). done.
Qed.

(** The totals of integer amounts within the bound, and the bounds the
    three totals then satisfy. *)
Lemma totals_of_ints (l : list Transaction) :
  Forall (fun t => amount t = of_Z (am t)) l ->
  (zsum (fun t => Z.abs (am t)) l <= 2 ^ 53)%Z ->
  let I := zsum am (List.filter is_income l) in
  let E := zsum am (List.filter is_expense l) in
  calculateBalances l = mkTotals (of_Z (I - E)) (of_Z I) (of_Z E) /\
  (Z.abs (I - E) <= 2 ^ 53 /\ Z.abs I <= 2 ^ 53 /\ Z.abs E <= 2 ^ 53)%Z.
Proof.
  intros Hl Hb I E. unfold calculateBalances. rewrite accumulate_exact by done.
  pose proof (zsum_parts_bound l) as (Hs & HI & HE & _ & _).
  rewrite dsub_of_Z by (unfold I, E; lia). split; [done|unfold I, E; lia].
Qed.

(** C18: when every amount is an integer and the magnitudes of all amounts
    add up to at most [2^53], the binary64 totals are exact: the income is
    the integer sum of the income amounts, the expense that of the others,
    and the balance their difference. *)
Theorem calculateBalances_exact (l : list Transaction) :
  Forall (fun t => amount t = of_Z (am t)) l ->
  (zsum (fun t => Z.abs (am t)) l <= 2 ^ 53)%Z ->
  let I := zsum am (List.filter is_income l) in
  let E := zsum am (List.filter is_expense l) in
  calculateBalances l = mkTotals (of_Z (I - E)) (of_Z I) (of_Z E).
Proof. intros Hl Hb I E. by destruct (totals_of_ints l Hl Hb) as [-> _]. Qed.

(** C19: within the same bound the totals do not depend on the order of the
    ledger: the specification's order independence holds for integer
    amounts (contrast [calculateBalances_order_dependent]). *)
Theorem calculateBalances_order_independent (l1 l2 : list Transaction) :
  Permutation l1 l2 ->
  Forall (fun t => amount t = of_Z (am t)) l1 ->
  (zsum (fun t => Z.abs (am t)) l1 <= 2 ^ 53)%Z ->
  calculateBalances l1 = calculateBalances l2.
Proof.
  intros Hp Hl Hb.
  assert (Hl2 : Forall (fun t => amount t = of_Z (am t)) l2) by (by rewrite <- Hp).
  assert (Hb2 : (zsum (fun t => Z.abs (am t)) l2 <= 2 ^ 53)%Z) by (by rewrite <- Hp).
  unfold calculateBalances. rewrite !accumulate_exact by done. by rewrite Hp.
Qed.

(** C20: within the bound the totals are additive: the income of [l1 ++ l2]
    is the binary64 sum of the incomes of the parts, and so is the
    expense (contrast [calculateBalances_not_additive]). *)
Theorem calculateBalances_additive (l1 l2 : list Transaction) :
  Forall (fun t => amount t = of_Z (am t)) (l1 ++ l2) ->
  (zsum (fun t => Z.abs (am t)) (l1 ++ l2) <= 2 ^ 53)%Z ->
  income (calculateBalances (l1 ++ l2)) = dadd (income (calculateBalances l1)) (income (calculateBalances l2)) /\
  expense (calculateBalances (l1 ++ l2)) = dadd (expense (calculateBalances l1)) (expense (calculateBalances l2)).
Proof.
  intros Hl Hb. pose proof Hl as Hl12. apply Forall_app in Hl as [Hl1 Hl2]. rewrite zsum_app in Hb.
  pose proof (zsum_nonneg l1). pose proof (zsum_nonneg l2).
  unfold calculateBalances.
  rewrite (accumulate_exact (l1 ++ l2)), (accumulate_exact l1), (accumulate_exact l2)
    by (rewrite ?zsum_app; auto; lia). simpl.
  pose proof (zsum_parts_bound l1) as (H1 & H2 & H3 & H4 & H5).
  pose proof (zsum_parts_bound l2) as (H6 & H7 & H8 & H9 & H10).
  rewrite !filter_app_l, !zsum_app.
  split; rewrite dadd_of_Z by lia; done.
Qed.

(** C21: within the same bound the dashboard shows the exact totals: the
    balance, income and expense regions read the rupee texts of [I - E],
    [I] and [E]. *)
Theorem updateDashboard_exact (l : list Transaction) (d : Dashboard) :
  Forall (fun t => amount t = of_Z (am t)) l ->
  (zsum (fun t => Z.abs (am t)) l <= 2 ^ 53)%Z ->
  let I := zsum am (List.filter is_income l) in
  let E := zsum am (List.filter is_expense l) in
  updateDashboard l (Some d) = Some (mkDashboard (rupees (I - E)) (rupees I) (rupees E)).
Proof.
  intros Hl Hb I E. destruct (totals_of_ints l Hl Hb) as [Hc (H1 & H2 & H3)].
  unfold updateDashboard. rewrite Hc. cbn [balance income expense].
  by rewrite !formatCurrency_of_Z.
Qed.
End Exact.

Lemma scenario_integer_amounts :
  Forall (fun t => amount t = of_Z (scenario_amount t)) [salary; rent] /\
  (zsum (fun t => Z.abs (scenario_amount t)) [salary; rent] <= 2 ^ 53)%Z.
Proof. split; [repeat constructor|vm_compute; discriminate]. Qed.

Lemma calculateBalances_exact_witness :
  (Forall (fun t => amount t = of_Z (scenario_amount t)) [salary; rent] /\
   (zsum (fun t => Z.abs (scenario_amount t)) [salary; rent] <= 2 ^ 53)%Z) /\
  (let I := zsum scenario_amount (List.filter is_income [salary; rent]) in
   let E := zsum scenario_amount (List.filter is_expense [salary; rent]) in
   calculateBalances [salary; rent] = mkTotals (of_Z (I - E)) (of_Z I) (of_Z E)).
Proof.
  destruct scenario_integer_amounts as [Hl Hb].
  exact (conj (conj Hl Hb) (calculateBalances_exact scenario_amount [salary; rent] Hl Hb)).
Defined.

Lemma calculateBalances_order_independent_witness :
  (Permutation [salary; rent] [rent; salary] /\
   Forall (fun t => amount t = of_Z (scenario_amount t)) [salary; rent] /\
   (zsum (fun t => Z.abs (scenario_amount t)) [salary; rent] <= 2 ^ 53)%Z) /\
  calculateBalances [salary; rent] = calculateBalances [rent; salary].
Proof.
  destruct scenario_integer_amounts as [Hl Hb].
  assert (Hp : Permutation [salary; rent] [rent; salary]) by apply perm_swap.
  exact (conj (conj Hp (conj Hl Hb))
    (calculateBalances_order_independent scenario_amount [salary; rent] [rent; salary] Hp Hl Hb)).
Defined.

Lemma calculateBalances_additive_witness :
  (Forall (fun t => amount t = of_Z (scenario_amount t)) ([salary] ++ [rent]) /\
   (zsum (fun t => Z.abs (scenario_amount t)) ([salary] ++ [rent]) <= 2 ^ 53)%Z) /\
  income (calculateBalances ([salary] ++ [rent])) = dadd (income (calculateBalances [salary])) (income (calculateBalances [rent])) /\
  expense (calculateBalances ([salary] ++ [rent])) = dadd (expense (calculateBalances [salary])) (expense (calculateBalances [rent])).
Proof.
  destruct scenario_integer_amounts as [Hl Hb].
  exact (conj (conj Hl Hb) (calculateBalances_additive scenario_amount [salary] [rent] Hl Hb)).
Defined.

Lemma updateDashboard_exact_witness :
  (Forall (fun t => amount t = of_Z (scenario_amount t)) [salary; rent] /\
   (zsum (fun t => Z.abs (scenario_amount t)) [salary; rent] <= 2 ^ 53)%Z) /\
  updateDashboard [salary; rent] (Some (mkDashboard "" "" "")) =
  Some (mkDashboard (rupees 3500) (rupees 5000) (rupees 1500)).
Proof.
  destruct scenario_integer_amounts as [Hl Hb].
  exact (conj (conj Hl Hb)
    (updateDashboard_exact scenario_amount [salary; rent] (mkDashboard "" "" "") Hl Hb)).
Defined.

(** C34: [formatCurrency] rounds half up on the exact binary value: for a
    positive [x = m * 2^e] below [10^21], the printed cents [n] are the
    integer nearest to [100 x], the larger one on a tie:
    [n - 1/2 <= 100 x < n + 1/2], written over the common denominator
    [D = 2^max(-e,0)]. *)
Theorem formatCurrency_half_up (m : positive) (e : Z) :
  at_least_1e21 m e = false ->
  let D := (2 ^ Z.max (- e) 0)%Z in
  let X := (Zpos m * 100 * 2 ^ Z.max e 0)%Z in
  exists n, formatCurrency (S754_finite false m e) = ("₹" ++ fixed_notation 2 n)%string /\
    (D * (2 * n - 1) <= 2 * X < D * (2 * n + 1))%Z.
Proof.
  intros H1e21 D X. exists (scaled_round 2 m e). split.
  { unfold formatCurrency, toFixed. by rewrite H1e21. }
  unfold scaled_round, D, X. cbv zeta. change (10 ^ Z.of_nat 2)%Z with 100%Z.
  destruct (Z.leb_spec 0 e).
  - rewrite (Z.max_r (- e) 0), (Z.max_l e 0) by lia. simpl. lia.
  - rewrite (Z.max_l (- e) 0), (Z.max_r e 0), Z.pow_0_r, Z.mul_1_r by lia.
    pose proof (Z.pow_pos_nonneg 2 (- e) ltac:(lia) ltac:(lia)) as HD.
    pose proof (Z.div_mod (Zpos m * 100) (2 ^ (- e)) ltac:(lia)) as Hdm.
    pose proof (Z.mod_pos_bound (Zpos m * 100) (2 ^ (- e)) HD) as Hr.
    destruct (Z.leb_spec (2 ^ (- e)) (2 * (Zpos m * 100 mod 2 ^ (- e)))); nia.
Qed.

Lemma formatCurrency_half_up_witness :
  at_least_1e21 1 (-3) = false /\
  (let D := (2 ^ Z.max (- -3) 0)%Z in
   let X := (1 * 100 * 2 ^ Z.max (-3) 0)%Z in
   exists n, formatCurrency (S754_finite false 1 (-3)) = ("₹" ++ fixed_notation 2 n)%string /\
     (D * (2 * n - 1) <= 2 * X < D * (2 * n + 1))%Z).
Proof.
  assert (H : at_least_1e21 1 (-3) = false) by reflexivity.
  exact (conj H (formatCurrency_half_up 1 (-3) H)).
Defined.

(** C33: what the user types is what the page prints: an amount typed
    with two decimals ("12.50", "0.05"), up to [2^52] hundredths, is read
    by [parseFloat] (line 64) into the nearest binary64 value and printed
    by [formatCurrency] (lines 21-23) as the rupee sign and that same
    text, although the stored number is in general not the decimal. *)
Theorem formatCurrency_typed_cents (c : Z) :
  (0 <= c <= 2 ^ 52)%Z ->
  formatCurrency (parseFloat (fixed_notation 2 c)) = ("₹" ++ fixed_notation 2 c)%string.
Proof. intros Hc. unfold formatCurrency. by rewrite toFixed_parseFloat_cents. Qed.

Lemma formatCurrency_typed_cents_witness :
  (0 <= 1250 <= 2 ^ 52)%Z /\
  formatCurrency (parseFloat (fixed_notation 2 1250)) = ("₹" ++ fixed_notation 2 1250)%string.
Proof.
  assert (Hc : (0 <= 1250 <= 2 ^ 52)%Z) by lia.
  exact (conj Hc (formatCurrency_typed_cents 1250 Hc)).
Defined.

(** The rounding rule the specification asks to document: ties of the
    binary value round up ([0.125] prints as "₹0.13"), but most decimal
    ties are not binary ties ([2.005] is stored below [2.005] and prints as
    "₹2.00", [1.005] as "₹1.00"). *)
Example formatCurrency_ties :
  formatCurrency (parseFloat "0.125") = "₹0.13"%string /\
  formatCurrency (parseFloat "2.005") = "₹2.00"%string /\
  formatCurrency (parseFloat "1.005") = "₹1.00"%string.
Proof. vm_compute. repeat split. Qed.

(** The scenario of the specification: totals 5000, 1500 and 3500, and
    the balance printed as "₹3500.00". *)
Example scenario_totals :
  calculateBalances [salary; rent] = mkTotals (of_Z 3500) (of_Z 5000) (of_Z 1500) /\
  formatCurrency (balance (calculateBalances [salary; rent])) = "₹3500.00"%string.
Proof. split; vm_compute; reflexivity. Qed.

End Balances.
