(* ===== verification/Sort.v ===== *)
(** * Array.prototype.sort with a comparator

    ECMA-262 (23.1.3.30) requires [sort] to be stable and, for a consistent
    comparator, leaves only the algorithm open.  The model is insertion
    sort: [insert_by] puts [x] before the first element it does not compare
    greater than, so an element never moves past an equal one that followed
    it.  For a comparator [key b - key a] (newest first, as on line 123) the
    section [KeySort] proves that the result is a permutation, is sorted by
    decreasing key, keeps the input order among equal keys, and is the only
    list with these three properties: any conforming engine returns it. *)

From S2P Require Import Prelude.
Open Scope Z_scope.

Module Sort.

Section Sort.
Context {A : Type} (cmp : A -> A -> Z).

(** Insert [x] after the elements it compares greater than. *)
Fixpoint insert_by (x : A) (l : list A) : list A :=
  match l with
  | [] => [x]
  | y :: l' => if 0 <? cmp x y then y :: insert_by x l' else x :: l
  end.

Fixpoint sort_by (l : list A) : list A :=
  match l with
  | [] => []
  | x :: l' => insert_by x (sort_by l')
  end.
End Sort.

Section KeySort.
Context {A : Type} (key : A -> Z).

(** The comparator [(a, b) => key(b) - key(a)]. *)
Definition desc (a b : A) : Z := key b - key a.

(** [a] may precede [b] in a newest-first list. *)
Definition newer_eq (a b : A) : Prop := key b <= key a.

Definition same_key (k : Z) (x : A) : bool := key x =? k.
End KeySort.

(** ** Permutation *)

Section Perm.
Context {A : Type} (cmp : A -> A -> Z).

Lemma insert_by_perm (x : A) (l : list A) : Permutation (insert_by cmp x l) (x :: l).
Proof.
  induction l as [|y l IH]; simpl; [done|]. case_if; [|done].
  rewrite IH. apply perm_swap.
Qed.

Lemma sort_by_perm (l : list A) : Permutation (sort_by cmp l) l.
Proof.
  induction l as [|x l IH]; simpl; [done|]. by rewrite insert_by_perm, IH.
Qed.

Lemma insert_by_ext (cmp' : A -> A -> Z) (x : A) (l : list A) :
  (forall y, In y l -> cmp x y = cmp' x y) -> insert_by cmp x l = insert_by cmp' x l.
Proof.
  induction l as [|y l IH]; intros Hext; simpl; [done|].
  rewrite Hext by (left; done). case_if; [|done].
  f_equal. apply IH. intros z Hz. apply Hext. by right.
Qed.

(** Two comparators that agree on the elements of a list sort it alike. *)
Lemma sort_by_ext (cmp' : A -> A -> Z) (l : list A) :
  (forall x y, In x l -> In y l -> cmp x y = cmp' x y) -> sort_by cmp l = sort_by cmp' l.
Proof.
  induction l as [|x l IH]; intros Hext; simpl; [done|].
  rewrite <- IH by (intros; apply Hext; by right).
  apply insert_by_ext. intros y Hy. apply Hext; [by left|].
  right. by apply (Permutation_in _ (sort_by_perm l)) in Hy.
Qed.
End Perm.

(** ** Order, stability, uniqueness *)

Section KeySortFacts.
Context {A : Type} (key : A -> Z).

Lemma insert_by_sorted (x : A) (l : list A) :
  Sorted (newer_eq key) l -> Sorted (newer_eq key) (insert_by (desc key) x l).
Proof.
  unfold newer_eq, desc. induction 1 as [|y l Hl IH Hhd]; simpl.
  - repeat constructor.
  - z_cases.
    + constructor; [done|]. destruct l as [|z l]; simpl.
      * constructor. lia.
      * inv_clear Hhd. z_cases; constructor; lia.
    + repeat constructor; [done..|lia].
Qed.

(** The result is newest first. *)
Lemma sort_by_sorted (l : list A) : Sorted (newer_eq key) (sort_by (desc key) l).
Proof. induction l; simpl; [constructor|]. by apply insert_by_sorted. Qed.

Lemma insert_by_same_key (k : Z) (x : A) (l : list A) :
  List.filter (same_key key k) (insert_by (desc key) x l) = List.filter (same_key key k) (x :: l).
Proof.
  unfold same_key, desc. induction l as [|y l IH]; simpl; [done|].
  destruct (Z.ltb_spec 0 (key y - key x)); simpl; [|done].
  rewrite IH. simpl.
  destruct (Z.eqb_spec (key x) k), (Z.eqb_spec (key y) k); simpl; done || lia.
Qed.

(** Stability: the elements of each key keep their input order. *)
Lemma sort_by_stable (k : Z) (l : list A) :
  List.filter (same_key key k) (sort_by (desc key) l) = List.filter (same_key key k) l.
Proof.
  induction l as [|x l IH]; simpl; [done|].
  rewrite insert_by_same_key. simpl. by rewrite IH.
Qed.

Lemma sorted_head_max (a : A) (l : list A) (x : A) :
  Sorted (newer_eq key) (a :: l) -> In x (a :: l) -> key x <= key a.
Proof.
  intros Hs [->|Hx]; [unfold newer_eq; lia|].
  apply Sorted_StronglySorted in Hs; [|unfold newer_eq; intros ???; lia]. inv_clear Hs.
  eapply Forall_forall in Hx; [|eassumption]. exact Hx.
Qed.

Lemma same_key_in (k : Z) (x : A) (l : list A) :
  In x (List.filter (same_key key k) l) -> In x l.
Proof. intros Hx. by apply filter_In in Hx as [? _]. Qed.

(** Uniqueness: two newest-first lists with the same elements in the same
    order within each key are equal. *)
Lemma sorted_stable_unique (l1 l2 : list A) :
  Sorted (newer_eq key) l1 -> Sorted (newer_eq key) l2 ->
  (forall k, List.filter (same_key key k) l1 = List.filter (same_key key k) l2) ->
  l1 = l2.
Proof.
  revert l2; induction l1 as [|a r1 IH]; intros [|b r2] Hs1 Hs2 Hf.
  - done.
  - specialize (Hf (key b)). unfold same_key in Hf. simpl in Hf.
    rewrite Z.eqb_refl in Hf. discriminate.
  - specialize (Hf (key a)). unfold same_key in Hf. simpl in Hf.
    rewrite Z.eqb_refl in Hf. discriminate.
  - assert (Hab : key a = key b).
    { assert (Ha : In a (b :: r2)).
      { apply (same_key_in (key a)). rewrite <- Hf. unfold same_key; simpl.
        rewrite Z.eqb_refl. by left. }
      assert (Hb : In b (a :: r1)).
      { apply (same_key_in (key b)). rewrite Hf. unfold same_key; simpl.
        rewrite Z.eqb_refl. by left. }
      pose proof (sorted_head_max b r2 a Hs2 Ha).
      pose proof (sorted_head_max a r1 b Hs1 Hb). lia. }
    pose proof (Hf (key a)) as Ha. unfold same_key in Ha. simpl in Ha.
    rewrite Z.eqb_refl, <- Hab, Z.eqb_refl in Ha. injection Ha as -> Hr.
    f_equal. apply IH; [exact (proj1 (Sorted_inv Hs1)) | exact (proj1 (Sorted_inv Hs2)) |].
    intros k. specialize (Hf k). unfold same_key in Hf |- *. simpl in Hf.
    destruct (key b =? k); [by injection Hf|done].
Qed.
End KeySortFacts.

End Sort.
