(* ===== verification/History.v ===== *)
(** * The history view

    [showTransactionHistory] (lines 101-148): the loop that keeps the
    transactions whose lower-cased title contains the lower-cased search
    term and whose type passes the filter (lines 110-119), the newest-first
    sort (lines 122-124), and the HTML written into the list (lines
    127-146).  [setupHistoryPage] (lines 151-159) only registers this
    function for the search and filter events; the events are steps of
    [App].  The host's case mapping, number printer and date locale are the
    interfaces of [JsString], [JsNumber] and [JsDate]. *)

From S2P Require Import Prelude JsNumber JsString JsDate Transaction Balances Sort.
Import JsNumber JsString JsDate Transaction Balances Sort.
Open Scope string_scope.

Module History.

Section HistoryModel.
Context `{CaseMapping} `{DateLocale}.

(** Line 113: [t.title.toLowerCase().includes(searchTerm)]. *)
Definition matchesSearch (searchTerm : string) (t : Transaction) : bool :=
  includes (toLowerCase (title t)) searchTerm.

(** Line 114: [filterType === 'all' || t.type === filterType]. *)
Definition matchesFilter (filterType : string) (t : Transaction) : bool :=
  ((filterType === "all") || (type t === filterType))%js.

(** Lines 110-119: push every matching transaction, in ledger order. *)
Definition filterTransactions (searchTerm filterType : string)
    (transactions : list Transaction) : list Transaction :=
  fold_left (fun filtered t =>
               if matchesSearch searchTerm t && matchesFilter filterType t
               then (filtered ++ [t])%list else filtered)
            transactions [].

(** Line 123: [new Date(b.date) - new Date(a.date)], read by SortCompare
    as [+0] when it is NaN (an invalid date on either side). *)
Definition compareByDate (a b : Transaction) : Z :=
  match date_value (date b), date_value (date a) with
  | Some tb, Some ta => (tb - ta)%Z
  | _, _ => 0%Z
  end.

(** Lines 106-124: the list the page shows, for the raw search box value
    and filter value. *)
Definition historyItems (transactions : list Transaction) (search filter : string) : list Transaction :=
  let searchTerm := toLowerCase search in
  sort_by compareByDate (filterTransactions searchTerm filter transactions).

(** A double quote, for the attribute values of the markup. *)
Definition dq : string := String (ascii_of_nat 34) EmptyString.

(** Line 128. *)
Definition empty_html : string :=
  "<p class=" ++ dq ++ "empty" ++ dq ++ ">No transactions found</p>".

(** Lines 133-143: the template literal of one item, character for
    character; the title is interpolated as it is. *)
Definition item_html (t : Transaction) : string :=
  "
          <div class=" ++ dq ++ "transaction-item " ++ type t ++ "-item" ++ dq ++ ">
            <div class=" ++ dq ++ "transaction-details" ++ dq ++ ">
              <strong>" ++ title t ++ "</strong>
              <small>" ++ toLocaleDateString (date_value (date t)) ++ "</small>
            </div>
            <div class=" ++ dq ++ "transaction-amount" ++ dq ++ ">
              " ++ (if is_income t then "+" else "-") ++ formatCurrency (amount t) ++ "
            </div>
          </div>
        ".

(** Lines 127-146. *)
Definition render (items : list Transaction) : string :=
  match items with
  | [] => empty_html
  | _ => fold_left (fun html t => html ++ item_html t) items ""
  end.

End HistoryModel.

(** The list region and the two inputs of the history page. *)
Record HistoryView := mkHistoryView {
  search_value : string;
  filter_value : string;
  list_html : string;
}.

(** Lines 101-148: on a page with the list ([Some]), its HTML is replaced;
    the ledger is only read. *)
Definition showTransactionHistory `{CaseMapping} `{DateLocale}
    (transactions : list Transaction) (view : option HistoryView) : option HistoryView :=
  match view with
  | Some v =>
      Some (mkHistoryView (search_value v) (filter_value v)
              (render (historyItems transactions (search_value v) (filter_value v))))
  | None => None
  end.

(** The time value sorted on, and whether a date is valid. *)
Definition time_of (t : Transaction) : Z :=
  match date_value (date t) with Some v => v | None => 0%Z end.

Definition valid_date (t : Transaction) : Prop := is_Some (date_value (date t)).

Definition has_valid_date (t : Transaction) : bool :=
  match date_value (date t) with Some _ => true | None => false end.

(** The selection of lines 113-116 as one predicate. *)
Definition matches `{CaseMapping} (search filter : string) (t : Transaction) : bool :=
  matchesSearch (toLowerCase search) t && matchesFilter filter t.

(** ** Theorems *)

Section HistoryFacts.
Context `{CaseMapping} `{DateLocale}.

Lemma filter_loop_app (p : Transaction -> bool) (l acc : list Transaction) :
  fold_left (fun filtered t => if p t then (filtered ++ [t])%list else filtered) l acc
  = (acc ++ List.filter p l)%list.
Proof.
  revert acc; induction l as [|t l IH]; intros acc; simpl; [by rewrite app_nil_r|].
  destruct (p t); rewrite IH; [by rewrite <- app_assoc|done].
Qed.

(** The loop of lines 110-119 is [List.filter] with the two tests. *)
Lemma filterTransactions_filter (searchTerm filter : string) (l : list Transaction) :
  filterTransactions searchTerm filter l
  = List.filter (fun t => matchesSearch searchTerm t && matchesFilter filter t) l.
Proof. apply filter_loop_app. Qed.

Lemma historyItems_perm (l : list Transaction) (search filter : string) :
  Permutation (historyItems l search filter) (List.filter (matches search filter) l).
Proof. unfold historyItems. rewrite filterTransactions_filter. apply sort_by_perm. Qed.

Lemma compareByDate_desc (a b : Transaction) :
  valid_date a -> valid_date b -> compareByDate a b = desc time_of a b.
Proof.
  unfold valid_date, compareByDate, desc, time_of.
  intros [ta Ha] [tb Hb]. by rewrite Ha, Hb.
Qed.

(** With valid dates the comparator is [time_of b - time_of a]. *)
Lemma historyItems_by_key (l : list Transaction) (search filter : string) :
  Forall valid_date l ->
  historyItems l search filter = sort_by (desc time_of) (List.filter (matches search filter) l).
Proof.
  intros Hl. unfold historyItems. rewrite filterTransactions_filter.
  apply sort_by_ext. intros x y Hx Hy.
  apply filter_In in Hx as [Hx _], Hy as [Hy _].
  rewrite Forall_forall in Hl. by apply compareByDate_desc; apply Hl.
Qed.

(** C14: a transaction is shown exactly when it is in the ledger, its
    lower-cased title contains the lower-cased search text, and the filter
    is "all" or its type. *)
Theorem historyItems_member (l : list Transaction) (search filter : string) (t : Transaction) :
  In t (historyItems l search filter) <->
  In t l /\ includes (toLowerCase (title t)) (toLowerCase search) = true /\
  (filter = "all" \/ type t = filter).
Proof.
  split.
  - intros Ht. apply (Permutation_in _ (historyItems_perm l search filter)) in Ht.
    apply filter_In in Ht as [Hin Hm]. unfold matches, matchesSearch, matchesFilter in Hm.
    revert Hm. autorewrite with js_bool. intros [Hs Hf]. auto.
  - intros (Hin & Hs & Hf). apply (Permutation_in _ (Permutation_sym (historyItems_perm l search filter))).
    apply filter_In. split; [done|]. unfold matches, matchesSearch, matchesFilter.
    autorewrite with js_bool. naive_solver.
Qed.

(** C15: when every stored date is valid, the history is newest first. *)
Theorem historyItems_sorted (l : list Transaction) (search filter : string) :
  Forall valid_date l -> Sorted (newer_eq time_of) (historyItems l search filter).
Proof. intros Hl. rewrite historyItems_by_key by done. apply sort_by_sorted. Qed.

(** C16: when every stored date is valid, transactions of the same date are
    shown in the order they were added. *)
Theorem historyItems_stable (l : list Transaction) (search filter : string) (k : Z) :
  Forall valid_date l ->
  List.filter (same_key time_of k) (historyItems l search filter)
  = List.filter (same_key time_of k) (List.filter (matches search filter) l).
Proof. intros Hl. rewrite historyItems_by_key by done. apply sort_by_stable. Qed.

(** C17: when every stored date is valid, the history is the only list that
    is newest first and holds, for each date, the matching transactions of
    that date in ledger order: any stable sort gives the page the same
    list. *)
Theorem historyItems_unique (l : list Transaction) (search filter : string) (out : list Transaction) :
  Forall valid_date l ->
  Sorted (newer_eq time_of) out ->
  (forall k, List.filter (same_key time_of k) out
             = List.filter (same_key time_of k) (List.filter (matches search filter) l)) ->
  out = historyItems l search filter.
Proof.
  intros Hl Hs Hk. rewrite historyItems_by_key by done.
  apply (sorted_stable_unique time_of); [done|apply sort_by_sorted|].
  intros k. rewrite Hk. symmetry. apply sort_by_stable.
Qed.

Lemma render_cons (t : Transaction) (items : list Transaction) :
  render (t :: items) = fold_left (fun html t => html ++ item_html t) (t :: items) "".
Proof. done. Qed.

Lemma item_html_title (t : Transaction) : includes (item_html t) (title t) = true.
Proof.
  unfold item_html.
  repeat match goal with
  | |- includes (title t ++ _) _ = true => apply includes_app_l, includes_self
  | |- includes (_ ++ _) _ = true => apply includes_app_r
  end.
Qed.

Lemma fold_html_keeps (items : list Transaction) (acc s : string) :
  includes acc s = true ->
  includes (fold_left (fun html t => html ++ item_html t) items acc) s = true.
Proof.
  revert acc; induction items as [|t items IH]; intros acc Hacc; simpl; [done|].
  apply IH. by apply includes_app_l.
Qed.

Lemma fold_html_title (items : list Transaction) (acc : string) (t : Transaction) :
  In t items -> includes (fold_left (fun html t => html ++ item_html t) items acc) (title t) = true.
Proof.
  revert acc; induction items as [|t1 items IH]; intros acc Hin; [destruct Hin|].
  destruct Hin as [<-|Hin]; simpl.
  - apply fold_html_keeps, includes_app_r, item_html_title.
  - by apply IH.
Qed.

Lemma fold_html_length (items : list Transaction) (acc : string) :
  String.length (fold_left (fun html t => html ++ item_html t) items acc) =
  (String.length acc + sum_list (map (fun t => String.length (item_html t)) items))%nat.
Proof.
  revert acc; induction items as [|t items IH]; intros acc; cbn [fold_left map sum_list sum_list_with Datatypes.id]; [lia|].
  rewrite IH, string_length_app. lia.
Qed.

Lemma sum_list_perm (l1 l2 : list nat) : Permutation l1 l2 -> sum_list l1 = sum_list l2.
Proof. induction 1; simpl; lia. Qed.

Lemma item_html_longer (t : Transaction) : (String.length empty_html < String.length (item_html t))%nat.
Proof. unfold item_html, empty_html. rewrite !string_length_app. simpl. lia. Qed.

(** A list with one more item renders to a longer markup: it differs. *)
Lemma render_grows (items items' : list Transaction) (t : Transaction) :
  Permutation items' (t :: items) -> (String.length (render items) < String.length (render items'))%nat.
Proof.
  intros Hp. destruct items' as [|x xs]; [by apply Permutation_nil_cons in Hp|].
  unfold render at 2. rewrite fold_html_length.
  rewrite (sum_list_perm _ _ (Permutation_map _ Hp)).
  cbn [map sum_list sum_list_with Datatypes.id String.length].
  pose proof (item_html_longer t).
  destruct items as [|y ys]; [change (render []) with empty_html; lia|].
  unfold render. rewrite fold_html_length. cbn [String.length]. lia.
Qed.

(** C26: the markup of the list contains every shown title verbatim: a title
    is not escaped before it is written into [innerHTML], so markup typed
    as a title is interpreted by the page. *)
Theorem render_contains_title (items : list Transaction) (t : Transaction) :
  In t items -> includes (render items) (title t) = true.
Proof. destruct items as [|t0 items]; [done|]. apply fold_html_title. Qed.
End HistoryFacts.

(** ** Witnesses and counterexamples *)

(** An income of 1 dated [d] (titled [d]). *)
Definition dated (d : string) : Transaction := mkTransaction (of_Z 0) d (of_Z 1) "income" d.

Lemma scenario_dates_valid : Forall valid_date [salary; rent].
Proof. repeat constructor; eexists; reflexivity. Qed.

Lemma historyItems_sorted_witness :
  Forall valid_date [salary; rent] /\
  Sorted (newer_eq time_of) (historyItems [salary; rent] "" "all").
Proof.
  split; [exact scenario_dates_valid|].
  apply (historyItems_sorted [salary; rent] "" "all" scenario_dates_valid).
Defined.

Lemma historyItems_stable_witness :
  Forall valid_date [salary; rent] /\
  List.filter (same_key time_of (time_of rent)) (historyItems [salary; rent] "" "all")
  = List.filter (same_key time_of (time_of rent)) (List.filter (matches "" "all") [salary; rent]).
Proof.
  split; [exact scenario_dates_valid|].
  apply (historyItems_stable [salary; rent] "" "all" (time_of rent) scenario_dates_valid).
Defined.

Lemma historyItems_unique_witness :
  [rent; salary] = historyItems [salary; rent] "" "all".
Proof.
  apply (historyItems_unique [salary; rent] "" "all" [rent; salary] scenario_dates_valid).
  - repeat constructor; vm_compute; discriminate.
  - intros k. cbn -[same_key].
    destruct (same_key time_of k rent) eqn:E1, (same_key time_of k salary) eqn:E2;
      try reflexivity.
    unfold same_key in E1, E2. apply Z.eqb_eq in E1, E2. vm_compute in E1, E2. congruence.
Defined.

Lemma render_contains_title_witness :
  In salary [salary] /\ includes (@render (dmy_locale 0) [salary]) (title salary) = true.
Proof.
  assert (H : In salary [salary]) by (left; reflexivity).
  split; [exact H | apply (@render_contains_title (dmy_locale 0) [salary] salary H)].
Defined.

(** With a stored date that is not a date ("not a date" makes the
    comparator NaN, read as "equal"), the history is not newest first even
    among the valid dates: January is shown above February.  ECMA-262
    leaves the order implementation-defined for such an inconsistent
    comparator; the model's stable insertion sort, like the binary
    insertion sort V8 uses on short arrays, keeps this order. *)
Theorem historyItems_invalid_date_unsorted :
  exists l : list Transaction,
    ~ Sorted (newer_eq time_of) (List.filter has_valid_date (historyItems l "" "all")).
Proof.
  exists [dated "2024-01-01"; dated "not a date"; dated "2024-02-01"].
  assert (E : List.filter has_valid_date
                (historyItems [dated "2024-01-01"; dated "not a date"; dated "2024-02-01"] "" "all")
              = [dated "2024-01-01"; dated "2024-02-01"]) by (vm_compute; reflexivity).
  rewrite E. intros Hs. inversion Hs as [|? ? _ Hhd]. inversion Hhd as [|? ? Hle].
  unfold newer_eq in Hle. vm_compute in Hle. by apply Hle.
Qed.

(** The specification's scenario: searching "sal" shows Salary, filtering
    "expense" shows Rent. *)
Example scenario_history :
  historyItems [salary; rent] "sal" "all" = [salary] /\
  historyItems [salary; rent] "" "expense" = [rent].
Proof. split; reflexivity. Qed.

(** C31: a date is entered as a calendar day but stored as UTC midnight and
    shown in local time: for every date a date input produces (years 0000
    to 9999) and every host less than a day away from UTC, the item shows
    that UTC day when the host is at or east of UTC, and the day before
    when it is west of UTC. *)
Theorem item_html_date_west_of_utc (t : Transaction) (tv off : Z) :
  date t = iso_date_of_time tv -> (-62167219200000 <= tv < 253402300800000)%Z ->
  (- msPerDay < off < msPerDay)%Z ->
  includes (@item_html (dmy_locale off) t)
    ("<small>" ++ dmy_date_string 0 (Some ((tv / msPerDay - (if off <? 0 then 1 else 0)) * msPerDay)%Z) ++ "</small>")
  = true.
Proof.
  intros Hd Ht Ho. unfold item_html. cbn [toLocaleDateString dmy_locale].
  rewrite Hd, iso_date_value, dmy_date_midnight by done.
  do 12 apply includes_app_r. apply (includes_app_r "</strong>
              ").
  apply (includes_prefix "<small>" (dmy_date_string 0 _) "</small>").
Qed.

Lemma item_html_date_west_of_utc_witness :
  let t := mkTransaction (of_Z 0) "Rent" (of_Z 1500) "expense" (iso_date_of_time 1704412800000) in
  (date t = iso_date_of_time 1704412800000 /\ (-62167219200000 <= 1704412800000 < 253402300800000)%Z /\
   (- msPerDay < -18000000 < msPerDay)%Z) /\
  includes (@item_html (dmy_locale (-18000000)) t)
    ("<small>" ++ dmy_date_string 0 (Some ((1704412800000 / msPerDay - (if -18000000 <? 0 then 1 else 0)) * msPerDay)%Z) ++ "</small>")
  = true.
Proof.
  intros t. assert (Ht : (-62167219200000 <= 1704412800000 < 253402300800000)%Z) by lia.
  assert (Ho : (- msPerDay < -18000000 < msPerDay)%Z) by (unfold msPerDay; lia).
  exact (conj (conj eq_refl (conj Ht Ho)) (item_html_date_west_of_utc t _ _ eq_refl Ht Ho)).
Defined.

End History.
