(* ===== verification/Codec.v ===== *)
(** * The storage codec: what JSON.stringify and JSON.parse promise

    The ledger is written with [JSON.stringify(transactions)] (line 17) and
    read with [JSON.parse(...)] (line 9).  The page logic of [App] uses
    them only through this interface: [stringify] prints a ledger, [parse]
    either yields a ledger, throws a [SyntaxError], or yields a JSON value
    that is not an array of transaction records.  The laws are what JSON
    guarantees for the values the script stores: a printed ledger is a
    non-empty string that parses back to the same ledger, provided every
    number in it survives JSON, i.e. is finite and not [-0] ([JSON.stringify]
    prints NaN and the infinities as [null] and [-0] as [0]) and its printed
    digits read back as the same number.  The last two laws name the
    numbers the script produces that are known to survive: the clock values
    it uses as ids and the amounts typed with two decimals. *)

From S2P Require Import Prelude JsNumber Transaction.
From Stdlib Require Import Floats.SpecFloat.
Import JsNumber Transaction.

Module Codec.

Inductive parse_result :=
  | Parsed (l : list Transaction)   (** an array of transaction records *)
  | Throws                          (** [JSON.parse] throws a SyntaxError *)
  | Foreign.                        (** valid JSON, but not a ledger *)

(** A number that JSON prints as a number: finite and not [-0]. *)
Definition json_number (x : double) : bool :=
  match x with
  | S754_zero false | S754_finite _ _ _ => true
  | _ => false
  end.

(** [number_ok] are the numbers the codec reproduces exactly. *)
Class LedgerCodec := {
  stringify : list Transaction -> string;
  parse : string -> parse_result;
  number_ok : double -> bool;
}.

Definition json_safe `{LedgerCodec} (t : Transaction) : bool :=
  number_ok (id t) && number_ok (amount t).

Class LedgerCodecLaws `{LedgerCodec} := {
  parse_stringify : forall l, forallb json_safe l = true -> parse (stringify l) = Parsed l;
  stringify_nonempty : forall l, stringify l <> EmptyString;
  number_ok_json : forall x, number_ok x = true -> json_number x = true;
  number_ok_clock : forall n, (0 < n <= 2 ^ 52)%Z -> number_ok (of_Z n) = true;
  number_ok_cents : forall c, (0 <= c <= 2 ^ 52)%Z -> number_ok (parseFloat (fixed_notation 2 c)) = true;
}.

End Codec.
