(* ===== verification/Json.v ===== *)
(** * JSON.stringify and JSON.parse on ledgers

    The storage codec of lines 9 and 17, written out from ECMA-262 25.5:
    JSON values, [JSON.stringify] without indentation (SerializeJSONProperty,
    QuoteJSONString, Number::toString for finite numbers and [null] for the
    others), and [JSON.parse] as a parser of ECMA-404 JSON text with fuel
    (one unit per nested value and per array element or object member;
    the length of the text plus one is enough, since each consumes at least
    one character).  Strings are byte strings: a [\uXXXX] escape below
    0x80 is that byte and any other is its UTF-8 encoding.  A parsed value
    is a ledger when it is an array of objects with a numeric [id] and
    [amount] and string [title], [type] and [date] (other members are
    ignored; a repeated key takes its last value, as [JSON.parse] does).
    The numbers the codec reproduces include the clock values up to 2^52
    ([json_roundtrip_number_of_Z]) and the amounts typed with two decimals
    up to 2^52 hundredths ([json_roundtrip_cents]): the text
    [Number::toString] writes for them is a number token for the same
    double ([format_number_token]).  A record whose amount is not finite
    is written with a [null] amount and read back as an object that is
    not a record ([json_read], [parse_ledger_nonfinite]). *)

From S2P Require Import Prelude JsNumber Digits Rounding Transaction Codec.
From Stdlib Require Import Floats.SpecFloat DecimalFacts.
Import JsNumber Digits Rounding Transaction Codec.
Open Scope string_scope.

Module Json.

#[warnings="-register-all"]
Inductive json :=
  | JNull
  | JBool (b : bool)
  | JNumber (x : double)
  | JString (s : string)
  | JArray (l : list json)
  | JObject (members : list (string * json)).

(** ** Printing *)

Definition chr (n : nat) : string := String (ascii_of_nat n) EmptyString.
Definition quote_mark : ascii := ascii_of_nat 34.
Definition backslash : ascii := ascii_of_nat 92.

Definition hex_digit (n : nat) : ascii :=
  if (n <? 10)%nat then ascii_of_nat (48 + n) else ascii_of_nat (87 + n).

(** The escape QuoteJSONString writes for one code unit. *)
Definition escape_char (c : ascii) : string :=
  match nat_of_ascii c with
  | 8 => String backslash "b"
  | 9 => String backslash "t"
  | 10 => String backslash "n"
  | 12 => String backslash "f"
  | 13 => String backslash "r"
  | 34 => String backslash (chr 34)
  | 92 => String backslash (chr 92)
  | n => if (n <? 32)%nat
         then String backslash (String "u" (String "0" (String "0"
                (String (hex_digit (n / 16)) (String (hex_digit (n mod 16)) EmptyString)))))
         else String c EmptyString
  end%nat.

Fixpoint escape_string (s : string) : string :=
  match s with
  | EmptyString => EmptyString
  | String c r => escape_char c ++ escape_string r
  end.

(** QuoteJSONString (25.5.2.3). *)
Definition quote (s : string) : string :=
  String quote_mark (escape_string s ++ chr 34).

(** SerializeJSONProperty (25.5.2.2) without a replacer or gap. *)
Fixpoint serialize (j : json) : string :=
  match j with
  | JNull => "null"
  | JBool true => "true"
  | JBool false => "false"
  | JNumber x => if isFinite x then number_to_string x else "null"
  | JString s => quote s
  | JArray l =>
      "[" ++
      (fix elems (l : list json) : string :=
         match l with
         | [] => ""
         | v :: r => serialize v ++ (match r with [] => "" | _ => "," ++ elems r end)
         end) l ++ "]"
  | JObject ms =>
      "{" ++
      (fix members (ms : list (string * json)) : string :=
         match ms with
         | [] => ""
         | (k, v) :: r => quote k ++ ":" ++ serialize v ++
                            (match r with [] => "" | _ => "," ++ members r end)
         end) ms ++ "}"
  end.

(** The object literal of lines 71-77, its members in that order. *)
Definition transaction_json (t : Transaction) : json :=
  JObject [("id", JNumber (id t)); ("title", JString (title t));
           ("amount", JNumber (amount t)); ("type", JString (type t));
           ("date", JString (date t))].

(** [JSON.stringify(transactions)] (line 17). *)
Definition stringify_ledger (l : list Transaction) : string :=
  serialize (JArray (map transaction_json l)).

(** ** Parsing *)

Definition is_json_space (c : ascii) : bool :=
  match nat_of_ascii c with 9 | 10 | 13 | 32 => true | _ => false end%nat.

Fixpoint skip_ws (s : string) : string :=
  match s with
  | String c r => if is_json_space c then skip_ws r else s
  | EmptyString => EmptyString
  end.

Definition hex_value (c : ascii) : option nat :=
  let n := nat_of_ascii c in
  if (48 <=? n)%nat && (n <=? 57)%nat then Some (n - 48)%nat
  else if (97 <=? n)%nat && (n <=? 102)%nat then Some (n - 87)%nat
  else if (65 <=? n)%nat && (n <=? 70)%nat then Some (n - 55)%nat
  else None.

(** The bytes of a code unit: itself below 0x80, else its UTF-8 form. *)
Definition code_unit_bytes (u : nat) : string :=
  if (u <? 128)%nat then chr u
  else if (u <? 2048)%nat then String (ascii_of_nat (192 + u / 64)) (chr (128 + u mod 64))
  else String (ascii_of_nat (224 + u / 4096))
         (String (ascii_of_nat (128 + (u / 64) mod 64)) (chr (128 + u mod 64))).

(** The one-character escapes of JSON strings. *)
Definition simple_escape (c : ascii) : option ascii :=
  match nat_of_ascii c with
  | 34 => Some (ascii_of_nat 34) | 92 => Some (ascii_of_nat 92) | 47 => Some (ascii_of_nat 47)
  | 98 => Some (ascii_of_nat 8) | 102 => Some (ascii_of_nat 12) | 110 => Some (ascii_of_nat 10)
  | 114 => Some (ascii_of_nat 13) | 116 => Some (ascii_of_nat 9)
  | _ => None
  end%nat.

(** The characters of a string after its opening quote, up to the closing
    quote: the string and the text after it. *)
Fixpoint string_body (s : string) : option (string * string) :=
  match s with
  | EmptyString => None
  | String c r =>
      if (nat_of_ascii c =? 34)%nat then Some (EmptyString, r)
      else if (nat_of_ascii c =? 92)%nat then
        match r with
        | String e r' =>
            match simple_escape e with
            | Some c' =>
                match string_body r' with
                | Some (x, rest) => Some (String c' x, rest)
                | None => None
                end
            | None =>
                match e, r' with
                | "u"%char, String h1 (String h2 (String h3 (String h4 r''))) =>
                    match hex_value h1, hex_value h2, hex_value h3, hex_value h4, string_body r'' with
                    | Some a, Some b, Some c3, Some d, Some (x, rest) =>
                        Some (code_unit_bytes (((a * 16 + b) * 16 + c3) * 16 + d) ++ x, rest)
                    | _, _, _, _, _ => None
                    end
                | _, _ => None
                end
            end
        | EmptyString => None
        end
      else if (nat_of_ascii c <? 32)%nat then None
      else
        match string_body r with
        | Some (x, rest) => Some (String c x, rest)
        | None => None
        end
  end.

Definition is_digit (c : ascii) : bool :=
  let n := nat_of_ascii c in (48 <=? n)%nat && (n <=? 57)%nat.

(** A JSON number, [-? (0 | [1-9][0-9]* ) (. [0-9]+)? ([eE] [+-]? [0-9]+)?],
    read in four stages and rounded as a numeric literal. *)
Definition sign_part (s : string) : bool * string :=
  match s with
  | String c r => if (c =? "-")%char then (true, r) else (false, s)
  | EmptyString => (false, EmptyString)
  end.

Definition int_part (s : string) : option (Z * string) :=
  match s with
  | String c r =>
      if (c =? "0")%char then Some (0%Z, r)
      else if is_digit c then let '(v, _, r') := take_digits s 0 in Some (v, r')
      else None
  | EmptyString => None
  end.

Definition frac_part (ip : Z) (s : string) : option (Z * Z * string) :=
  match s with
  | String c r =>
      if (c =? ".")%char then
        let '(v, nf, r') := take_digits r ip in
        if (nf =? 0)%nat then None else Some (v, (- Z.of_nat nf)%Z, r')
      else Some (ip, 0%Z, s)
  | EmptyString => Some (ip, 0%Z, EmptyString)
  end.

Definition exp_digits (sgn : Z) (s : string) : option (Z * string) :=
  let '(v, k, r) := take_digits s 0 in
  if (k =? 0)%nat then None else Some ((sgn * v)%Z, r).

Definition exp_part (s : string) : option (Z * string) :=
  match s with
  | String c r =>
      if (c =? "e")%char || (c =? "E")%char then
        match r with
        | String d r' =>
            if (d =? "+")%char then exp_digits 1 r'
            else if (d =? "-")%char then exp_digits (-1) r'
            else exp_digits 1 r
        | EmptyString => None
        end
      else Some (0%Z, s)
  | EmptyString => Some (0%Z, EmptyString)
  end.

Definition number_token (s : string) : option (double * string) :=
  let '(neg, s1) := sign_part s in
  match int_part s1 with
  | None => None
  | Some (ip, r1) =>
      match frac_part ip r1 with
      | None => None
      | Some (m, e0, r3) =>
          match exp_part r3 with
          | None => None
          | Some (ex, rest) => Some (round_decimal neg m (e0 + ex), rest)
          end
      end
  end.

(** A JSON value, with [fuel] bounding the values and members read. *)
Fixpoint value (fuel : nat) (s : string) {struct fuel} : option (json * string) :=
  match fuel with
  | O => None
  | S n =>
      match skip_ws s with
      | String "n" (String "u" (String "l" (String "l" r))) => Some (JNull, r)
      | String "t" (String "r" (String "u" (String "e" r))) => Some (JBool true, r)
      | String "f" (String "a" (String "l" (String "s" (String "e" r)))) => Some (JBool false, r)
      | String "[" r =>
          match skip_ws r with
          | String "]" r' => Some (JArray [], r')
          | _ => match elements n r with Some (l, r') => Some (JArray l, r') | None => None end
          end
      | String "{" r =>
          match skip_ws r with
          | String "}" r' => Some (JObject [], r')
          | _ => match members n r with Some (ms, r') => Some (JObject ms, r') | None => None end
          end
      | String c r =>
          if (nat_of_ascii c =? 34)%nat then
            match string_body r with Some (x, r') => Some (JString x, r') | None => None end
          else
            match number_token (String c r) with
            | Some (x, r') => Some (JNumber x, r')
            | None => None
            end
      | EmptyString => None
      end
  end
(** The elements of an array, up to and including its closing bracket. *)
with elements (fuel : nat) (s : string) {struct fuel} : option (list json * string) :=
  match fuel with
  | O => None
  | S n =>
      match value n s with
      | Some (v, r) =>
          match skip_ws r with
          | String "," r' => match elements n r' with Some (l, r'') => Some (v :: l, r'') | None => None end
          | String "]" r' => Some ([v], r')
          | _ => None
          end
      | None => None
      end
  end
(** The members of an object, up to and including its closing brace. *)
with members (fuel : nat) (s : string) {struct fuel} : option (list (string * json) * string) :=
  match fuel with
  | O => None
  | S n =>
      match skip_ws s with
      | String c r =>
          if (nat_of_ascii c =? 34)%nat then
            match string_body r with
            | Some (k, r1) =>
                match skip_ws r1 with
                | String ":" r2 =>
                    match value n r2 with
                    | Some (v, r3) =>
                        match skip_ws r3 with
                        | String "," r4 =>
                            match members n r4 with
                            | Some (ms, r5) => Some ((k, v) :: ms, r5)
                            | None => None
                            end
                        | String "}" r4 => Some ([(k, v)], r4)
                        | _ => None
                        end
                    | None => None
                    end
                | _ => None
                end
            | None => None
            end
          else None
      | EmptyString => None
      end
  end.

(** [JSON.parse(text)]: one value and nothing but white space after it;
    [None] is the SyntaxError. *)
Definition json_parse (text : string) : option json :=
  match value (S (String.length text)) text with
  | Some (v, rest) => if String.eqb (skip_ws rest) "" then Some v else None
  | None => None
  end.

(** The value of a member: the last one with that key. *)
Definition member (k : string) (ms : list (string * json)) : option json :=
  fold_left (fun acc kv => if String.eqb (fst kv) k then Some (snd kv) else acc) ms None.

Definition transaction_of_json (j : json) : option Transaction :=
  match j with
  | JObject ms =>
      match member "id" ms, member "title" ms, member "amount" ms, member "type" ms, member "date" ms with
      | Some (JNumber i), Some (JString ti), Some (JNumber a), Some (JString ty), Some (JString d) =>
          Some (mkTransaction i ti a ty d)
      | _, _, _, _, _ => None
      end
  | _ => None
  end.

Fixpoint transactions_of_json (l : list json) : option (list Transaction) :=
  match l with
  | [] => Some []
  | j :: r =>
      match transaction_of_json j, transactions_of_json r with
      | Some t, Some ts => Some (t :: ts)
      | _, _ => None
      end
  end.

(** [JSON.parse] of the stored entry, read as a ledger. *)
Definition parse_ledger (text : string) : parse_result :=
  match json_parse text with
  | None => Throws
  | Some (JArray l) =>
      match transactions_of_json l with Some ts => Parsed ts | None => Foreign end
  | Some _ => Foreign
  end.

(** The numbers JSON reproduces: finite, not [-0], and read back from
    their printed digits. *)
Definition json_roundtrip_number (x : double) : bool :=
  json_number x &&
  bool_decide (number_token (number_to_string x ++ ",") = Some (x, ",")).

#[export] Instance json_codec : LedgerCodec :=
  {| stringify := stringify_ledger; parse := parse_ledger; number_ok := json_roundtrip_number |}.

(** [o1] is at most as defined as [o2]: a result of [o1] is one of [o2]. *)
Definition oincl {A} (o1 o2 : option A) : Prop := forall p, o1 = Some p -> o2 = Some p.

(** The text of an array's elements, as [serialize] prints them. *)
Fixpoint elems_text (l : list json) : string :=
  match l with
  | [] => ""
  | v :: r => serialize v ++ (match r with [] => "" | _ => "," ++ elems_text r end)
  end.

(** The text [JSON.stringify] prints for a transaction of finite numbers,
    followed by [r]. *)
Definition transaction_text (t : Transaction) (r : string) : string :=
  "{" ++ quote "id" ++ ":" ++ number_to_string (id t) ++ "," ++
  quote "title" ++ ":" ++ quote (title t) ++ "," ++
  quote "amount" ++ ":" ++ number_to_string (amount t) ++ "," ++
  quote "type" ++ ":" ++ quote (type t) ++ "," ++
  quote "date" ++ ":" ++ quote (date t) ++ "}" ++ r.

(** A record [JSON.stringify] writes and [JSON.parse] reads back as an
    object: its id survives JSON, and its amount survives JSON or is not
    finite (written as [null]). *)
Definition json_storable (t : Transaction) : bool :=
  json_roundtrip_number (id t) && (json_roundtrip_number (amount t) || negb (isFinite (amount t))).

(** The object [JSON.parse] gives back for such a record. *)
Definition json_read (t : Transaction) : json :=
  if isFinite (amount t) then transaction_json t
  else JObject [("id", JNumber (id t)); ("title", JString (title t)); ("amount", JNull);
                ("type", JString (type t)); ("date", JString (date t))].

(** A stage [f] commutes with appending text after a non-empty rest, and
    its rest is a suffix of its input. *)
Definition stage_app {A} (f : string -> option (A * string)) : Prop :=
  forall s t a r, f s = Some (a, r) -> r <> EmptyString -> f (s ++ t) = Some (a, (r ++ t)%string).

Definition stage_suffix {A} (f : string -> option (A * string)) : Prop :=
  forall s a r, f s = Some (a, r) -> exists p, s = (p ++ r)%string.

(** ** Round trip *)

(** Every byte's escape reads back as that byte (checked on all 256). *)
Lemma escape_char_body (c : ascii) (r : string) :
  string_body (escape_char c ++ r) =
  match string_body r with Some (x, rest) => Some (String c x, rest) | None => None end.
Proof. destruct c as [[] [] [] [] [] [] [] []]; reflexivity. Qed.

Lemma escape_string_body (s rest : string) :
  string_body (escape_string s ++ chr 34 ++ rest) = Some (s, rest).
Proof.
  induction s as [|c s IH]; [reflexivity|]. cbn [escape_string].
  rewrite <- string_app_assoc, escape_char_body, IH. reflexivity.
Qed.

(** *** Fuel *)

(** One more unit of fuel for the callees gives one more for the caller:
    the three parsers use their callees' results only when they succeed. *)
Lemma fuel_mono_step (n m : nat) :
  (forall s, oincl (value n s) (value m s)) ->
  (forall s, oincl (elements n s) (elements m s)) ->
  (forall s, oincl (members n s) (members m s)) ->
  (forall s, oincl (value (S n) s) (value (S m) s)) /\
  (forall s, oincl (elements (S n) s) (elements (S m) s)) /\
  (forall s, oincl (members (S n) s) (members (S m) s)).
Proof.
  intros HV HE HM.
  split; [|split]; intros s p H; cbn [value elements members] in H |- *;
    repeat (case_match; simplify_eq/=);
    repeat match goal with
    | E : value n _ = Some _ |- _ => apply HV in E
    | E : elements n _ = Some _ |- _ => apply HE in E
    | E : members n _ = Some _ |- _ => apply HM in E
    end; congruence.
Qed.

Lemma fuel_mono (n m : nat) :
  (n <= m)%nat ->
  (forall s, oincl (value n s) (value m s)) /\
  (forall s, oincl (elements n s) (elements m s)) /\
  (forall s, oincl (members n s) (members m s)).
Proof.
  revert m. induction n as [|n IH]; intros m Hm.
  - split; [|split]; intros s p H; discriminate.
  - destruct m as [|m]; [lia|]. destruct (IH m ltac:(lia)) as (HV & HE & HM).
    by apply fuel_mono_step.
Qed.

(** The fuel of the JSON parser bounds only how long it runs: a value
    read with some fuel is read, with the same rest, with any larger fuel,
    so the parse of [JSON.parse] does not depend on the fuel chosen once it
    succeeds. *)
Theorem value_fuel_mono (n m : nat) (s : string) (v : json) (r : string) :
  value n s = Some (v, r) -> (n <= m)%nat -> value m s = Some (v, r).
Proof. intros H Hm. by apply (proj1 (fuel_mono n m Hm)). Qed.

(** *** Numbers: text after a token does not change it *)

Lemma app_eq_nil_r (p r : string) : (p ++ r)%string = EmptyString -> r = EmptyString.
Proof. by destruct p, r. Qed.

Lemma take_digits_app (s t : string) (acc v : Z) (k : nat) (r : string) :
  take_digits s acc = (v, k, r) -> r <> EmptyString ->
  take_digits (s ++ t) acc = (v, k, (r ++ t)%string).
Proof.
  revert acc v k; induction s as [|c s IH]; intros acc v k H Hr; simpl in *.
  - by injection H as _ _ <-.
  - destruct (digit_value c); [|by injection H as <- <- <-].
    destruct (take_digits s _) as [[v' k'] r'] eqn:E. injection H as <- <- <-.
    by rewrite (IH _ _ _ E Hr).
Qed.

Lemma take_digits_suffix (s : string) (acc v : Z) (k : nat) (r : string) :
  take_digits s acc = (v, k, r) -> exists p, s = (p ++ r)%string.
Proof.
  revert acc v k; induction s as [|c s IH]; intros acc v k H; simpl in *.
  - injection H as _ _ <-. by exists EmptyString.
  - destruct (digit_value c); [|injection H as _ _ <-; by exists EmptyString].
    destruct (take_digits s _) as [[v' k'] r'] eqn:E. injection H as _ _ <-.
    destruct (IH _ _ _ E) as [p ->]. by exists (String c p).
Qed.

Lemma exp_digits_app (sgn : Z) : stage_app (exp_digits sgn).
Proof.
  intros s t a r H Hr. unfold exp_digits in *.
  destruct (take_digits s 0) as [[v k] r'] eqn:E.
  destruct (k =? 0)%nat eqn:Hk; [discriminate|]. injection H as <- <-.
  by rewrite (take_digits_app _ _ _ _ _ _ E Hr), Hk.
Qed.

Lemma exp_digits_suffix (sgn : Z) : stage_suffix (exp_digits sgn).
Proof.
  intros s a r H. unfold exp_digits in *.
  destruct (take_digits s 0) as [[v k] r'] eqn:E.
  destruct (k =? 0)%nat; [discriminate|]. injection H as _ <-.
  by eapply take_digits_suffix.
Qed.

Lemma int_part_app : stage_app int_part.
Proof.
  intros [|c s] t a r H Hr; [done|]. unfold int_part in *. cbn [String.append].
  destruct (c =? "0")%char; [by injection H as <- <-|].
  destruct (is_digit c); [|done].
  destruct (take_digits (String c s) 0) as [[v k] r'] eqn:E. injection H as <- <-.
  change (String c (s ++ t)) with (String c s ++ t)%string.
  by rewrite (take_digits_app _ _ _ _ _ _ E Hr).
Qed.

Lemma int_part_suffix : stage_suffix int_part.
Proof.
  intros [|c s] a r H; [done|]. unfold int_part in *.
  destruct (c =? "0")%char; [injection H as _ <-; by exists (String c EmptyString)|].
  destruct (is_digit c); [|done].
  destruct (take_digits (String c s) 0) as [[v k] r'] eqn:E. injection H as _ <-.
  by eapply take_digits_suffix.
Qed.

Lemma frac_part_app (ip : Z) : stage_app (frac_part ip).
Proof.
  intros [|c s] t a r H Hr; simpl in *; [by injection H as _ <-|].
  destruct (c =? ".")%char; [|by injection H as <- <-].
  destruct (take_digits s ip) as [[v k] r'] eqn:E.
  destruct (k =? 0)%nat eqn:Hk; [discriminate|]. injection H as <- <-.
  by rewrite (take_digits_app _ _ _ _ _ _ E Hr), Hk.
Qed.

Lemma frac_part_suffix (ip : Z) : stage_suffix (frac_part ip).
Proof.
  intros [|c s] a r H; simpl in *; [injection H as _ <-; by exists EmptyString|].
  destruct (c =? ".")%char; [|injection H as _ <-; by exists EmptyString].
  destruct (take_digits s ip) as [[v k] r'] eqn:E.
  destruct (k =? 0)%nat; [discriminate|]. injection H as _ <-.
  destruct (take_digits_suffix _ _ _ _ _ E) as [p ->]. by exists (String c p).
Qed.

Lemma exp_part_app : stage_app exp_part.
Proof.
  intros [|c s] t a r H Hr; simpl in *; [by injection H as _ <-|].
  destruct ((c =? "e")%char || (c =? "E")%char); [|by injection H as <- <-].
  destruct s as [|d s']; [done|]. simpl.
  destruct (d =? "+")%char; [by apply exp_digits_app|].
  destruct (d =? "-")%char; [by apply exp_digits_app|].
  by apply (exp_digits_app 1 (String d s')).
Qed.

Lemma exp_part_suffix : stage_suffix exp_part.
Proof.
  intros [|c s] a r H; simpl in *; [injection H as _ <-; by exists EmptyString|].
  destruct ((c =? "e")%char || (c =? "E")%char); [|injection H as _ <-; by exists EmptyString].
  destruct s as [|d s']; [done|].
  destruct (d =? "+")%char; [|destruct (d =? "-")%char].
  1, 2: destruct (exp_digits_suffix _ _ _ _ H) as [p ->]; by exists (String c (String d p)).
  destruct (exp_digits_suffix _ _ _ _ H) as [p ->]. by exists (String c p).
Qed.

(** A number token followed by a non-empty rest reads the same whatever
    follows that rest. *)
Lemma number_token_app (s t : string) (x : double) (r : string) :
  number_token s = Some (x, r) -> r <> EmptyString ->
  number_token (s ++ t) = Some (x, (r ++ t)%string).
Proof.
  unfold number_token. intros H Hr.
  destruct (sign_part s) as [neg s1] eqn:Hs.
  destruct (int_part s1) as [[ip r1]|] eqn:Hi; [|done].
  destruct (frac_part ip r1) as [[[m e0] r3]|] eqn:Hf; [|done].
  destruct (exp_part r3) as [[ex rest]|] eqn:He; [|done].
  injection H as <- <-.
  assert (H3 : r3 <> EmptyString).
  { destruct (exp_part_suffix _ _ _ He) as [p ->]. intros E. by apply app_eq_nil_r in E. }
  assert (H1 : r1 <> EmptyString).
  { destruct (frac_part_suffix _ _ _ _ Hf) as [p ->]. intros E. by apply app_eq_nil_r in E. }
  assert (Hsign : sign_part (s ++ t) = (neg, (s1 ++ t)%string)).
  { destruct s as [|c s']; simpl in Hs |- *; [injection Hs as _ <-; done|].
    destruct (c =? "-")%char; by injection Hs as <- <-. }
  rewrite Hsign, (int_part_app _ _ _ _ Hi H1), (frac_part_app _ _ _ _ _ Hf H3).
  by rewrite (exp_part_app _ _ _ _ He Hr).
Qed.

Lemma serialize_array (l : list json) : serialize (JArray l) = "[" ++ elems_text l ++ "]".
Proof.
  reflexivity.
Qed.

Lemma skip_ws_quote (s : string) : skip_ws (String quote_mark s) = String quote_mark s.
Proof. reflexivity. Qed.

Lemma value_quote (n : nat) (t : string) :
  value (S n) (String quote_mark t) =
  match string_body t with Some (x, r') => Some (JString x, r') | None => None end.
Proof. reflexivity. Qed.

Lemma value_string (n : nat) (s r : string) :
  value (S n) (quote s ++ r) = Some (JString s, r).
Proof.
  unfold quote. cbn [String.append].
  by rewrite value_quote, <- string_app_assoc, escape_string_body.
Qed.

Lemma number_token_head (s : string) (x : double) (r : string) :
  number_token s = Some (x, r) ->
  exists c t, s = String c t /\ ((c =? "-")%char = true \/ is_digit c = true).
Proof.
  unfold number_token, sign_part, int_part.
  destruct s as [|c t]; [done|]. exists c, t. split; [done|].
  destruct (c =? "-")%char eqn:Hm; [by left|right].
  destruct (c =? "0")%char eqn:H0; [|by destruct (is_digit c)].
  apply Ascii.eqb_eq in H0. by subst.
Qed.

Lemma value_number_char (n : nat) (c : ascii) (t : string) :
  (c =? "-")%char = true \/ is_digit c = true ->
  value (S n) (String c t) =
  match number_token (String c t) with Some (x, r') => Some (JNumber x, r') | None => None end.
Proof.
  intros Hc. destruct c as [[] [] [] [] [] [] [] []];
    destruct Hc as [Hc|Hc]; try discriminate Hc; reflexivity.
Qed.

Lemma json_number_finite (x : double) : json_number x = true -> isFinite x = true.
Proof. by destruct x as [[]|[]| |[] ? ?]. Qed.

Lemma value_number (n : nat) (x : double) (r : string) :
  json_roundtrip_number x = true ->
  value (S n) (number_to_string x ++ "," ++ r) = Some (JNumber x, "," ++ r).
Proof.
  unfold json_roundtrip_number. intros [_ Hx]%andb_prop. apply bool_decide_eq_true in Hx.
  pose proof (number_token_app _ r _ _ Hx ltac:(done)) as Happ.
  rewrite <- string_app_assoc in Happ.
  destruct (number_token_head _ _ _ Happ) as (c & t & Ht & Hc).
  rewrite Ht in Happ |- *. rewrite value_number_char by done. by rewrite Happ.
Qed.

Lemma members_quote (n : nat) (t : string) :
  members (S n) (String quote_mark t) =
  match string_body t with
  | Some (k, r1) =>
      match skip_ws r1 with
      | String ":" r2 =>
          match value n r2 with
          | Some (v, r3) =>
              match skip_ws r3 with
              | String "," r4 =>
                  match members n r4 with Some (ms, r5) => Some ((k, v) :: ms, r5) | None => None end
              | String "}" r4 => Some ([(k, v)], r4)
              | _ => None
              end
          | None => None
          end
      | _ => None
      end
  | None => None
  end.
Proof. reflexivity. Qed.

Lemma members_cons (n : nat) (k s : string) (v : json) (r : string) :
  value n s = Some (v, "," ++ r) ->
  members (S n) (quote k ++ ":" ++ s) =
  match members n r with Some (ms, r5) => Some ((k, v) :: ms, r5) | None => None end.
Proof.
  intros Hv. unfold quote. cbn [String.append].
  rewrite members_quote, <- string_app_assoc, escape_string_body. simpl. by rewrite Hv.
Qed.

Lemma members_last (n : nat) (k s : string) (v : json) (r : string) :
  value n s = Some (v, "}" ++ r) ->
  members (S n) (quote k ++ ":" ++ s) = Some ([(k, v)], r).
Proof.
  intros Hv. unfold quote. cbn [String.append].
  rewrite members_quote, <- string_app_assoc, escape_string_body. simpl. by rewrite Hv.
Qed.

Lemma elements_cons (n : nat) (s : string) (v : json) (r : string) :
  value n s = Some (v, "," ++ r) ->
  elements (S n) s = match elements n r with Some (l, r'') => Some (v :: l, r'') | None => None end.
Proof. intros Hv. cbn [elements]. by rewrite Hv. Qed.

Lemma elements_last (n : nat) (s : string) (v : json) (r : string) :
  value n s = Some (v, "]" ++ r) -> elements (S n) s = Some ([v], r).
Proof. intros Hv. cbn [elements]. by rewrite Hv. Qed.

Lemma serialize_transaction (t : Transaction) (r : string) :
  isFinite (id t) = true -> isFinite (amount t) = true ->
  serialize (transaction_json t) ++ r = transaction_text t r.
Proof.
  intros H1 H2. cbn [serialize transaction_json]. rewrite H1, H2.
  rewrite <- !string_app_assoc. reflexivity.
Qed.

Lemma value_object_members (n : nat) (k s : string) :
  value (S n) ("{" ++ quote k ++ s) =
  match members n (quote k ++ s) with Some (ms, r') => Some (JObject ms, r') | None => None end.
Proof. reflexivity. Qed.

Lemma value_transaction (t : Transaction) (r : string) (m : nat) :
  json_roundtrip_number (id t) = true -> json_roundtrip_number (amount t) = true -> (7 <= m)%nat ->
  value m (transaction_text t r) = Some (transaction_json t, r).
Proof.
  intros H1 H2 Hm. destruct (Nat.le_exists_sub 7 m Hm) as (n & -> & _).
  rewrite Nat.add_comm. cbn [Nat.add]. unfold transaction_text.
  rewrite value_object_members.
  erewrite members_cons; [|by apply value_number].
  erewrite members_cons; [|apply value_string].
  erewrite members_cons; [|by apply value_number].
  erewrite members_cons; [|apply value_string].
  by erewrite members_last; [|apply value_string].
Qed.

Lemma elems_text_one (v : json) : elems_text [v] = serialize v ++ "".
Proof. reflexivity. Qed.

Lemma elems_text_cons (v w : json) (l : list json) :
  elems_text (v :: w :: l) = serialize v ++ "," ++ elems_text (w :: l).
Proof. reflexivity. Qed.

Lemma json_safe_numbers (t : Transaction) :
  json_safe t = true ->
  json_roundtrip_number (id t) = true /\ json_roundtrip_number (amount t) = true.
Proof. by intros ?%andb_prop. Qed.

Lemma roundtrip_finite (x : double) : json_roundtrip_number x = true -> isFinite x = true.
Proof. by intros [?%json_number_finite _]%andb_prop. Qed.

Lemma json_safe_storable (t : Transaction) :
  json_safe t = true -> json_storable t = true /\ json_read t = transaction_json t.
Proof.
  intros [H1 H2]%json_safe_numbers. unfold json_storable, json_read.
  by rewrite H1, H2, (roundtrip_finite _ H2).
Qed.

Lemma value_null (n : nat) (r : string) : value (S n) ("null" ++ r) = Some (JNull, r).
Proof. reflexivity. Qed.

(** A record whose amount is not finite reads back with a [null] amount. *)
Lemma value_transaction_null (t : Transaction) (r : string) (m : nat) :
  json_roundtrip_number (id t) = true -> isFinite (amount t) = false -> (7 <= m)%nat ->
  value m (serialize (transaction_json t) ++ r) = Some (json_read t, r).
Proof.
  intros H1 H2 Hm. destruct (Nat.le_exists_sub 7 m Hm) as (n & -> & _).
  rewrite Nat.add_comm. cbn [Nat.add]. unfold json_read. rewrite H2.
  cbn [serialize transaction_json]. rewrite (roundtrip_finite _ H1), H2, <- !string_app_assoc.
  rewrite value_object_members.
  erewrite members_cons; [|by apply value_number].
  erewrite members_cons; [|apply value_string].
  erewrite members_cons; [|apply value_null].
  erewrite members_cons; [|apply value_string].
  by erewrite members_last; [|apply value_string].
Qed.

Lemma value_storable (t : Transaction) (r : string) (m : nat) :
  json_storable t = true -> (7 <= m)%nat ->
  value m (serialize (transaction_json t) ++ r) = Some (json_read t, r).
Proof.
  unfold json_storable. intros [H1 H2]%andb_prop Hm.
  destruct (isFinite (amount t)) eqn:Hf; [|by apply value_transaction_null].
  rewrite orb_false_r in H2. unfold json_read. rewrite Hf.
  rewrite serialize_transaction by (by apply roundtrip_finite). by apply value_transaction.
Qed.

Lemma elements_ledger (l : list Transaction) (r : string) (m : nat) :
  forallb json_storable l = true -> l <> [] -> (List.length l + 7 <= m)%nat ->
  elements m (elems_text (map transaction_json l) ++ "]" ++ r) = Some (map json_read l, r).
Proof.
  revert m. induction l as [|t l IH]; intros m Hs Hne Hm; [done|].
  apply andb_prop in Hs as [Ht Hs].
  destruct m as [|m]; [simpl in Hm; lia|].
  destruct l as [|t' l']; cbn [map].
  - rewrite elems_text_one, string_app_nil_r.
    apply elements_last, value_storable; [done|simpl in Hm; lia].
  - rewrite elems_text_cons, <- !string_app_assoc.
    erewrite elements_cons; [|apply value_storable; [done|simpl in Hm; lia]].
    rewrite IH; [done..|simpl in *; lia].
Qed.

Lemma serialize_transaction_length (t : Transaction) (r : string) :
  (8 + String.length r <= String.length (serialize (transaction_json t) ++ r))%nat.
Proof. cbn [serialize transaction_json]. rewrite !string_length_app. simpl. lia. Qed.

Lemma elems_ledger_length (l : list Transaction) (r : string) :
  (8 * List.length l + String.length r <= String.length (elems_text (map transaction_json l) ++ r))%nat.
Proof.
  revert r. induction l as [|t l IH]; intros r; [simpl; lia|].
  destruct l as [|t' l']; cbn [map].
  - rewrite elems_text_one, string_app_nil_r.
    pose proof (serialize_transaction_length t r). cbn [List.length]. lia.
  - rewrite elems_text_cons, <- !string_app_assoc.
    pose proof (serialize_transaction_length t ("," ++ elems_text (map transaction_json (t' :: l')) ++ r)).
    specialize (IH r). cbn [List.length String.length String.append map] in *. lia.
Qed.

Lemma value_array_ledger (l : list Transaction) (n : nat) (r : string) :
  l <> [] ->
  value (S n) ("[" ++ elems_text (map transaction_json l) ++ r) =
  match elements n (elems_text (map transaction_json l) ++ r) with
  | Some (vs, r') => Some (JArray vs, r') | None => None end.
Proof. destruct l; [done|]. reflexivity. Qed.

Lemma transactions_of_json_map (l : list Transaction) :
  transactions_of_json (map transaction_json l) = Some l.
Proof. induction l as [|[] l IH]; [done|]. cbn. by rewrite IH. Qed.

(** [JSON.parse] reads a stringified ledger of storable records back as
    the array of their objects. *)
Lemma json_parse_storable (l : list Transaction) :
  forallb json_storable l = true -> json_parse (stringify_ledger l) = Some (JArray (map json_read l)).
Proof.
  intros Hs. destruct (decide (l = [])) as [->|Hne]; [reflexivity|].
  unfold json_parse, stringify_ledger. rewrite serialize_array.
  pose proof (elems_ledger_length l "]") as Hlen.
  rewrite <- (string_app_nil_r "]"), value_array_ledger by done.
  rewrite elements_ledger; [done|done..|].
  assert (List.length l <> 0)%nat by (by destruct l).
  rewrite !string_length_app in *. cbn [String.length] in *. lia.
Qed.

Lemma json_parse_ledger (l : list Transaction) :
  forallb json_safe l = true -> json_parse (stringify_ledger l) = Some (JArray (map transaction_json l)).
Proof.
  intros Hs. rewrite json_parse_storable.
  - do 2 f_equal. apply map_ext_in. intros t Ht. rewrite forallb_forall in Hs.
    by apply json_safe_storable, Hs.
  - apply forallb_forall. intros t Ht. rewrite forallb_forall in Hs. by apply json_safe_storable, Hs.
Qed.

(** A stringified ledger with a record whose amount is not finite reads
    back as JSON that is not a ledger: that amount is [null]. *)
Lemma parse_ledger_nonfinite (l : list Transaction) :
  forallb json_storable l = true -> Exists (fun t => isFinite (amount t) = false) l ->
  parse_ledger (stringify_ledger l) = Foreign.
Proof.
  intros Hs Hx. unfold parse_ledger. rewrite json_parse_storable by done.
  enough (transactions_of_json (map json_read l) = None) as -> by done.
  clear Hs. induction Hx as [t l Ht|t l _ IH]; cbn [map transactions_of_json].
  - unfold json_read. rewrite Ht. reflexivity.
  - rewrite IH. by destruct (transaction_of_json (json_read t)) as [?|].
Qed.

Lemma stringify_ledger_nonempty (l : list Transaction) : stringify_ledger l <> EmptyString.
Proof. unfold stringify_ledger. by rewrite serialize_array. Qed.

Lemma json_roundtrip_json_number (x : double) : json_roundtrip_number x = true -> json_number x = true.
Proof. by intros [? _]%andb_prop. Qed.

(** *** Integers: the digits [JSON.stringify] writes read back *)

Lemma int_part_digits (k : digits) (l : list digits) (r : string) :
  k <> d0 ->
  int_part (digits_text (k :: l) ++ r) =
  let '(v, _, r') := take_digits (digits_text (k :: l) ++ r) 0 in Some (v, r').
Proof. destruct k; [done|reflexivity..]. Qed.

Lemma sign_part_digits (k : digits) (l : list digits) (r : string) :
  sign_part (digits_text (k :: l) ++ r) = (false, (digits_text (k :: l) ++ r)%string).
Proof. by destruct k. Qed.

(** The decimal digits of a positive integer, followed by a comma, are a
    number token for that integer. *)
Lemma number_token_digits (n : Z) (r : string) :
  (0 < n)%Z -> number_token (decimal_digits n ++ "," ++ r) = Some (of_Z n, ("," ++ r)%string).
Proof.
  intros Hn. pose proof (take_digits_decimal n ("," ++ r) Hn ltac:(done)) as Ht.
  destruct (decimal_digits_lead n Hn) as (k & l & Hk & E).
  rewrite decimal_digits_text, E in Ht |- *.
  unfold number_token. rewrite sign_part_digits, int_part_digits, Ht by done. cbn.
  by rewrite round_decimal_int, Z.mul_1_r by lia.
Qed.

(** The text [Number::toString] writes for [s * 10^(N - digits s)] with
    the point inside or after the digits ([1 <= N <= 21]), followed by a
    comma, is a number token for the literal it spells. *)
Lemma format_number_token (s N : Z) (r : string) :
  (0 < s)%Z -> (1 <= N <= 21)%Z ->
  number_token (format_number s N ++ "," ++ r) = Some (round_decimal false s (N - num_digits s), ("," ++ r)%string).
Proof.
  intros Hs HN. unfold format_number. fold (num_digits s).
  replace (Z.of_nat (String.length (decimal_digits s))) with (num_digits s) by done.
  rewrite (proj2 (Z.leb_le N 21)) by lia.
  destruct (Z.leb_spec (num_digits s) N) as [Hk|Hk]; cbn [andb].
  - rewrite <- decimal_digits_pow10 by done.
    rewrite number_token_digits by (pose proof (Z.pow_pos_nonneg 10 (Z.of_nat (Z.to_nat (N - num_digits s)))); lia).
    by rewrite round_decimal_int, Z2Nat.id by lia.
  - rewrite (proj2 (Z.ltb_lt 0 N)) by lia. cbn [andb].
    pose proof (decimal_digits_value s Hs) as Hv.
    destruct (decimal_digits_lead s Hs) as (a & l & Ha & E).
    assert (Hk' : num_digits s = Z.of_nat (List.length (a :: l)))
      by (unfold num_digits; by rewrite decimal_digits_text, digits_text_length, E).
    rewrite Hk'. rewrite Hk' in Hk. rewrite E in Hv. rewrite decimal_digits_text, E.
    replace (Z.to_nat (Z.of_nat (List.length (a :: l)) - N)) with (List.length (a :: l) - Z.to_nat N)%nat by lia.
    destruct (digits_text_split (a :: l) (Z.to_nat N)) as [-> ->]; [lia|].
    destruct (Z.to_nat N) as [|n] eqn:Hn; [lia|]. cbn [firstn skipn].
    rewrite <- !string_app_assoc. unfold number_token.
    rewrite sign_part_digits, int_part_digits, take_digits_text by done.
    cbn [frac_part String.append]. rewrite take_digits_text by done.
    destruct (Nat.eqb_spec (List.length (skipn n l)) 0) as [H0|H0];
      [rewrite length_skipn in H0; simpl in Hk; lia|].
    change (("." =? ".")%char) with true. cbv iota.
    replace (exp_part (String "," r)) with (Some (0, String "," r)) by reflexivity.
    assert (Hq : - Z.of_nat (List.length (skipn n l)) + 0 = N - Z.of_nat (List.length (a :: l)))
      by (rewrite length_skipn; simpl List.length in *; lia).
    by rewrite Hq, <- digits_value_app, <- app_comm_cons, firstn_skipn, Hv.
Qed.

(** Positive integers up to [2^52] (the clock values the script uses as
    ids) are numbers the JSON codec reproduces. *)
Lemma json_roundtrip_number_of_Z (n : Z) :
  (0 < n <= 2 ^ 52)%Z -> json_roundtrip_number (of_Z n) = true.
Proof.
  intros Hn. unfold json_roundtrip_number. apply andb_true_intro. split.
  - destruct (of_Z_small n ltac:(lia)) as (M & E & -> & _). done.
  - apply bool_decide_eq_true. rewrite number_to_string_of_Z by done.
    rewrite <- (string_app_nil_r ","). apply number_token_digits. lia.
Qed.

(** The amounts of at most one rupee, checked one by one. *)
Lemma json_roundtrip_small_cents :
  all_range (fun c => json_roundtrip_number (round_decimal false c (-2))) 0 101 = true.
Proof. vm_compute. reflexivity. Qed.

(** An amount typed with two decimals, up to [2^52] hundredths, is a
    number the JSON codec reproduces. *)
Lemma json_roundtrip_cents (c : Z) :
  (0 <= c <= 2 ^ 52)%Z -> json_roundtrip_number (parseFloat (fixed_notation 2 c)) = true.
Proof.
  intros Hc. rewrite parseFloat_cents by lia.
  destruct (Z.lt_ge_cases c 101) as [Hs|Hl].
  { exact (all_range_spec _ 0 101 c json_roundtrip_small_cents ltac:(lia)). }
  destruct (number_to_string_cents c ltac:(lia)) as (s & N & Hp & Hs & HN & Hr).
  destruct (round_cents c ltac:(lia)) as (M & E & Hx & _).
  unfold json_roundtrip_number. apply andb_true_intro. split; [by rewrite Hx|].
  apply bool_decide_eq_true. rewrite Hp, <- (string_app_nil_r ","), format_number_token by lia.
  by rewrite Hr.
Qed.

(** C2: [JSON.parse(JSON.stringify(transactions))] gives back the same
    ledger, field for field and in order, when every [id] and [amount] is a
    number JSON reproduces. *)
Theorem parse_stringify_ledger (l : list Transaction) :
  forallb json_safe l = true -> parse_ledger (stringify_ledger l) = Parsed l.
Proof.
  intros Hs. unfold parse_ledger. rewrite json_parse_ledger by done.
  by rewrite transactions_of_json_map.
Qed.

Lemma parse_stringify_ledger_witness :
  let l := [mkTransaction (of_Z 1711933200000) "Rent\April" (parseFloat "12.5") "expense" "2024-04-02";
            mkTransaction (of_Z 1711933200001) "Salary" (of_Z 50000) "income" "2024-04-01"] in
  forallb json_safe l = true /\ parse_ledger (stringify_ledger l) = Parsed l.
Proof.
  intros l. assert (Hs : forallb json_safe l = true) by (vm_compute; reflexivity).
  exact (conj Hs (parse_stringify_ledger l Hs)).
Defined.


(** C3: [JSON.stringify] writes the id of a record (lines 71-77) whose id
    is a positive integer of at most [2^52], such as the clock value the
    submit handler stores, as the decimal digits of that integer, and the
    JSON number reader reads those digits, whatever follows the comma, back
    as the same id. *)
Theorem json_integer_roundtrip (t : Transaction) (n : Z) (r : string) :
  id t = of_Z n -> (0 < n <= 2 ^ 52)%Z ->
  (exists rest, serialize (transaction_json t) = ("{" ++ quote "id" ++ ":" ++ decimal_digits n ++ "," ++ rest)%string) /\
  number_token (decimal_digits n ++ "," ++ r) = Some (id t, ("," ++ r)%string).
Proof.
  intros Hid Hn. rewrite Hid. split; [|apply number_token_digits; lia].
  eexists. unfold transaction_json. rewrite Hid. cbn [serialize].
  destruct (of_Z_small n ltac:(lia)) as (M & E & Hx & _). rewrite Hx at 1. simpl isFinite. cbv iota.
  rewrite number_to_string_of_Z by done. rewrite <- !string_app_assoc. reflexivity.
Qed.

Lemma json_integer_roundtrip_witness :
  let t := mkTransaction (of_Z 1711933200000) "Salary" (of_Z 50000) "income" "2024-04-01" in
  (id t = of_Z 1711933200000 /\ (0 < 1711933200000 <= 2 ^ 52)%Z) /\
  (exists rest, serialize (transaction_json t) =
     ("{" ++ quote "id" ++ ":" ++ decimal_digits 1711933200000 ++ "," ++ rest)%string) /\
  number_token (decimal_digits 1711933200000 ++ "," ++ "2") = Some (id t, ",2"%string).
Proof.
  intros t. assert (Hn : (0 < 1711933200000 <= 2 ^ 52)%Z) by lia.
  exact (conj (conj eq_refl Hn) (json_integer_roundtrip t 1711933200000 "2" eq_refl Hn)).
Defined.

(** C4: [JSON.stringify] writes the amount of a record typed with two
    decimals (up to [2^52] hundredths) as the digits [Number::toString]
    prints, and the JSON number reader reads them, whatever follows the
    comma, back as the same amount. *)
Theorem json_typed_amount_roundtrip (t : Transaction) (c : Z) (r : string) :
  amount t = parseFloat (fixed_notation 2 c) -> (0 <= c <= 2 ^ 52)%Z ->
  serialize (transaction_json t) =
    ("{" ++ quote "id" ++ ":" ++ serialize (JNumber (id t)) ++ "," ++ quote "title" ++ ":" ++ quote (title t) ++ "," ++
     quote "amount" ++ ":" ++ number_to_string (amount t) ++ "," ++
     quote "type" ++ ":" ++ quote (type t) ++ "," ++ quote "date" ++ ":" ++ quote (date t) ++ "}")%string /\
  number_token (number_to_string (amount t) ++ "," ++ r) = Some (amount t, ("," ++ r)%string).
Proof.
  intros Ha Hc. pose proof (json_roundtrip_cents c Hc) as Hj. rewrite <- Ha in Hj. split.
  - cbn [serialize transaction_json]. rewrite (roundtrip_finite _ Hj), <- !string_app_assoc. reflexivity.
  - unfold json_roundtrip_number in Hj. apply andb_prop in Hj as [_ Hj%bool_decide_eq_true].
    rewrite string_app_assoc. by apply number_token_app.
Qed.

Lemma json_typed_amount_roundtrip_witness :
  let t := mkTransaction (of_Z 1711933200000) "Coffee" (parseFloat "12.50") "expense" "2024-04-02" in
  (amount t = parseFloat (fixed_notation 2 1250) /\ (0 <= 1250 <= 2 ^ 52)%Z) /\
  serialize (transaction_json t) =
    ("{" ++ quote "id" ++ ":" ++ serialize (JNumber (id t)) ++ "," ++ quote "title" ++ ":" ++ quote (title t) ++ "," ++
     quote "amount" ++ ":" ++ number_to_string (amount t) ++ "," ++
     quote "type" ++ ":" ++ quote (type t) ++ "," ++ quote "date" ++ ":" ++ quote (date t) ++ "}")%string /\
  number_token (number_to_string (amount t) ++ "," ++ "1") = Some (amount t, ",1"%string).
Proof.
  intros t. assert (Ha : amount t = parseFloat (fixed_notation 2 1250)) by reflexivity.
  assert (Hc : (0 <= 1250 <= 2 ^ 52)%Z) by lia.
  exact (conj (conj Ha Hc) (json_typed_amount_roundtrip t 1250 "1" Ha Hc)).
Defined.

#[export] Instance json_codec_laws : LedgerCodecLaws.
Proof.
  split.
  - intros l Hs. unfold parse, stringify, json_codec, parse_ledger.
    rewrite json_parse_ledger by done. by rewrite transactions_of_json_map.
  - exact stringify_ledger_nonempty.
  - exact json_roundtrip_json_number.
  - exact json_roundtrip_number_of_Z.
  - exact json_roundtrip_cents.
Qed.

End Json.
