(* ===== verification/App.v ===== *)
(** * The pages: loading, the handlers, and what every run keeps true

    The browser is the [localStorage] entry ['transactions'] and the page
    the script runs in.  Loading a page runs the top level of the script
    (lines 4-13: read and parse the entry, an uncaught [SyntaxError] stops
    the script before [initApp] is registered) and then [initApp] (lines
    162-167).  The events are the user's: editing the form, submitting it
    (the handler of lines 59-92), typing in the search box and changing the
    filter (lines 156-157), and navigating, which loads a page again.  The
    storage codec is the interface of [Codec]; the host's case mapping and
    date locale are those of [JsString] and [JsDate]. *)

From S2P Require Import Prelude JsNumber Digits Rounding JsString JsDate Transaction Balances Sort History Codec Json.
From Stdlib Require Import Floats.SpecFloat.
Import JsNumber Digits Rounding JsString JsDate Transaction Balances Sort History Codec Json.
Open Scope string_scope.

Module App.

(** The four inputs of the add form: [#title], [#amount], [#type], [#date]. *)
Record Form := mkForm {
  form_title : string;
  form_amount : string;
  form_type : string;
  form_date : string;
}.

(** What a page's HTML provides: the regions it has and the defaults of
    its select elements. *)
Record PageKind := mkPageKind {
  has_dashboard : bool;
  has_form : bool;
  has_history : bool;
  default_type : string;
  default_filter : string;
}.

(** A page on which the script runs: the global [transactions] and the
    regions the script reads and writes; [alerts] records the [alert]
    calls. *)
Record Page := mkPage {
  kind : PageKind;
  transactions : list Transaction;
  dashboard : option Dashboard;
  form : option Form;
  history : option HistoryView;
  alerts : list string;
}.

Inductive PageState :=
  | NoPage                (** nothing loaded yet *)
  | Live (p : Page)       (** the script ran and [initApp] wired the page *)
  | Halted                (** line 9 threw: no listener was registered *)
  | Unmodelled.           (** the stored JSON is not an array of records *)

Record Browser := mkBrowser { store : option string; page : PageState }.

Inductive Event :=
  | Navigate (k : PageKind) (now : Z)   (** load a page at time [now] *)
  | Fill (f : Form)                     (** the user edits the form *)
  | SubmitForm (now : Z)                (** the form's submit event *)
  | SearchInput (text : string)         (** an [input] event of [#search] *)
  | FilterChange (value : string).      (** a [change] event of [#filter] *)

Section AppModel.
Context `{CaseMapping} `{DateLocale} `{LedgerCodec}.

(** Lines 7-13: an absent or empty entry is an empty ledger. *)
Definition loadTransactions (stored : option string) : parse_result :=
  match stored with
  | Some s => if String.eqb s "" then Parsed [] else parse s
  | None => Parsed []
  end.

(** Lines 16-18: the whole ledger replaces the stored entry. *)
Definition saveTransactions (l : list Transaction) : option string :=
  Some (stringify l).

(** [form.reset()] (line 84): the inputs get their HTML defaults. *)
Definition reset_form (k : PageKind) : Form := mkForm "" "" (default_type k) "".

(** [document.getElementById('date').valueAsDate = new Date()] (lines 85
    and 96). *)
Definition set_today (now : Z) (f : Form) : Form :=
  mkForm (form_title f) (form_amount f) (form_type f) (iso_date_of_time now).

(** The page as its HTML defines it, with the loaded ledger. *)
Definition fresh_page (k : PageKind) (l : list Transaction) : Page :=
  mkPage k l
    (if has_dashboard k then Some (mkDashboard "" "" "") else None)
    (if has_form k then Some (reset_form k) else None)
    (if has_history k then Some (mkHistoryView "" (default_filter k) "") else None)
    [].

(** [initApp] (lines 162-167): [updateDashboard], [setupTransactionForm]
    (which sets the date to today, line 96), [showTransactionHistory], and
    [setupHistoryPage], whose listeners are the [SearchInput] and
    [FilterChange] steps. *)
Definition initApp (now : Z) (p : Page) : Page :=
  mkPage (kind p) (transactions p)
    (updateDashboard (transactions p) (dashboard p))
    (option_map (set_today now) (form p))
    (showTransactionHistory (transactions p) (history p))
    (alerts p).

(** Loading a page: the script's top level, then [initApp] on
    [DOMContentLoaded]. *)
Definition load_page (k : PageKind) (now : Z) (b : Browser) : Browser :=
  match loadTransactions (store b) with
  | Parsed l => mkBrowser (store b) (Live (initApp now (fresh_page k l)))
  | Throws => mkBrowser (store b) Halted
  | Foreign => mkBrowser (store b) Unmodelled
  end.

Definition added_message : string := "Transaction added successfully!".

(** The submit handler (lines 59-92) at time [now]: read the inputs, parse
    the amount, and when the title and the date are non-empty and the
    amount is not NaN, append the record, save, reset the form, refresh the
    dashboard and alert; otherwise do nothing. *)
Definition submit (now : Z) (b : Browser) (p : Page) : Browser :=
  match form p with
  | None => b
  | Some f =>
      let title := form_title f in
      let amount := parseFloat (form_amount f) in
      let type := form_type f in
      let date := form_date f in
      if negb (String.eqb title "") && negb (isNaN amount) && negb (String.eqb date "") then
        let t := mkTransaction (of_Z now) title amount type date in
        let l := (transactions p ++ [t])%list in
        mkBrowser (saveTransactions l)
          (Live (mkPage (kind p) l
                   (updateDashboard l (dashboard p))
                   (Some (set_today now (reset_form (kind p))))
                   (history p)
                   (alerts p ++ [added_message])%list))
      else b
  end.

(** A search or filter event: the input takes the new value and
    [showTransactionHistory] runs (lines 156-157). *)
Definition set_history (b : Browser) (p : Page) (upd : HistoryView -> HistoryView) : Browser :=
  match history p with
  | Some v =>
      mkBrowser (store b) (Live (mkPage (kind p) (transactions p) (dashboard p) (form p)
                                   (showTransactionHistory (transactions p) (Some (upd v)))
                                   (alerts p)))
  | None => b
  end.

(** One event.  A page that halted or that is not modelled has no
    listener; only navigation changes it. *)
Definition step_event (e : Event) (b : Browser) : Browser :=
  match e, page b with
  | Navigate k now, _ => load_page k now b
  | Fill f, Live p =>
      match form p with
      | Some _ => mkBrowser (store b) (Live (mkPage (kind p) (transactions p) (dashboard p)
                                               (Some f) (history p) (alerts p)))
      | None => b
      end
  | SubmitForm now, Live p => submit now b p
  | SearchInput s, Live p =>
      set_history b p (fun v => mkHistoryView s (filter_value v) (list_html v))
  | FilterChange x, Live p =>
      set_history b p (fun v => mkHistoryView (search_value v) x (list_html v))
  | _, _ => b
  end.


(** Runs from a start in which the storage holds [init]-acceptable data,
    through events allowed by [ok]. *)
Inductive reachable (init : option string -> Prop) (ok : Event -> Browser -> bool) : Browser -> Prop :=
  | reach_init s : init s -> reachable init ok (mkBrowser s NoPage)
  | reach_step e b : reachable init ok b -> ok e b = true -> reachable init ok (step_event e b).

(** Stored data that loads as a ledger whose numbers all survive JSON. *)
Definition safe_store (s : option string) : Prop :=
  exists l, loadTransactions s = Parsed l /\ forallb json_safe l = true.

(** A submission whose new record survives JSON: the clock value and the
    parsed amount are finite and not [-0]. *)
Definition event_safe (e : Event) (b : Browser) : bool :=
  match e, page b with
  | SubmitForm now, Live p =>
      match form p with
      | Some f => number_ok (of_Z now) && number_ok (parseFloat (form_amount f))
      | None => true
      end
  | _, _ => true
  end.

(** The text with its points removed: ["12.50"] gives ["1250"]. *)
Fixpoint drop_point (s : string) : string :=
  match s with
  | EmptyString => EmptyString
  | String c r => if (c =? ".")%char then drop_point r else String c (drop_point r)
  end.

(** An amount text as a user types it into the number input: a positive
    integer ("50000") or an amount with two decimals ("12.50"), of at most
    [2^52] rupees or hundredths. *)
Definition typed_amount (s : string) : bool :=
  let n := to_int (parseFloat s) in
  let c := to_int (parseFloat (drop_point s)) in
  (String.eqb s (int_text n) && (0 <? n)%Z && (n <=? 2 ^ 52)%Z) ||
  (String.eqb s (fixed_notation 2 c) && (0 <=? c)%Z && (c <=? 2 ^ 52)%Z).

(** A submission at a clock value after 1970 and before [2^52] ms (the year
    144683) of a typed amount: the condition on the clock is one the
    browser meets, the one on the amount is on the user. *)
Definition typed_safe (e : Event) (b : Browser) : bool :=
  match e, page b with
  | SubmitForm now, Live p =>
      match form p with
      | Some f => (0 <? now)%Z && (now <=? 2 ^ 52)%Z && typed_amount (form_amount f)
      | None => true
      end
  | _, _ => true
  end.

(** A record whose amount is an integer. *)
Definition whole_amount (t : Transaction) : bool := bool_decide (amount t = of_Z (to_int (amount t))).

(** Stored data that loads as JSON-safe records of whole amounts. *)
Definition whole_store (s : option string) : Prop :=
  exists l, loadTransactions s = Parsed l /\ forallb (fun t => json_safe t && whole_amount t) l = true.

(** A safe event whose submitted amount text, if any, is an integer of
    magnitude at most [2^53] written as [int_text] writes it ("50000",
    "-50"): the user enters whole rupees. *)
Definition whole_safe (e : Event) (b : Browser) : bool :=
  event_safe e b &&
  match e, page b with
  | SubmitForm _, Live p =>
      match form p with
      | Some f =>
          let z := to_int (parseFloat (form_amount f)) in
          String.eqb (form_amount f) (int_text z) && (Z.abs z <=? 2 ^ 53)%Z
      | None => true
      end
  | _, _ => true
  end.

(** The validation of line 69, as a property of a stored record: a
    non-empty title and date and an amount that is not NaN. *)
Definition record_ok (t : Transaction) : bool :=
  negb (String.eqb (title t) "") && negb (isNaN (amount t)) && negb (String.eqb (date t) "").

(** Stored data that loads as a ledger of JSON-safe, validated records. *)
Definition valid_store (s : option string) : Prop :=
  exists l, loadTransactions s = Parsed l /\ forallb (fun t => json_safe t && record_ok t) l = true.

(** The ledger a page holds is the one a reload would read. *)
Definition durable (b : Browser) : Prop :=
  match page b with
  | Live p => loadTransactions (store b) = Parsed (transactions p)
  | _ => True
  end.

(** A run of events, in order. *)
Definition run (es : list Event) (b : Browser) : Browser :=
  fold_left (fun b e => step_event e b) es b.

Definition is_navigate (e : Event) : bool :=
  match e with Navigate _ _ => true | _ => false end.

(** Every event of a run is allowed by [ok] where it happens. *)
Fixpoint run_ok (ok : Event -> Browser -> bool) (es : list Event) (b : Browser) : bool :=
  match es with
  | [] => true
  | e :: r => ok e b && run_ok ok r (step_event e b)
  end.
End AppModel.

(** ** A concrete host and session

    A host in India (UTC+5:30) with the [en-IN] date format, ASCII case
    mapping and the JSON codec; a page with all three regions; a fresh
    browser; and forms the user may submit. *)
Definition ist_locale : DateLocale := dmy_locale 19800000.

Definition ledger_page : PageKind := mkPageKind true true true "income" "all".

Definition t0 : Z := 1711929600000.   (** 2024-04-01T00:00:00Z *)
Definition t1 : Z := 1711933200000.   (** an hour later *)

Definition fresh_browser : Browser := mkBrowser None NoPage.

Definition salary_form : Form := mkForm "Salary" "50000" "income" "2024-04-01".
Definition refund_form : Form := mkForm "Refund" "-50" "expense" "2024-04-02".
Definition huge_form : Form := mkForm "Lottery" "1e999" "income" "2024-04-03".
Definition blank_amount_form : Form := mkForm "Coffee" "abc" "expense" "2024-04-02".

(** The session: load the page, fill the form, submit it. *)
Definition session (f : Form) : list Event := [Navigate ledger_page t0; Fill f; SubmitForm t1].

(** Two submissions in one visit: an income and a negative expense. *)
Definition two_submissions : list Event :=
  [Navigate ledger_page t0; Fill salary_form; SubmitForm t1; Fill refund_form; SubmitForm (t1 + 1)].

Definition coffee_form : Form := mkForm "Coffee" "12.50" "expense" "2024-04-02".

(** A salary in whole rupees, then a coffee with two decimals. *)
Definition two_typed_submissions : list Event :=
  [Navigate ledger_page t0; Fill salary_form; SubmitForm t1; Fill coffee_form; SubmitForm (t1 + 1)].

(** The page a browser shows, or the page the HTML defines. *)
Definition live_page (b : Browser) : Page :=
  match page b with Live p => p | _ => fresh_page ledger_page [] end.

Definition shown_dashboard (p : Page) : Dashboard :=
  match dashboard p with Some d => d | None => mkDashboard "" "" "" end.

Definition shown_history (p : Page) : HistoryView :=
  match history p with Some v => v | None => mkHistoryView "" "" "" end.

(** The browser with the page loaded and the form filled in. *)
Definition filled `{CaseMapping} `{DateLocale} `{LedgerCodec} (f : Form) : Browser :=
  run [Navigate ledger_page t0; Fill f] fresh_browser.

(** ** Theorems *)

Section AppFacts.
Context `{CaseMapping} `{DateLocale} `{LedgerCodec}.

Lemma updateDashboard_idem (l : list Transaction) (d : option Dashboard) :
  updateDashboard l (updateDashboard l d) = updateDashboard l d.
Proof. by destruct d. Qed.

Lemma showTransactionHistory_idem (l : list Transaction) (v : option HistoryView) :
  showTransactionHistory l (showTransactionHistory l v) = showTransactionHistory l v.
Proof. by destruct v. Qed.

#[local] Hint Rewrite updateDashboard_idem showTransactionHistory_idem : ledger_rw.

Lemma run_cons (e : Event) (es : list Event) (b : Browser) :
  run (e :: es) b = run es (step_event e b).
Proof. done. Qed.

(** A halted page has no listener: every event but navigation leaves the
    browser as it is. *)
Lemma halted_run (es : list Event) (b : Browser) :
  page b = Halted -> forallb (fun e => negb (is_navigate e)) es = true -> run es b = b.
Proof.
  intros Hb. induction es as [|e es IH]; [done|]. intros [He Hes]%andb_prop.
  rewrite run_cons. destruct e; try done; simpl; rewrite Hb; by apply IH.
Qed.

(** One event on a live page other than navigation keeps it live and
    appends at most one record to its ledger. *)
Lemma step_live_append (e : Event) (b : Browser) (p : Page) :
  page b = Live p -> is_navigate e = false ->
  exists p' added, page (step_event e b) = Live p' /\ transactions p' = (transactions p ++ added)%list.
Proof.
  intros Hb He. destruct e as [k now|f|now|x|x]; [done| | | |]; simpl; rewrite Hb.
  - destruct (form p); simpl; [|rewrite Hb]; eexists _, []; by rewrite app_nil_r.
  - unfold submit. destruct (form p) as [f|]; [|rewrite Hb; eexists _, []; by rewrite app_nil_r].
    case_if; simpl; [by eexists _, [_]|rewrite Hb; eexists _, []; by rewrite app_nil_r].
  - unfold set_history. destruct (history p); simpl; [|rewrite Hb]; eexists _, []; by rewrite app_nil_r.
  - unfold set_history. destruct (history p); simpl; [|rewrite Hb]; eexists _, []; by rewrite app_nil_r.
Qed.

(** C10: the ledger is append-only: in any sequence of edits, submissions,
    searches and filter changes on a live page, the page stays live and its
    ledger is the old one followed by the new records; no earlier record is
    changed, removed or reordered, whatever the list shows. *)
Theorem ledger_append_only (es : list Event) (b : Browser) (p : Page) :
  page b = Live p -> forallb (fun e => negb (is_navigate e)) es = true ->
  exists p' added, page (run es b) = Live p' /\ transactions p' = (transactions p ++ added)%list.
Proof.
  revert b p. induction es as [|e es IH]; intros b p Hb Hes.
  - exists p, []. by rewrite app_nil_r.
  - apply andb_prop in Hes as [He Hes]. apply negb_true_iff in He.
    destruct (step_live_append e b p Hb He) as (p1 & a1 & Hb1 & Ht1).
    destruct (IH _ _ Hb1 Hes) as (p2 & a2 & Hb2 & Ht2).
    exists p2, (a1 ++ a2)%list. rewrite run_cons, Ht2, Ht1. by rewrite app_assoc.
Qed.

(** A run whose events [ok] allows stays reachable. *)
Lemma run_reachable (init : option string -> Prop) (ok : Event -> Browser -> bool)
    (es : list Event) (b : Browser) :
  reachable init ok b -> run_ok ok es b = true -> reachable init ok (run es b).
Proof.
  revert b. induction es as [|e es IH]; intros b Hr Hok; [done|].
  apply andb_prop in Hok as [He Hes]. rewrite run_cons.
  apply IH; [by constructor|done].
Qed.

(** C6: a submission with a non-empty title and date and an amount that is
    not NaN appends the record (id [Date.now()]) to the ledger, saves the
    whole ledger, refreshes the dashboard, resets the form with today's
    date, and alerts. *)
Theorem submit_accepted (b : Browser) (p : Page) (f : Form) (now : Z) :
  page b = Live p -> form p = Some f ->
  form_title f <> "" -> isNaN (parseFloat (form_amount f)) = false -> form_date f <> "" ->
  let t := mkTransaction (of_Z now) (form_title f) (parseFloat (form_amount f)) (form_type f) (form_date f) in
  let l := (transactions p ++ [t])%list in
  step_event (SubmitForm now) b =
  mkBrowser (Some (stringify l))
    (Live (mkPage (kind p) l (updateDashboard l (dashboard p))
             (Some (set_today now (reset_form (kind p)))) (history p)
             (alerts p ++ [added_message])%list)).
Proof.
  intros Hb Hf Ht Hn Hd. simpl. rewrite Hb. unfold submit. rewrite Hf, Hn.
  apply String.eqb_neq in Ht, Hd. by rewrite Ht, Hd.
Qed.

(** C7: a submission with an empty title, an amount that parses to NaN or
    an empty date changes nothing: no record, no write to storage, no
    alert. *)
Theorem submit_rejected (b : Browser) (p : Page) (f : Form) (now : Z) :
  page b = Live p -> form p = Some f ->
  form_title f = "" \/ isNaN (parseFloat (form_amount f)) = true \/ form_date f = "" ->
  step_event (SubmitForm now) b = b.
Proof.
  intros Hb Hf Hbad. simpl. rewrite Hb. unfold submit. rewrite Hf.
  destruct Hbad as [Ht | [Hn | Hd]].
  - by rewrite Ht.
  - by rewrite Hn, andb_false_r.
  - by rewrite Hd, !andb_false_r.
Qed.

(** C5: an amount typed with two decimals, from 0.01 up to [2^52]
    hundredths, is accepted and recorded as the binary64 number nearest to
    it: a normal 53-bit significand [M] at an exponent [E <= -7], within
    half a unit in the last place ([2^E / 2]) of [c / 100], so within
    [2^-8] of it. *)
Theorem typed_amount_recorded_nearest (b : Browser) (p : Page) (f : Form) (now c : Z) :
  page b = Live p -> form p = Some f -> form_title f <> "" -> form_date f <> "" ->
  form_amount f = fixed_notation 2 c -> (0 < c <= 2 ^ 52)%Z ->
  exists p' M E, page (step_event (SubmitForm now) b) = Live p' /\
    transactions p' = (transactions p ++ [mkTransaction (of_Z now) (form_title f) (S754_finite false M E) (form_type f) (form_date f)])%list /\
    (2 ^ 52 <= Zpos M < 2 ^ 53 /\ E <= -7 /\ 2 * Z.abs (100 * Zpos M - c * 2 ^ (- E)) <= 100)%Z.
Proof.
  intros Hb Hf Ht Hd Ha Hc. destruct (round_cents c Hc) as (M & E & HME & Hbd).
  assert (Hx : parseFloat (form_amount f) = S754_finite false M E) by (rewrite Ha, parseFloat_cents by lia; done).
  simpl. rewrite Hb. unfold submit. rewrite Hf, Hx.
  apply String.eqb_neq in Ht, Hd. rewrite Ht, Hd. cbn [negb andb isNaN].
  eexists. exists M, E. split; [reflexivity|]. split; [reflexivity|exact Hbd].
Qed.

(** C27: the validation of line 69 only rejects NaN: an amount typed as a
    negative integer is accepted and recorded as that negative number, and
    as an expense it raises the balance by its magnitude (exactly, while
    the amounts are integers whose magnitudes add up to at most [2^53]). *)
Theorem negative_amount_recorded (b : Browser) (p : Page) (f : Form) (now z : Z) :
  page b = Live p -> form p = Some f -> form_title f <> "" -> form_date f <> "" ->
  form_amount f = int_text z -> (- 2 ^ 53 <= z < 0)%Z ->
  exists p', page (step_event (SubmitForm now) b) = Live p' /\
    transactions p' = (transactions p ++ [mkTransaction (of_Z now) (form_title f) (of_Z z) (form_type f) (form_date f)])%list /\
    (form_type f <> "income" ->
     Forall (fun t => amount t = of_Z (to_int (amount t))) (transactions p) ->
     (zsum (fun t => Z.abs (to_int (amount t))) (transactions p) - z <= 2 ^ 53)%Z ->
     balance (calculateBalances (transactions p')) =
       of_Z (zsum (fun t => to_int (amount t)) (List.filter is_income (transactions p)) -
             zsum (fun t => to_int (amount t)) (List.filter is_expense (transactions p)) + Z.abs z)).
Proof.
  intros Hb Hf Ht Hd Ha Hz.
  assert (Hx : parseFloat (form_amount f) = of_Z z) by (rewrite Ha; apply parseFloat_int_text).
  destruct (of_Z_finite z ltac:(lia) ltac:(lia)) as (M & E & HME & _).
  simpl. rewrite Hb. unfold submit. rewrite Hf, Hx, HME.
  apply String.eqb_neq in Ht, Hd. rewrite Ht, Hd. cbn -[calculateBalances].
  rewrite <- HME. eexists. split; [reflexivity|]. split; [reflexivity|]. cbn [transactions].
  intros Hty Hl Hbound. set (t := mkTransaction _ _ _ _ _).
  assert (Hi : is_income t = false) by (unfold is_income; cbn; by apply String.eqb_neq).
  assert (Hv : to_int (amount t) = z) by (apply to_int_of_Z; lia).
  assert (zsum_one : forall g, zsum g [t] = (g t + 0)%Z) by reflexivity.
  assert (zsum_nil : forall g, zsum g [] = 0%Z) by reflexivity.
  destruct (totals_of_ints (fun t => to_int (amount t)) (transactions p ++ [t])) as [-> _].
  - apply Forall_app. split; [done|]. constructor; [|done]. by rewrite Hv.
  - rewrite zsum_app, zsum_one. cbv beta. rewrite Hv. lia.
  - assert (He : is_expense t = true) by (unfold is_expense; by rewrite Hi).
    cbn [balance]. f_equal. rewrite !filter_app, !zsum_app. cbn [List.filter]. rewrite Hi, He.
    rewrite zsum_one, zsum_nil. cbv beta. rewrite Hv. lia.
Qed.

(** C32: the submit handler refreshes the dashboard but not the history
    list (lines 87-88): on a page that has the form and a list showing the
    ledger, an accepted submission whose record passes the list's search
    and filter leaves the list as it was, which is no longer what
    [showTransactionHistory] renders for the new ledger. *)
Theorem history_stale_after_submit (b : Browser) (p : Page) (f : Form) (v : HistoryView) (now : Z) :
  page b = Live p -> form p = Some f -> history p = Some v ->
  form_title f <> "" -> isNaN (parseFloat (form_amount f)) = false -> form_date f <> "" ->
  list_html v = render (historyItems (transactions p) (search_value v) (filter_value v)) ->
  matches (search_value v) (filter_value v)
    (mkTransaction (of_Z now) (form_title f) (parseFloat (form_amount f)) (form_type f) (form_date f)) = true ->
  exists p', page (step_event (SubmitForm now) b) = Live p' /\ history p' = Some v /\
    showTransactionHistory (transactions p') (history p') <> history p'.
Proof.
  intros Hb Hf Hv Ht Hn Hd Hcur Hm. simpl. rewrite Hb. unfold submit. rewrite Hf, Hn.
  apply String.eqb_neq in Ht, Hd. rewrite Ht, Hd. cbn [negb andb].
  eexists. split; [reflexivity|]. cbn [history transactions]. split; [done|].
  rewrite Hv. destruct v as [sv fv hv]. cbn [search_value filter_value list_html] in Hcur, Hm.
  cbn [showTransactionHistory search_value filter_value]. intros [= Hl]. subst hv.
  set (t := mkTransaction _ _ _ _ _) in *.
  assert (Hg : Permutation (historyItems (transactions p ++ [t]) sv fv) (t :: historyItems (transactions p) sv fv)).
  { rewrite !historyItems_perm, filter_app. cbn [List.filter]. rewrite Hm.
    symmetry. apply Permutation_cons_append. }
  pose proof (render_grows _ _ _ Hg) as Hlt. rewrite Hl in Hlt. lia.
Qed.

(** C22: a search or filter event on a page with the list stores the new
    input value and replaces the list's markup with the rendering of
    [historyItems] for the ledger, the search text and the filter; nothing
    else changes. *)
Theorem search_filter_refresh (b : Browser) (p : Page) (v : HistoryView) :
  page b = Live p -> history p = Some v ->
  (forall s, step_event (SearchInput s) b =
     mkBrowser (store b) (Live (mkPage (kind p) (transactions p) (dashboard p) (form p)
       (Some (mkHistoryView s (filter_value v) (render (historyItems (transactions p) s (filter_value v)))))
       (alerts p)))) /\
  (forall x, step_event (FilterChange x) b =
     mkBrowser (store b) (Live (mkPage (kind p) (transactions p) (dashboard p) (form p)
       (Some (mkHistoryView (search_value v) x (render (historyItems (transactions p) (search_value v) x))))
       (alerts p)))).
Proof. intros Hb Hv. split; intros; simpl; rewrite Hb; unfold set_history; by rewrite Hv. Qed.

(** The dashboard of a live page shows the totals of its ledger. *)
Definition dashboard_current (b : Browser) : Prop :=
  match page b with
  | Live p => dashboard p = updateDashboard (transactions p) (dashboard p)
  | _ => True
  end.

Lemma step_dashboard_current (e : Event) (b : Browser) :
  dashboard_current b -> dashboard_current (step_event e b).
Proof.
  unfold dashboard_current.
  destruct e as [k now|f|now|x|x], (page b) as [|p| |] eqn:Hb; simpl; try done;
    rewrite ?Hb; simpl.
  all: try (unfold load_page; destruct (loadTransactions (store b)); simpl;
            autorewrite with ledger_rw; done).
  - intros Hd. destruct (form p); simpl; by rewrite ?Hb.
  - intros Hd. unfold submit. destruct (form p); simpl; [|by rewrite Hb].
    case_if; simpl; [by autorewrite with ledger_rw|by rewrite Hb].
  - intros Hd. unfold set_history. destruct (history p); simpl; by rewrite ?Hb.
  - intros Hd. unfold set_history. destruct (history p); simpl; by rewrite ?Hb.
Qed.

Lemma reachable_dashboard_current (init : option string -> Prop) (ok : Event -> Browser -> bool)
    (b : Browser) :
  reachable init ok b -> dashboard_current b.
Proof. induction 1 as [s _|e b' _ IH _]; [done|]. by apply step_dashboard_current. Qed.

(** C8: in every run, whatever the events, a live page's dashboard holds
    the formatted balance, income and expense of the page's ledger. *)
Theorem dashboard_shows_totals (init : option string -> Prop) (ok : Event -> Browser -> bool)
    (b : Browser) (p : Page) (d : Dashboard) :
  reachable init ok b -> page b = Live p -> dashboard p = Some d ->
  let T := calculateBalances (transactions p) in
  d = mkDashboard (formatCurrency (balance T)) (formatCurrency (income T)) (formatCurrency (expense T)).
Proof.
  intros Hr Hb Hd. pose proof (reachable_dashboard_current init ok b Hr) as Hc.
  unfold dashboard_current in Hc. rewrite Hb, Hd in Hc. simpl in Hc. by injection Hc.
Qed.

Section Durability.
Context `{!LedgerCodecLaws}.

Lemma load_saved (l : list Transaction) :
  forallb json_safe l = true -> loadTransactions (saveTransactions l) = Parsed l.
Proof.
  intros Hl. unfold loadTransactions, saveTransactions.
  destruct (String.eqb_spec (stringify l) ""); [by apply stringify_nonempty in e|].
  by apply parse_stringify.
Qed.

(** What every safe run keeps: the store loads as a printable ledger and a
    live page holds exactly that ledger. *)
Definition saved_state (b : Browser) : Prop :=
  safe_store (store b) /\ durable b.

Lemma saved_live (b : Browser) (p : Page) :
  saved_state b -> page b = Live p ->
  loadTransactions (store b) = Parsed (transactions p) /\ forallb json_safe (transactions p) = true.
Proof.
  intros [[l [Hl Hs]] Hdur] Hb. unfold durable in Hdur. rewrite Hb in Hdur.
  rewrite Hdur in Hl. injection Hl as <-. by split.
Qed.

(** The browser after an event keeps the store and holds a page with the
    same ledger. *)
Lemma same_ledger_saved (b : Browser) (p p' : Page) :
  saved_state b -> page b = Live p -> transactions p' = transactions p ->
  saved_state (mkBrowser (store b) (Live p')).
Proof.
  intros Hsv Hb Ht. destruct (saved_live b p Hsv Hb) as [Hl Hs].
  split; [exists (transactions p); done|]. unfold durable; simpl. by rewrite Ht.
Qed.

(** The ledger a safe submission saves is JSON-safe. *)
Lemma submit_safe (b : Browser) (p : Page) (f : Form) (now : Z) :
  saved_state b -> page b = Live p -> form p = Some f ->
  number_ok (of_Z now) && number_ok (parseFloat (form_amount f)) = true ->
  forallb json_safe (transactions p ++
    [mkTransaction (of_Z now) (form_title f) (parseFloat (form_amount f)) (form_type f) (form_date f)])%list = true.
Proof.
  intros Hsv Hb Hf Hok. destruct (saved_live b p Hsv Hb) as [_ Hs].
  rewrite forallb_app, Hs. simpl. unfold json_safe. simpl. by rewrite Hok.
Qed.

Lemma step_saved_state (e : Event) (b : Browser) :
  saved_state b -> event_safe e b = true -> saved_state (step_event e b).
Proof.
  intros Hsv Hok. destruct e as [k now|f|now|x|x].
  - destruct Hsv as [[l0 [Hl0 Hs0]] _]. simpl. unfold load_page. rewrite Hl0.
    split; [by exists l0|done].
  - simpl. destruct (page b) as [|p| |] eqn:Hb; try done.
    destruct (form p); [|done]. by apply (same_ledger_saved b p).
  - unfold event_safe in Hok. simpl. destruct (page b) as [|p| |] eqn:Hb; try done.
    unfold submit. destruct (form p) as [f|] eqn:Hf; [|done].
    case_if; [|done].
    pose proof (submit_safe b p f now Hsv Hb Hf Hok) as Hsafe.
    split; [eexists; split; [by apply load_saved|done]|].
    unfold durable. simpl. by apply load_saved.
  - simpl. destruct (page b) as [|p| |] eqn:Hb; try done.
    unfold set_history. destruct (history p); [|done]. by apply (same_ledger_saved b p).
  - simpl. destruct (page b) as [|p| |] eqn:Hb; try done.
    unfold set_history. destruct (history p); [|done]. by apply (same_ledger_saved b p).
Qed.

Lemma reachable_saved (b : Browser) :
  reachable safe_store event_safe b -> saved_state b.
Proof.
  induction 1 as [s Hs|e b' _ IH Hok]; [done|]. by apply step_saved_state.
Qed.

(** The invariant behind persistence, for any codec that satisfies the
    laws of [Codec]: in every run that starts from a stored ledger whose
    numbers the codec reproduces ([number_ok]) and in which every
    submitted id and amount is such a number ([event_safe]), the ledger of
    a live page is exactly what reloading the page reads from storage. *)
Theorem reachable_durable (b : Browser) (p : Page) :
  reachable safe_store event_safe b -> page b = Live p ->
  loadTransactions (store b) = Parsed (transactions p).
Proof. intros Hr Hb. by destruct (saved_live b p (reachable_saved b Hr) Hb). Qed.

(** In such runs reloading a page gives a live page with the same ledger. *)
Theorem reachable_reload (b : Browser) (p : Page) (k : PageKind) (now : Z) :
  reachable safe_store event_safe b -> page b = Live p ->
  exists p', page (step_event (Navigate k now) b) = Live p' /\ transactions p' = transactions p.
Proof.
  intros Hr Hb. destruct (saved_live b p (reachable_saved b Hr) Hb) as [Hl _].
  simpl. unfold load_page. rewrite Hl. by eexists.
Qed.
(** A property of every record the stored entry loads as. *)
Definition store_all (P : Transaction -> bool) (b : Browser) : Prop :=
  forall l, loadTransactions (store b) = Parsed l -> forallb P l = true.

(** Every record that a submission allowed by [ok] adds, once it passed
    the validation of line 69, has the property [P]. *)
Definition adds_only (P : Transaction -> bool) (ok : Event -> Browser -> bool) : Prop :=
  forall now b p f, page b = Live p -> form p = Some f -> ok (SubmitForm now) b = true ->
    let t := mkTransaction (of_Z now) (form_title f) (parseFloat (form_amount f)) (form_type f) (form_date f) in
    record_ok t = true -> P t = true.

(** The records the stored entry loads as are validated ones. *)
Definition records_ok : Browser -> Prop := store_all record_ok.

Section StoreAll.
Variables (P : Transaction -> bool) (ok : Event -> Browser -> bool).
Hypothesis Hadd : adds_only P ok.
Hypothesis Hsafe : forall e b, ok e b = true -> event_safe e b = true.

Lemma step_store_all (e : Event) (b : Browser) :
  saved_state b -> store_all P b -> ok e b = true -> store_all P (step_event e b).
Proof.
  intros Hsv Hr Hok. destruct e as [k now|f|now|x|x]; simpl.
  - unfold load_page. by destruct (loadTransactions (store b)).
  - destruct (page b) as [|p| |]; try done. by destruct (form p).
  - pose proof (Hsafe _ _ Hok) as Hev. unfold event_safe in Hev.
    destruct (page b) as [|p| |] eqn:Hb; try done.
    unfold submit. destruct (form p) as [f|] eqn:Hf; [|done].
    destruct (negb (String.eqb (form_title f) "") && negb (isNaN (parseFloat (form_amount f))) &&
              negb (String.eqb (form_date f) "")) eqn:Hg; [|done].
    intros l. cbn [store]. rewrite load_saved by (by apply (submit_safe b p f now)).
    intros [= <-]. destruct (saved_live b p Hsv Hb) as [Hl _].
    rewrite forallb_app, (Hr _ Hl). simpl. rewrite (Hadd now b p f Hb Hf Hok); [done|].
    unfold record_ok. simpl. by rewrite Hg.
  - destruct (page b) as [|p| |]; try done. unfold set_history. by destruct (history p).
  - destruct (page b) as [|p| |]; try done. unfold set_history. by destruct (history p).
Qed.

(** Runs from a store whose records satisfy [P], through events allowed by
    [ok], keep the store durable and all its records satisfying [P]. *)
Lemma reachable_store_all (init : option string -> Prop) (b : Browser) :
  (forall s, init s -> safe_store s /\ forall l, loadTransactions s = Parsed l -> forallb P l = true) ->
  reachable init ok b -> saved_state b /\ store_all P b.
Proof.
  intros Hinit. induction 1 as [s Hs|e b' _ [Hsv Hr] Hok].
  - destruct (Hinit s Hs) as [Hst Hl]. split; [by split|exact Hl].
  - split; [apply step_saved_state; auto|by apply step_store_all].
Qed.
End StoreAll.

(** A store of JSON-safe records that passed the validation. *)
Lemma valid_store_all (s : option string) :
  valid_store s -> safe_store s /\ forall l, loadTransactions s = Parsed l -> forallb record_ok l = true.
Proof.
  intros (l & Hl & Hv). rewrite forallb_forall in Hv. split.
  - exists l. split; [done|]. apply forallb_forall. intros t Ht. apply Hv in Ht.
    by apply andb_prop in Ht as [? _].
  - intros l' Hl'. rewrite Hl in Hl'. injection Hl' as <-.
    apply forallb_forall. intros t Ht. apply Hv in Ht. by apply andb_prop in Ht as [_ ?].
Qed.

Lemma reachable_records_ok (b : Browser) :
  reachable valid_store event_safe b -> saved_state b /\ records_ok b.
Proof. apply reachable_store_all; [by intros ????????|done|exact valid_store_all]. Qed.

(** C11: every record of a live page's ledger passed the validation of line
    69 (a non-empty title and date and a non-NaN amount), in every run that
    starts from a store of such records and submits JSON-safe amounts:
    the records the page reads back after any reload are of this shape too. *)
Theorem reachable_records_valid (b : Browser) (p : Page) :
  reachable valid_store event_safe b -> page b = Live p ->
  Forall (fun t => title t <> "" /\ isNaN (amount t) = false /\ date t <> "") (transactions p).
Proof.
  intros Hr Hb. destruct (reachable_records_ok b Hr) as [Hsv Hok].
  destruct (saved_live b p Hsv Hb) as [Hl _]. apply Hok in Hl.
  apply Forall_forall. rewrite forallb_forall in Hl. intros t Ht.
  specialize (Hl t Ht). unfold record_ok in Hl.
  apply andb_prop in Hl as [Hl Rd]. apply andb_prop in Hl as [Rt Rn].
  apply negb_true_iff in Rt, Rn, Rd. apply String.eqb_neq in Rt, Rd. auto.
Qed.

(** C12: in every safe run, adding a transaction stays possible: reloading
    any page that has the form, filling it with a non-empty title and date
    and an amount that is not NaN, and submitting it gives a live page
    whose ledger ends with the new record. *)
Theorem add_after_reload (b : Browser) (k : PageKind) (now now' : Z) (f : Form) :
  reachable safe_store event_safe b -> has_form k = true ->
  form_title f <> "" -> isNaN (parseFloat (form_amount f)) = false -> form_date f <> "" ->
  exists p l, page (run [Navigate k now; Fill f; SubmitForm now'] b) = Live p /\
    transactions p =
    (l ++ [mkTransaction (of_Z now') (form_title f) (parseFloat (form_amount f)) (form_type f) (form_date f)])%list.
Proof.
  intros Hr Hk Ht Hn Hd. destruct (reachable_saved b Hr) as [(l & Hl & _) _].
  unfold run. simpl. unfold load_page. rewrite Hl. simpl. unfold fresh_page. rewrite Hk. simpl.
  unfold submit. simpl. rewrite Hn.
  apply String.eqb_neq in Ht, Hd. rewrite Ht, Hd. simpl.
  by do 2 eexists.
Qed.
Lemma reachable_mono (init : option string -> Prop) (ok1 ok2 : Event -> Browser -> bool) (b : Browser) :
  (forall e b, ok1 e b = true -> ok2 e b = true) -> reachable init ok1 b -> reachable init ok2 b.
Proof.
  intros Hok. induction 1 as [s Hs|e b' _ IH He]; [by apply reach_init|].
  apply reach_step; [done|]. by apply Hok.
Qed.

Lemma typed_amount_ok (s : string) : typed_amount s = true -> number_ok (parseFloat s) = true.
Proof.
  unfold typed_amount. intros [Hn|Hc]%orb_prop.
  - apply andb_prop in Hn as [[Hs%String.eqb_eq Hp%Z.ltb_lt]%andb_prop Hle%Z.leb_le].
    rewrite Hs, parseFloat_int_text. apply number_ok_clock. lia.
  - apply andb_prop in Hc as [[Hs%String.eqb_eq Hp%Z.leb_le]%andb_prop Hle%Z.leb_le].
    rewrite Hs. apply number_ok_cents. lia.
Qed.

Lemma typed_safe_event_safe (e : Event) (b : Browser) : typed_safe e b = true -> event_safe e b = true.
Proof.
  unfold typed_safe, event_safe. repeat case_match; try done.
  intros [[Hp Hle]%andb_prop Ha]%andb_prop. apply Z.ltb_lt in Hp. apply Z.leb_le in Hle.
  rewrite number_ok_clock by lia. by rewrite typed_amount_ok.
Qed.

(** C1: the persistence guarantee holds for what a user types: in every run
    from a JSON-safe store in which every submitted amount is typed as a
    positive integer or with two decimals (at most [2^52] rupees or
    hundredths) and the clock reads a positive time value up to [2^52] ms,
    a live page's ledger is what reloading reads, since [JSON.stringify]
    prints such ids and amounts as digits that read back exactly. *)
Theorem reachable_durable_typed (b : Browser) (p : Page) :
  reachable safe_store typed_safe b -> page b = Live p ->
  loadTransactions (store b) = Parsed (transactions p).
Proof.
  intros Hr Hb. apply (reachable_mono _ _ event_safe) in Hr; [|exact typed_safe_event_safe].
  by destruct (saved_live b p (reachable_saved b Hr) Hb).
Qed.

Lemma whole_store_all (s : option string) :
  whole_store s -> safe_store s /\ forall l, loadTransactions s = Parsed l -> forallb whole_amount l = true.
Proof.
  intros (l & Hl & Hv). rewrite forallb_forall in Hv. split.
  - exists l. split; [done|]. apply forallb_forall. intros t Ht. apply Hv in Ht.
    by apply andb_prop in Ht as [? _].
  - intros l' Hl'. rewrite Hl in Hl'. injection Hl' as <-.
    apply forallb_forall. intros t Ht. apply Hv in Ht. by apply andb_prop in Ht as [_ ?].
Qed.

Lemma whole_adds_only : adds_only whole_amount whole_safe.
Proof.
  intros now b p f Hb Hf Hok t _. unfold whole_safe in Hok. rewrite Hb, Hf in Hok.
  apply andb_prop in Hok as [_ [Ht%String.eqb_eq Hz%Z.leb_le]%andb_prop].
  unfold whole_amount, t. simpl. apply bool_decide_eq_true.
  rewrite Ht, parseFloat_int_text, to_int_of_Z by done. done.
Qed.

Lemma whole_safe_event_safe (e : Event) (b : Browser) : whole_safe e b = true -> event_safe e b = true.
Proof. by intros [? _]%andb_prop. Qed.

(** C9: when the user enters whole rupees, the dashboard is exact: in every
    run from a store of JSON-safe records with integer amounts in which
    every submitted amount is typed as an integer of magnitude at most
    [2^53], a live page's dashboard shows the rupee texts of the exact
    integer balance, income and expense of its ledger, as long as the
    magnitudes of its amounts add up to at most [2^53]. *)
Theorem whole_rupee_dashboard (b : Browser) (p : Page) (d : Dashboard) :
  reachable whole_store whole_safe b -> page b = Live p -> dashboard p = Some d ->
  (zsum (fun t => Z.abs (to_int (amount t))) (transactions p) <= 2 ^ 53)%Z ->
  let I := zsum (fun t => to_int (amount t)) (List.filter is_income (transactions p)) in
  let E := zsum (fun t => to_int (amount t)) (List.filter is_expense (transactions p)) in
  d = mkDashboard (rupees (I - E)) (rupees I) (rupees E).
Proof.
  intros Hr Hb Hd Hbound I E.
  pose proof (reachable_dashboard_current _ _ b Hr) as Hc.
  unfold dashboard_current in Hc. rewrite Hb, Hd in Hc. injection Hc as ->.
  destruct (reachable_store_all whole_amount whole_safe whole_adds_only whole_safe_event_safe
              whole_store b whole_store_all Hr) as [Hsv Hw].
  destruct (saved_live b p Hsv Hb) as [Hl _]. apply Hw in Hl.
  assert (Hf : Forall (fun t => amount t = of_Z (to_int (amount t))) (transactions p)).
  { apply Forall_forall. rewrite forallb_forall in Hl. intros t Ht.
    specialize (Hl t Ht). unfold whole_amount in Hl. by apply bool_decide_eq_true in Hl. }
  destruct (totals_of_ints (fun t => to_int (amount t)) _ Hf Hbound) as [Hc (Bd & Bi & Be)].
  rewrite Hc. cbn [balance income expense]. by rewrite !formatCurrency_of_Z.
Qed.
End Durability.
End AppFacts.

(** ** The concrete host: witnesses and what the runs show *)
#[local] Existing Instance ist_locale.

Lemma session_reachable :
  reachable safe_store event_safe (run (session salary_form) fresh_browser).
Proof. apply run_reachable; [apply reach_init; by exists []|]. by vm_compute. Qed.

Lemma reachable_records_valid_witness :
  let b := run (session salary_form) fresh_browser in let p := live_page b in
  (reachable valid_store event_safe b /\ page b = Live p) /\
  Forall (fun t => title t <> "" /\ isNaN (amount t) = false /\ date t <> "") (transactions p).
Proof.
  intros b p.
  assert (Hr : reachable valid_store event_safe b).
  { apply run_reachable; [apply reach_init; by exists []|]. by vm_compute. }
  assert (Hb : page b = Live p) by (vm_compute; reflexivity).
  exact (conj (conj Hr Hb) (reachable_records_valid b p Hr Hb)).
Defined.

Lemma reachable_durable_typed_witness :
  let b := run two_typed_submissions fresh_browser in let p := live_page b in
  (reachable safe_store typed_safe b /\ page b = Live p) /\
  loadTransactions (store b) = Parsed (transactions p).
Proof.
  intros b p.
  assert (Hr : reachable safe_store typed_safe b).
  { apply run_reachable; [apply reach_init; by exists []|]. by vm_compute. }
  assert (Hb : page b = Live p) by (vm_compute; reflexivity).
  exact (conj (conj Hr Hb) (reachable_durable_typed b p Hr Hb)).
Defined.

Lemma whole_rupee_dashboard_witness :
  let b := run two_submissions fresh_browser in let p := live_page b in
  (reachable whole_store whole_safe b /\ page b = Live p /\ dashboard p = Some (shown_dashboard p) /\
   (zsum (fun t => Z.abs (to_int (amount t))) (transactions p) <= 2 ^ 53)%Z) /\
  (let I := zsum (fun t => to_int (amount t)) (List.filter is_income (transactions p)) in
   let E := zsum (fun t => to_int (amount t)) (List.filter is_expense (transactions p)) in
   shown_dashboard p = mkDashboard (rupees (I - E)) (rupees I) (rupees E)).
Proof.
  intros b p.
  assert (Hr : reachable whole_store whole_safe b).
  { apply run_reachable; [apply reach_init; by exists []|]. by vm_compute. }
  assert (Hb : page b = Live p) by (vm_compute; reflexivity).
  assert (Hd : dashboard p = Some (shown_dashboard p)) by (vm_compute; reflexivity).
  assert (Hz : (zsum (fun t => Z.abs (to_int (amount t))) (transactions p) <= 2 ^ 53)%Z)
    by (vm_compute; discriminate).
  exact (conj (conj Hr (conj Hb (conj Hd Hz))) (whole_rupee_dashboard b p (shown_dashboard p) Hr Hb Hd Hz)).
Defined.

Lemma add_after_reload_witness :
  let b := run (session salary_form) fresh_browser in
  (reachable safe_store event_safe b /\ has_form ledger_page = true /\
   form_title refund_form <> "" /\ isNaN (parseFloat (form_amount refund_form)) = false /\
   form_date refund_form <> "") /\
  exists p l, page (run [Navigate ledger_page t1; Fill refund_form; SubmitForm t1] b) = Live p /\
    transactions p =
    (l ++ [mkTransaction (of_Z t1) (form_title refund_form) (parseFloat (form_amount refund_form))
                         (form_type refund_form) (form_date refund_form)])%list.
Proof.
  intros b.
  assert (Hk : has_form ledger_page = true) by reflexivity.
  assert (Ht : form_title refund_form <> "") by discriminate.
  assert (Hn : isNaN (parseFloat (form_amount refund_form)) = false) by (vm_compute; reflexivity).
  assert (Hd : form_date refund_form <> "") by discriminate.
  exact (conj (conj session_reachable (conj Hk (conj Ht (conj Hn Hd))))
    (add_after_reload b ledger_page t1 t1 refund_form session_reachable Hk Ht Hn Hd)).
Defined.

Lemma submit_accepted_witness :
  let b := filled salary_form in let p := live_page b in let f := salary_form in
  (page b = Live p /\ form p = Some f /\ form_title f <> "" /\
   isNaN (parseFloat (form_amount f)) = false /\ form_date f <> "") /\
  (let t := mkTransaction (of_Z t1) (form_title f) (parseFloat (form_amount f)) (form_type f) (form_date f) in
   let l := (transactions p ++ [t])%list in
   step_event (SubmitForm t1) b =
   mkBrowser (Some (stringify l))
     (Live (mkPage (kind p) l (updateDashboard l (dashboard p))
              (Some (set_today t1 (reset_form (kind p)))) (history p)
              (alerts p ++ [added_message])%list))).
Proof.
  intros b p f.
  assert (Hb : page b = Live p) by (vm_compute; reflexivity).
  assert (Hf : form p = Some f) by (vm_compute; reflexivity).
  assert (Hn : isNaN (parseFloat (form_amount f)) = false) by (vm_compute; reflexivity).
  assert (Ht : form_title f <> "") by discriminate.
  assert (Hd : form_date f <> "") by discriminate.
  split; [done|]. exact (submit_accepted b p f t1 Hb Hf Ht Hn Hd).
Defined.

Lemma ledger_append_only_witness :
  let b := filled salary_form in let p := live_page b in
  let es := [SubmitForm t1; SearchInput "sal"; Fill refund_form; SubmitForm t1] in
  (page b = Live p /\ forallb (fun e => negb (is_navigate e)) es = true) /\
  exists p' added, page (run es b) = Live p' /\ transactions p' = (transactions p ++ added)%list.
Proof.
  intros b p es.
  assert (Hb : page b = Live p) by (vm_compute; reflexivity).
  assert (He : forallb (fun e => negb (is_navigate e)) es = true) by reflexivity.
  exact (conj (conj Hb He) (ledger_append_only es b p Hb He)).
Defined.

Lemma submit_rejected_witness :
  let b := filled blank_amount_form in let p := live_page b in let f := blank_amount_form in
  (page b = Live p /\ form p = Some f /\
   (form_title f = "" \/ isNaN (parseFloat (form_amount f)) = true \/ form_date f = "")) /\
  step_event (SubmitForm t1) b = b.
Proof.
  intros b p f.
  assert (Hb : page b = Live p) by (vm_compute; reflexivity).
  assert (Hf : form p = Some f) by (vm_compute; reflexivity).
  assert (Hn : form_title f = "" \/ isNaN (parseFloat (form_amount f)) = true \/ form_date f = "")
    by (right; left; vm_compute; reflexivity).
  split; [done|]. exact (submit_rejected b p f t1 Hb Hf Hn).
Defined.

Lemma search_filter_refresh_witness :
  let b := run (session salary_form) fresh_browser in
  let p := live_page b in let v := shown_history p in
  (page b = Live p /\ history p = Some v) /\
  (forall s, step_event (SearchInput s) b =
     mkBrowser (store b) (Live (mkPage (kind p) (transactions p) (dashboard p) (form p)
       (Some (mkHistoryView s (filter_value v) (render (historyItems (transactions p) s (filter_value v)))))
       (alerts p)))) /\
  (forall x, step_event (FilterChange x) b =
     mkBrowser (store b) (Live (mkPage (kind p) (transactions p) (dashboard p) (form p)
       (Some (mkHistoryView (search_value v) x (render (historyItems (transactions p) (search_value v) x))))
       (alerts p)))).
Proof.
  intros b p v.
  assert (Hb : page b = Live p) by (vm_compute; reflexivity).
  assert (Hv : history p = Some v) by (vm_compute; reflexivity).
  exact (conj (conj Hb Hv) (search_filter_refresh b p v Hb Hv)).
Defined.

Lemma dashboard_shows_totals_witness :
  let b := run (session salary_form) fresh_browser in
  let p := live_page b in let d := shown_dashboard p in
  (reachable safe_store event_safe b /\ page b = Live p /\ dashboard p = Some d) /\
  (let T := calculateBalances (transactions p) in
   d = mkDashboard (formatCurrency (balance T)) (formatCurrency (income T)) (formatCurrency (expense T))).
Proof.
  intros b p d.
  assert (Hb : page b = Live p) by (vm_compute; reflexivity).
  assert (Hd : dashboard p = Some d) by (vm_compute; reflexivity).
  split; [exact (conj session_reachable (conj Hb Hd))|]. exact (dashboard_shows_totals safe_store event_safe b p d session_reachable Hb Hd).
Defined.

(** C24: when the stored entry is not JSON, line 9 throws: the page halts
    before [initApp] registers any listener, and every later edit, submit,
    search or filter event does nothing, so no transaction can be added
    until the storage is cleared (the spec asks for an empty ledger). *)
Theorem corrupt_store_halts (s : string) (k : PageKind) (now : Z) (pg : PageState) (es : list Event) :
  s <> "" -> json_parse s = None -> forallb (fun e => negb (is_navigate e)) es = true ->
  run (Navigate k now :: es) (mkBrowser (Some s) pg) = mkBrowser (Some s) Halted.
Proof.
  intros Hs Hp Hes. rewrite run_cons. simpl. unfold load_page, loadTransactions. simpl.
  apply String.eqb_neq in Hs. rewrite Hs. simpl. unfold parse_ledger. rewrite Hp.
  by apply halted_run.
Qed.

Lemma corrupt_store_halts_witness :
  ("{not json" <> "" /\ json_parse "{not json" = None /\
   forallb (fun e => negb (is_navigate e)) [Fill salary_form; SubmitForm t1] = true) /\
  run [Navigate ledger_page t0; Fill salary_form; SubmitForm t1] (mkBrowser (Some "{not json") NoPage)
  = mkBrowser (Some "{not json") Halted.
Proof.
  assert (Hs : "{not json" <> "") by discriminate.
  assert (Hp : json_parse "{not json" = None) by (vm_compute; reflexivity).
  assert (He : forallb (fun e => negb (is_navigate e)) [Fill salary_form; SubmitForm t1] = true)
    by reflexivity.
  split; [exact (conj Hs (conj Hp He))|].
  exact (corrupt_store_halts "{not json" ledger_page t0 NoPage _ Hs Hp He).
Defined.

(** C28: an amount that parses to an infinity (such as "1e999") passes the
    NaN check and is recorded, but [JSON.stringify] writes it as [null]:
    from any page whose ledger survives JSON, submitting such an amount at
    a real clock value leaves a stored entry that reloads as JSON that is
    not a ledger of numbers, so the page the user had is lost.  (The
    page's HTML is not in the repository; an amount field of type number
    would sanitize such text to the empty string.) *)
Theorem infinite_amount_breaks_reload (b : Browser) (p : Page) (f : Form) (now now' : Z) (k : PageKind) (sg : bool) :
  page b = Live p -> form p = Some f -> form_title f <> "" -> form_date f <> "" ->
  parseFloat (form_amount f) = S754_infinity sg ->
  forallb json_safe (transactions p) = true -> (0 < now <= 2 ^ 52)%Z ->
  let b' := step_event (SubmitForm now) b in
  (exists p', page b' = Live p' /\ List.In (S754_infinity sg) (map amount (transactions p'))) /\
  loadTransactions (store b') = Foreign /\ page (step_event (Navigate k now') b') = Unmodelled.
Proof.
  intros Hb Hf Ht Hd Hx Hs Hn b'.
  assert (Hl : loadTransactions (store b') = Foreign).
  { unfold b'. simpl. rewrite Hb. unfold submit. rewrite Hf, Hx.
    apply String.eqb_neq in Ht, Hd. rewrite Ht, Hd.
    cbn [isNaN negb andb store saveTransactions loadTransactions stringify parse json_codec].
    match goal with |- context [String.eqb ?s ""] => destruct (String.eqb_spec s "") as [E|_] end;
      [by apply stringify_ledger_nonempty in E|].
    apply parse_ledger_nonfinite.
    - rewrite forallb_app, andb_true_iff. split.
      + apply forallb_forall. rewrite forallb_forall in Hs. intros t Htl. by apply json_safe_storable, Hs.
      + cbn. unfold json_storable. cbn. by rewrite json_roundtrip_number_of_Z.
    - apply Exists_app. right. by constructor. }
  split; [|split; [done|]].
  - unfold b'. simpl. rewrite Hb. unfold submit. rewrite Hf, Hx.
    apply String.eqb_neq in Ht, Hd. rewrite Ht, Hd. eexists. split; [reflexivity|].
    cbn [transactions]. rewrite map_app. apply in_or_app. right. by left.
  - simpl. unfold load_page. by rewrite Hl.
Qed.

Lemma infinite_amount_breaks_reload_witness :
  let b := filled huge_form in let p := live_page b in let f := huge_form in
  (page b = Live p /\ form p = Some f /\ form_title f <> "" /\ form_date f <> "" /\
   parseFloat (form_amount f) = S754_infinity false /\ forallb json_safe (transactions p) = true /\
   (0 < t1 <= 2 ^ 52)%Z) /\
  let b' := step_event (SubmitForm t1) b in
  (exists p', page b' = Live p' /\ List.In (S754_infinity false) (map amount (transactions p'))) /\
  loadTransactions (store b') = Foreign /\ page (step_event (Navigate ledger_page t1) b') = Unmodelled.
Proof.
  intros b p f.
  assert (Hb : page b = Live p) by (vm_compute; reflexivity).
  assert (Hf : form p = Some f) by (vm_compute; reflexivity).
  assert (Ht : form_title f <> "") by discriminate.
  assert (Hd : form_date f <> "") by discriminate.
  assert (Hx : parseFloat (form_amount f) = S754_infinity false) by (vm_compute; reflexivity).
  assert (Hs : forallb json_safe (transactions p) = true) by (vm_compute; reflexivity).
  assert (Hn : (0 < t1 <= 2 ^ 52)%Z) by (unfold t1; lia).
  exact (conj (conj Hb (conj Hf (conj Ht (conj Hd (conj Hx (conj Hs Hn))))))
    (infinite_amount_breaks_reload b p f t1 t1 ledger_page false Hb Hf Ht Hd Hx Hs Hn)).
Defined.

Lemma typed_amount_recorded_nearest_witness :
  let b := filled coffee_form in let p := live_page b in let f := coffee_form in
  (page b = Live p /\ form p = Some f /\ form_title f <> "" /\ form_date f <> "" /\
   form_amount f = fixed_notation 2 1250 /\ (0 < 1250 <= 2 ^ 52)%Z) /\
  exists p' M E, page (step_event (SubmitForm t1) b) = Live p' /\
    transactions p' = (transactions p ++ [mkTransaction (of_Z t1) (form_title f) (S754_finite false M E) (form_type f) (form_date f)])%list /\
    (2 ^ 52 <= Zpos M < 2 ^ 53 /\ E <= -7 /\ 2 * Z.abs (100 * Zpos M - 1250 * 2 ^ (- E)) <= 100)%Z.
Proof.
  intros b p f.
  assert (Hb : page b = Live p) by (vm_compute; reflexivity).
  assert (Hf : form p = Some f) by (vm_compute; reflexivity).
  assert (Ht : form_title f <> "") by discriminate.
  assert (Hd : form_date f <> "") by discriminate.
  assert (Ha : form_amount f = fixed_notation 2 1250) by (vm_compute; reflexivity).
  assert (Hc : (0 < 1250 <= 2 ^ 52)%Z) by lia.
  exact (conj (conj Hb (conj Hf (conj Ht (conj Hd (conj Ha Hc)))))
    (typed_amount_recorded_nearest b p f t1 1250 Hb Hf Ht Hd Ha Hc)).
Defined.

Lemma negative_amount_recorded_witness :
  let b := filled refund_form in let p := live_page b in let f := refund_form in
  (page b = Live p /\ form p = Some f /\ form_title f <> "" /\ form_date f <> "" /\
   form_amount f = int_text (-50) /\ (- 2 ^ 53 <= -50 < 0)%Z) /\
  exists p', page (step_event (SubmitForm t1) b) = Live p' /\
    transactions p' = (transactions p ++ [mkTransaction (of_Z t1) (form_title f) (of_Z (-50)) (form_type f) (form_date f)])%list /\
    (form_type f <> "income" ->
     Forall (fun t => amount t = of_Z (to_int (amount t))) (transactions p) ->
     (zsum (fun t => Z.abs (to_int (amount t))) (transactions p) - -50 <= 2 ^ 53)%Z ->
     balance (calculateBalances (transactions p')) =
       of_Z (zsum (fun t => to_int (amount t)) (List.filter is_income (transactions p)) -
             zsum (fun t => to_int (amount t)) (List.filter is_expense (transactions p)) + Z.abs (-50))).
Proof.
  intros b p f.
  assert (Hb : page b = Live p) by (vm_compute; reflexivity).
  assert (Hf : form p = Some f) by (vm_compute; reflexivity).
  assert (Ht : form_title f <> "") by discriminate.
  assert (Hd : form_date f <> "") by discriminate.
  assert (Ha : form_amount f = int_text (-50)) by (vm_compute; reflexivity).
  assert (Hz : (- 2 ^ 53 <= -50 < 0)%Z) by lia.
  exact (conj (conj Hb (conj Hf (conj Ht (conj Hd (conj Ha Hz)))))
    (negative_amount_recorded b p f t1 (-50) Hb Hf Ht Hd Ha Hz)).
Defined.

Lemma history_stale_after_submit_witness :
  let b := filled salary_form in let p := live_page b in let f := salary_form in
  let v := shown_history p in
  let t := mkTransaction (of_Z t1) (form_title f) (parseFloat (form_amount f)) (form_type f) (form_date f) in
  (page b = Live p /\ form p = Some f /\ history p = Some v /\
   form_title f <> "" /\ isNaN (parseFloat (form_amount f)) = false /\ form_date f <> "" /\
   list_html v = render (historyItems (transactions p) (search_value v) (filter_value v)) /\
   matches (search_value v) (filter_value v) t = true) /\
  exists p', page (step_event (SubmitForm t1) b) = Live p' /\ history p' = Some v /\
    showTransactionHistory (transactions p') (history p') <> history p'.
Proof.
  intros b p f v t.
  assert (Hb : page b = Live p) by (vm_compute; reflexivity).
  assert (Hf : form p = Some f) by (vm_compute; reflexivity).
  assert (Hv : history p = Some v) by (vm_compute; reflexivity).
  assert (Ht : form_title f <> "") by discriminate.
  assert (Hn : isNaN (parseFloat (form_amount f)) = false) by (vm_compute; reflexivity).
  assert (Hd : form_date f <> "") by discriminate.
  assert (Hc : list_html v = render (historyItems (transactions p) (search_value v) (filter_value v)))
    by (vm_compute; reflexivity).
  assert (Hm : matches (search_value v) (filter_value v) t = true) by (vm_compute; reflexivity).
  exact (conj (conj Hb (conj Hf (conj Hv (conj Ht (conj Hn (conj Hd (conj Hc Hm)))))))
    (history_stale_after_submit b p f v t1 Hb Hf Hv Ht Hn Hd Hc Hm)).
Defined.

(** Ids are [Date.now()] (line 72): two submissions in the same
    millisecond store two transactions with the same id. *)
Example duplicate_ids_same_millisecond :
  let b := run [Navigate ledger_page t0; Fill salary_form; SubmitForm t1;
                Fill refund_form; SubmitForm t1] fresh_browser in
  map id (transactions (live_page b)) = [of_Z t1; of_Z t1].
Proof. vm_compute. reflexivity. Qed.

End App.
